(** * Bookstore backend: the authentication core and the cart handlers

    A shallow embedding of [backend/routes/handlers.go].  Handlers are
    functions from a request and a database state to a new database state
    and a response.  Whatever the Go code obtains from outside the process
    (clock, environment variables, entropy, the pseudo-random generator,
    database faults) is read from an explicit [World].

    The cryptographic libraries are modelled symbolically: an HMAC tag and a
    bcrypt digest are constructors over exactly the data the library feeds to
    the primitive, so two tags (digests) are equal iff those inputs are. *)

From Stdlib Require Import ZArith Floats Uint63 Strings.Byte.
From stdpp Require Import base option list gmap strings.

Local Open Scope string_scope.
Local Open Scope Z_scope.

#[global] Instance byte_eq_dec : EqDecision byte := Byte.byte_eq_dec.

(** Go's [(T, error)] results. *)
Inductive result (E A : Type) : Type :=
| Ok (a : A)
| Err (e : E).
Arguments Ok {E A} a.
Arguments Err {E A} e.

(** ** Go scalars *)

Module Go.

(** [uint] on the 64-bit targets the service is built for. *)
Definition uint_bits : Z := 64.
Definition uint_modulus : Z := 2 ^ uint_bits.
Definition wrap_uint (n : Z) : Z := n mod uint_modulus.

(** [[]byte(s)] *)
Definition bytes_of_string (s : string) : list byte :=
  String.list_byte_of_string s.

(** [n / d] rounded to the nearest integer, ties to the even one. *)
Definition round_half_even (n d : Z) : Z :=
  let q := n / d in
  let r := n mod d in
  if 2 * r <? d then q
  else if d <? 2 * r then q + 1
  else if Z.even q then q else q + 1.

(** The binary64 value nearest to the integer [n]: 53 significant bits are
    kept.  Integer-valued [float64]s are represented by their value. *)
Definition float64_of_int (n : Z) : Z :=
  let a := Z.abs n in
  let e := Z.max 0 (Z.log2 a - 52) in
  Z.sgn n * (round_half_even a (2 ^ e) * 2 ^ e).

(** [uint(f)] for an integer-valued [f].  Outside the range of [uint] the
    language leaves the result to the implementation: [platform] is what
    the target gives there. *)
Definition uint_of_float64 (platform : Z -> Z) (f : Z) : Z :=
  if (0 <=? f) && (f <? uint_modulus) then f else wrap_uint (platform f).

(** [float64(n)] for [n : uint], as an IEEE binary64 number.  Above 2^63
    the argument is halved with a sticky low bit, converted and doubled,
    which rounds as the direct conversion does. *)
Definition float64_of_uint (n : Z) : float :=
  if n <? 2 ^ 63 then PrimFloat.of_uint63 (Uint63.of_Z n)
  else PrimFloat.mul
         (PrimFloat.of_uint63 (Uint63.of_Z (Z.lor (Z.shiftr n 1) (Z.land n 1))))
         2%float.

(** The integer an integral binary64 number denotes. *)
Definition int_of_float (f : float) : option Z :=
  match Prim2SF f with
  | S754_zero _ => Some 0
  | S754_finite s m e =>
      let v := if 0 <=? e then Z.pos m * 2 ^ e else Z.pos m / 2 ^ (- e) in
      Some (if s then - v else v)
  | _ => None
  end.

End Go.

(** ** Package [time] *)

Module time.

(** An instant, in nanoseconds since the Unix epoch; a [Duration] is a
    number of nanoseconds. *)
Definition Time := Z.
Definition Duration := Z.

Definition Second : Duration := 1000000000.
Definition Hour : Duration := 3600 * Second.

Definition Add (t : Time) (d : Duration) : Time := t + d.
Definition Unix (t : Time) : Z := t / Second.
Definition UnixNano (t : Time) : Z := t.

End time.

(** ** Package [golang.org/x/crypto/bcrypt] *)

Module bcrypt.

Definition MinCost : Z := 4.
Definition MaxCost : Z := 31.
Definition DefaultCost : Z := 10.

Inductive error :=
| ErrMismatchedHashAndPassword
| ErrHashTooShort
| ErrPasswordTooLong
| InvalidCostError (cost : Z)
| ErrEntropy.

(** [blowfish.ExpandKey] reads the 18 words of the P-array, 72 bytes, from
    the key, starting over at its beginning when it runs out. *)
Fixpoint key_stream (n : nat) (key : list byte) (j : nat) : list byte :=
  match n with
  | O => []
  | S n' =>
      match key !! j with
      | Some b =>
          b :: key_stream n' key (if (S j <? length key)%nat then S j else O)
      | None => []
      end
  end.

(** [expensiveBlowfishSetup] appends the trailing NUL of the C
    implementations to the password and keys the cipher with it. *)
Definition key_material (password : list byte) : list byte :=
  key_stream 72 (password ++ [x00])%list 0.

(** The digest, symbolically: the cost, the salt and the bytes of the
    password that reach the key schedule. *)
Inductive digest :=
| EksBlowfish (cost : Z) (salt : list byte) (key : list byte).

#[global] Instance digest_eq_dec : EqDecision digest.
Proof. solve_decision. Defined.

(** [type hashed struct], the decoded form of the stored hash. *)
Record hashed := {
  hash : digest;
  salt : list byte;
  cost : Z
}.

(** A [[]byte] as this package meets it: the encoding of a [hashed], or
    bytes that are no such encoding (the [nil] of a fresh struct among
    them). *)
Inductive bytes :=
| Encoded (h : hashed)
| Raw (b : list byte).

Definition newFromHash (hashedSecret : bytes) : result error hashed :=
  match hashedSecret with
  | Encoded h => Ok h
  | Raw _ => Err ErrHashTooShort
  end.

Definition bcrypt_digest (password : list byte) (cost : Z) (salt : list byte)
  : digest :=
  EksBlowfish cost salt (key_material password).

(** [entropy] is what [crypto/rand] delivers for the 16 salt bytes, [None]
    when the read fails. *)
Definition GenerateFromPassword (entropy : option (list byte))
    (password : list byte) (cost : Z) : result error bytes :=
  if (72 <? length password)%nat then Err ErrPasswordTooLong
  else
    let cost := if cost <? MinCost then DefaultCost else cost in
    if MaxCost <? cost then Err (InvalidCostError cost)
    else
      match entropy with
      | None => Err ErrEntropy
      | Some s =>
          Ok (Encoded {| hash := bcrypt_digest password cost s;
                         salt := s; cost := cost |})
      end.

(** [None] is Go's [nil] error. *)
Definition CompareHashAndPassword (hashedPassword : bytes)
    (password : list byte) : option error :=
  match newFromHash hashedPassword with
  | Err e => Some e
  | Ok p =>
      let otherHash := bcrypt_digest password (cost p) (salt p) in
      if decide (hash p = otherHash) then None
      else Some ErrMismatchedHashAndPassword
  end.

End bcrypt.

(** ** Package [github.com/golang-jwt/jwt/v4] *)

Module jwt.

(** The dynamically typed values a [MapClaims] holds. *)
Inductive value :=
| VUint (n : Z)
| VInt64 (n : Z)
| VFloat64 (f : Z)
| VString (s : string)
| VBool (b : bool).

Abbreviation MapClaims := (gmap string value).

(** JSON scalars on the wire. *)
Inductive json :=
| JNumber (n : Z)
| JString (s : string)
| JBool (b : bool).

#[global] Instance json_eq_dec : EqDecision json.
Proof. solve_decision. Defined.

Definition marshal (v : value) : json :=
  match v with
  | VUint n | VInt64 n | VFloat64 n => JNumber n
  | VString s => JString s
  | VBool b => JBool b
  end.

(** Decoding into [interface{}]: every number becomes a [float64]. *)
Definition unmarshal (j : json) : value :=
  match j with
  | JNumber n => VFloat64 (Go.float64_of_int n)
  | JString s => VString s
  | JBool b => VBool b
  end.

(** The tag of the third segment: HMAC-SHA256 of the first two segments
    under a key, or any other bytes. *)
Inductive signature :=
| HMAC_SHA256 (key : list byte) (header : gmap string string)
    (payload : gmap string json)
| OtherBytes (raw : list byte).

#[global] Instance signature_eq_dec : EqDecision signature.
Proof. solve_decision. Defined.

(** The compact serialization [header.payload.signature], by its three
    decoded segments. *)
Record compact := {
  seg_header : gmap string string;
  seg_payload : gmap string json;
  seg_signature : signature
}.

Record Token := {
  Header : gmap string string;
  Claims : MapClaims;
  Valid : bool
}.

Inductive error :=
| ErrInvalidKeyType.

(** The [interface{}] key handed to [SignedString]. *)
Inductive key :=
| KeyBytes (k : list byte)
| KeyOther.

Definition SigningMethodHS256 : string := "HS256".

Definition NewWithClaims (method : string) (claims : MapClaims) : Token :=
  {| Header := <["typ" := "JWT"]> (<["alg" := method]> ∅);
     Claims := claims;
     Valid := false |}.

Definition SignedString (t : Token) (k : key) : result error compact :=
  match k with
  | KeyBytes kb =>
      let payload := marshal <$> Claims t in
      Ok {| seg_header := Header t;
            seg_payload := payload;
            seg_signature := HMAC_SHA256 kb (Header t) payload |}
  | KeyOther => Err ErrInvalidKeyType
  end.

End jwt.

(** ** Package [strconv] *)

Module strconv.

Definition digit (a : Ascii.ascii) : option Z :=
  let n := Z.of_N (Ascii.N_of_ascii a) in
  if (48 <=? n) && (n <=? 57) then Some (n - 48) else None.

Fixpoint digits (s : string) (acc : Z) : option Z :=
  match s with
  | EmptyString => Some acc
  | String a s' =>
      match digit a with
      | Some d => digits s' (acc * 10 + d)
      | None => None
      end
  end.

Inductive error :=
| ErrSyntax
| ErrRange.

(** [ParseUint(s, 10, bitSize)]: decimal digits only, at least one, and a
    value that fits [bitSize] bits. *)
Definition ParseUint (s : string) (bitSize : Z) : result error Z :=
  match s with
  | EmptyString => Err ErrSyntax
  | _ =>
      match digits s 0 with
      | Some n => if n <? 2 ^ bitSize then Ok n else Err ErrRange
      | None => Err ErrSyntax
      end
  end.

End strconv.

(** ** The world outside the process *)

(** The places where a handler talks to the database. *)
Inductive Query :=
| QLoginUser
| QRegisterLookup | QRegisterCreate
| QDeactivateUser | QDeactivateUpdate
| QNameUser
| QProfileUser | QProfileSave
| QAddItem | QAddBook | QAddSave | QAddCreate
| QQuantityItem | QQuantitySave.

Record World := {
  (** [time.Now()]; one reading serves the whole request *)
  Now : time.Time;
  (** the process environment *)
  Environ : gmap string string;
  (** 16 bytes of [crypto/rand], or its failure *)
  Entropy : option (list byte);
  (** the first draw of [math/rand] after [rand.Seed(seed)] *)
  Rng : Z -> Z;
  (** the validator's [email] tag *)
  IsEmail : string -> bool;
  (** the target's conversion of a [float64] outside the range of [uint] *)
  UintOverflow : Z -> Z;
  (** the statements that fail for a reason of the database's own *)
  Fault : Query -> bool
}.

Module os.
Definition Getenv (w : World) (k : string) : string :=
  default "" (Environ w !! k).
End os.

Module rand.
(** [rand.Seed(seed); rand.Intn(n)] *)
Definition Intn (w : World) (seed n : Z) : Z := Rng w seed mod n.
End rand.

(** ** Package [database] *)

Module database.

(** Modelled from the spec: the declaration of [database.User] is not
    among the sources.  The fields are those the handlers read and write
    (the spec's Credential: identifier, password hash, role, active
    flag). *)
Record User := {
  ID : Z;
  UserID : Z;
  FirstName : string;
  LastName : string;
  Email : string;
  Password : bcrypt.bytes;
  Role : string;
  Active : bool
}.

(** Modelled from the spec: the declaration of [database.Book] is not
    among the sources; the cart handlers read its key and its price. *)
Record Book := {
  Book_ID : Z;
  Price : float
}.

(** Modelled from the spec: the declaration of [database.CartItem] is not
    among the sources; these are the fields the cart handlers use, and the
    primary key every saved row has. *)
Record CartItem := {
  CartItem_ID : Z;
  CartItem_UserID : Z;
  BookID : Z;
  Quantity : Z;
  Subtotal : float
}.

(** The tables, each with the last value its key sequence gave out, and
    the default of the [active] column. *)
Record DB := {
  users : list User;
  users_seq : Z;
  active_default : bool;
  books : list Book;
  cart_items : list CartItem;
  cart_items_seq : Z
}.

Definition with_users (db : DB) (us : list User) (seq : Z) : DB :=
  {| users := us; users_seq := seq; active_default := active_default db;
     books := books db;
     cart_items := cart_items db; cart_items_seq := cart_items_seq db |}.

Definition with_cart_items (db : DB) (cs : list CartItem) (seq : Z) : DB :=
  {| users := users db; users_seq := users_seq db;
     active_default := active_default db; books := books db;
     cart_items := cs; cart_items_seq := seq |}.

Definition set_ID (u : User) (id : Z) : User :=
  {| ID := id; UserID := UserID u; FirstName := FirstName u;
     LastName := LastName u; Email := Email u; Password := Password u;
     Role := Role u; Active := Active u |}.

Definition set_Active (u : User) (a : bool) : User :=
  {| ID := ID u; UserID := UserID u; FirstName := FirstName u;
     LastName := LastName u; Email := Email u; Password := Password u;
     Role := Role u; Active := a |}.

Definition set_FirstName (u : User) (s : string) : User :=
  {| ID := ID u; UserID := UserID u; FirstName := s;
     LastName := LastName u; Email := Email u; Password := Password u;
     Role := Role u; Active := Active u |}.

Definition set_LastName (u : User) (s : string) : User :=
  {| ID := ID u; UserID := UserID u; FirstName := FirstName u;
     LastName := s; Email := Email u; Password := Password u;
     Role := Role u; Active := Active u |}.

Definition set_Email (u : User) (s : string) : User :=
  {| ID := ID u; UserID := UserID u; FirstName := FirstName u;
     LastName := LastName u; Email := s; Password := Password u;
     Role := Role u; Active := Active u |}.

Definition set_Password (u : User) (p : bcrypt.bytes) : User :=
  {| ID := ID u; UserID := UserID u; FirstName := FirstName u;
     LastName := LastName u; Email := Email u; Password := p;
     Role := Role u; Active := Active u |}.

Definition set_CartItem_ID (i : CartItem) (id : Z) : CartItem :=
  {| CartItem_ID := id; CartItem_UserID := CartItem_UserID i;
     BookID := BookID i; Quantity := Quantity i; Subtotal := Subtotal i |}.

Definition set_Quantity (i : CartItem) (q : Z) : CartItem :=
  {| CartItem_ID := CartItem_ID i; CartItem_UserID := CartItem_UserID i;
     BookID := BookID i; Quantity := q; Subtotal := Subtotal i |}.

Definition set_Subtotal (i : CartItem) (s : float) : CartItem :=
  {| CartItem_ID := CartItem_ID i; CartItem_UserID := CartItem_UserID i;
     BookID := BookID i; Quantity := Quantity i; Subtotal := s |}.

End database.

(** ** Package [gorm] *)

Module gorm.

Inductive error :=
| ErrRecordNotFound
| ErrDuplicatedKey
| ErrFault.

Section Table.
Context {A : Type} (key : A -> Z).

(** The row with the least primary key. *)
Fixpoint least (rows : list A) : option A :=
  match rows with
  | [] => None
  | r :: rows' =>
      match least rows' with
      | Some r' => if key r' <? key r then Some r' else Some r
      | None => Some r
      end
  end.

(** [Where(cond).First(&row)]: rows are taken in primary-key order. *)
Definition First (w : World) (q : Query) (cond : A -> bool)
    (rows : list A) : result error A :=
  if Fault w q then Err ErrFault
  else match least (List.filter cond rows) with
       | Some r => Ok r
       | None => Err ErrRecordNotFound
       end.

(** [Create(&row)] for a row whose key is still zero: the sequence gives
    the key.  The result is the table, the sequence and the row as Go
    sees it afterwards. *)
Definition Create (w : World) (q : Query) (set_key : A -> Z -> A)
    (row : A) (rows : list A) (seq : Z)
  : result error (list A * Z * A) :=
  if Fault w q then Err ErrFault
  else
    let id := if key row =? 0 then seq + 1 else key row in
    let seq' := if key row =? 0 then seq + 1 else seq in
    if existsb (fun r => key r =? id) rows then Err ErrDuplicatedKey
    else
      let row' := set_key row id in
      Ok ((rows ++ [row'])%list, seq', row').

(** [Save(&row)]: a row whose key is zero goes the way of [Create], so a
    copy is inserted under the next key of the sequence, whatever the table
    holds under key zero.  Otherwise every column of the row with that key
    is written, and a row with a key the table lacks is inserted under it.
    The result is the table, the sequence and the row as Go sees it
    afterwards. *)
Definition Save (w : World) (q : Query) (set_key : A -> Z -> A)
    (row : A) (rows : list A) (seq : Z)
  : result error (list A * Z * A) :=
  if key row =? 0 then Create w q set_key row rows seq
  else if Fault w q then Err ErrFault
  else if existsb (fun r => key r =? key row) rows
       then Ok (List.map (fun r => if key r =? key row then row else r) rows,
                seq, row)
       else Ok ((rows ++ [row])%list, seq, row).

(** [Model(&row).Update(column, v)]: one column of the row with that key;
    without a key gorm refuses the statement (it would have no WHERE
    clause). *)
Definition Update (w : World) (q : Query) (write : A -> A) (row : A)
    (rows : list A) : result error (list A) :=
  if Fault w q then Err ErrFault
  else if key row =? 0 then Err ErrFault
  else Ok (List.map (fun r => if key r =? key row then write r else r) rows).

End Table.

End gorm.

(** ** Package [fiber]: responses and the handler monad *)

Module fiber.

(** What the handlers put under a key of a [fiber.Map]. *)
Inductive jval :=
| JvBool (b : bool)
| JvStr (s : string)
| JvToken (t : jwt.compact)
| JvFields (fields : list string).

Abbreviation Map := (gmap string jval).

Inductive Body :=
| BMap (m : Map)
| BCartItem (i : database.CartItem).

Record Cookie := {
  Name : string;
  Value : string;
  Expires : time.Time;
  HTTPOnly : bool
}.

Record Response := {
  status : Z;
  body : Body;
  cookies : list Cookie
}.

Definition StatusOK : Z := 200.
Definition StatusBadRequest : Z := 400.
Definition StatusUnauthorized : Z := 401.
Definition StatusNotFound : Z := 404.
Definition StatusConflict : Z := 409.
Definition StatusInternalServerError : Z := 500.

(** [c.Status(st).JSON(fiber.Map{...})] *)
Definition JSON (st : Z) (m : list (string * jval)) : Response :=
  {| status := st; body := BMap (list_to_map m); cookies := [] |}.

(** How a handler ends: with a response, or with a Go panic. *)
Inductive exit :=
| Replied (r : Response)
| Panicked.

(** A computation of a handler: it may change the database, and either
    goes on with a value or has already left the handler. *)
Definition H (A : Type) : Type :=
  database.DB -> database.DB * result exit A.

#[global] Instance H_ret : MRet H := fun A a db => (db, Ok a).

#[global] Instance H_bind : MBind H := fun A B k m db =>
  match m db with
  | (db', Ok a) => k a db'
  | (db', Err e) => (db', Err e)
  end.

Definition Reply {A} (r : Response) : H A := fun db => (db, Err (Replied r)).
Definition Panic {A} : H A := fun db => (db, Err Panicked).
Definition get : H database.DB := fun db => (db, Ok db).
Definition put (db' : database.DB) : H unit := fun _ => (db', Ok tt).

(** [if err != nil { return resp }] *)
Definition orReply {E A} (r : result E A) (resp : Response) : H A :=
  match r with
  | Ok a => mret a
  | Err _ => Reply resp
  end.

(** One request through a handler. *)
Definition serve (h : H Response) (db : database.DB) : database.DB * exit :=
  match h db with
  | (db', Ok r) => (db', Replied r)
  | (db', Err e) => (db', e)
  end.

(** [c.BodyParser(&v)]: the request carries the decoded body, or a body
    that does not decode. *)
Definition BodyParser {A} (c : option A) : result unit A :=
  match c with
  | Some v => Ok v
  | None => Err tt
  end.

End fiber.

Import database fiber.

(** ** Package [validator] *)

Module validator.

(** The [required] tag: not the zero value. *)
Definition required_string (s : string) : bool := negb (String.eqb s "").
Definition required_uint (n : Z) : bool := negb (n =? 0).

(** One field: its name when a tag fails. *)
Definition field (name : string) (ok : bool) : list string :=
  if ok then [] else [name].

(** [validate.Struct(v)]: the failing fields; none is Go's [nil]. *)
Definition Struct (failed : list string) : result (list string) unit :=
  match failed with
  | [] => Ok tt
  | _ => Err failed
  end.

End validator.

(** ** The handlers *)

(** [CreateToken]: the payload holds [user_id] and [exp], a day ahead; the
    key is read from the environment at every call. *)
Definition CreateToken (w : World) (userID : Z)
  : result jwt.error jwt.compact :=
  let payload : jwt.MapClaims := ∅ in
  let payload := <["user_id" := jwt.VUint userID]> payload in
  let payload :=
    <["exp" := jwt.VInt64 (time.Unix (time.Add (Now w) (time.Hour * 24)))]>
      payload in
  let token := jwt.NewWithClaims jwt.SigningMethodHS256 payload in
  jwt.SignedString token
    (jwt.KeyBytes (Go.bytes_of_string (os.Getenv w "JWT_SECRET"))).

Arguments CreateToken : simpl never.

Record LoginData := {
  login_Email : string;
  login_Password : string
}.

Definition validate_LoginData (w : World) (d : LoginData) : list string :=
  (validator.field "Email"
     (validator.required_string (login_Email d) && IsEmail w (login_Email d))
   ++ validator.field "Password"
        (validator.required_string (login_Password d)))%list.

Definition LoginHandler (w : World) (c : option LoginData) : H Response :=
  userData ← orReply (BodyParser c)
    (JSON 400 [("success", JvBool false); ("message", JvStr "Cannot parse JSON")]);
  _ ← match validator.Struct (validate_LoginData w userData) with
      | Ok _ => mret tt
      | Err errs =>
          Reply (JSON 400 [("success", JvBool false);
                           ("message", JvStr "Invalid input data");
                           ("errors", JvFields errs)])
      end;
  db ← get;
  user ← orReply
    (gorm.First ID w QLoginUser
       (fun u => String.eqb (Email u) (login_Email userData)) (users db))
    (JSON StatusNotFound [("error", JvStr "User not found")]);
  match bcrypt.CompareHashAndPassword (Password user)
          (Go.bytes_of_string (login_Password userData)) with
  | Some _ => Reply (JSON StatusBadRequest [("error", JvStr "Incorrect password")])
  | None =>
      token ← orReply (CreateToken w (ID user))
        (JSON StatusInternalServerError [("error", JvStr "Cannot log in")]);
      mret (JSON StatusOK [("success", JvBool true); ("token", JvToken token)])
  end.

Record RegisterData := {
  reg_FirstName : string;
  reg_LastName : string;
  reg_Email : string;
  reg_Password : string;
  reg_Role : string
}.

Definition validate_RegisterData (w : World) (d : RegisterData) : list string :=
  (validator.field "FirstName" (validator.required_string (reg_FirstName d))
   ++ validator.field "LastName" (validator.required_string (reg_LastName d))
   ++ validator.field "Email"
        (validator.required_string (reg_Email d) && IsEmail w (reg_Email d))
   ++ validator.field "Password" (validator.required_string (reg_Password d))
   ++ validator.field "Role" (validator.required_string (reg_Role d)))%list.

(** [database.GetDB().Create(&newUser)]: a flag left at Go's zero value
    takes the column's default. *)
Definition create_user (w : World) (q : Query) (newUser : User)
  : H (result gorm.error User) :=
  db ← get;
  let row :=
    if Active newUser then newUser
    else set_Active newUser (active_default db) in
  match gorm.Create ID w q set_ID row (users db) (users_seq db) with
  | Err e => mret (Err e)
  | Ok (rows, seq, row') =>
      _ ← put (with_users db rows seq);
      mret (Ok row')
  end.

Definition RegisterHandler (w : World) (c : option RegisterData) : H Response :=
  userData ← orReply (BodyParser c)
    (JSON 400 [("success", JvBool false); ("message", JvStr "Cannot parse JSON")]);
  _ ← match validator.Struct (validate_RegisterData w userData) with
      | Ok _ => mret tt
      | Err errs =>
          Reply (JSON 400 [("success", JvBool false);
                           ("message", JvStr "Invalid input data");
                           ("errors", JvFields errs)])
      end;
  db ← get;
  match gorm.First ID w QRegisterLookup
          (fun u => String.eqb (Email u) (reg_Email userData)) (users db) with
  | Ok _ => Reply (JSON StatusConflict [("error", JvStr "User already exists")])
  | Err _ =>
      let userID := rand.Intn w (time.UnixNano (Now w)) 10000 in
      hashedPassword ← orReply
        (bcrypt.GenerateFromPassword (Entropy w)
           (Go.bytes_of_string (reg_Password userData)) 10)
        (JSON 500 [("success", JvBool false);
                   ("message", JvStr "Cannot hash password")]);
      let newUser :=
        {| ID := 0;
           UserID := userID;
           FirstName := reg_FirstName userData;
           LastName := reg_LastName userData;
           Email := reg_Email userData;
           Password := hashedPassword;
           Role := reg_Role userData;
           Active := false |} in
      created ← create_user w QRegisterCreate newUser;
      newUser ← orReply created
        (JSON StatusConflict [("error", JvStr "User registration failed")]);
      let autoGeneratedID := ID newUser in
      token ← orReply (CreateToken w autoGeneratedID)
        (JSON StatusInternalServerError [("error", JvStr "Cannot log in")]);
      mret (JSON StatusOK [("success", JvBool true); ("token", JvToken token)])
  end.

Definition DeactivateAccountHandler (w : World) (idStr : string) : H Response :=
  id ← orReply (strconv.ParseUint idStr 32)
    (JSON StatusBadRequest [("error", JvStr "Invalid ID format")]);
  db ← get;
  user ← orReply
    (gorm.First ID w QDeactivateUser (fun u => ID u =? id) (users db))
    (JSON StatusNotFound [("error", JvStr "User not found")]);
  rows ← orReply
    (gorm.Update ID w QDeactivateUpdate (fun u => set_Active u false) user
       (users db))
    (JSON StatusInternalServerError [("error", JvStr "Cannot deactivate user")]);
  _ ← put (with_users db rows (users_seq db));
  mret {| status := StatusOK;
          body := BMap (list_to_map
                    [("success", JvBool true);
                     ("message", JvStr "User deactivated successfully")]);
          cookies := [ {| Name := "jwt"; Value := ""; Expires := Now w;
                          HTTPOnly := true |} ] |}.

(** [uint(claims["user_id"].(float64))] on the token the middleware left in
    [c.Locals("user")]; the type assertion panics on anything that is not a
    [float64]. *)
Definition claims_user_id (w : World) (token : jwt.Token) : H Z :=
  match jwt.Claims token !! "user_id" with
  | Some (jwt.VFloat64 f) => mret (Go.uint_of_float64 (UintOverflow w) f)
  | _ => Panic
  end.

Definition GetUserNameHandler (w : World) (token : jwt.Token) : H Response :=
  userID ← claims_user_id w token;
  db ← get;
  user ← orReply
    (gorm.First ID w QNameUser (fun u => ID u =? userID) (users db))
    (JSON StatusNotFound [("error", JvStr "User not found")]);
  mret (JSON StatusOK [("success", JvBool true); ("name", JvStr (FirstName user))]).

(** The fields of the [database.User] decoded from the body that
    [UpdateProfile] reads; the password comes as the bytes to hash. *)
Record ProfileData := {
  prof_FirstName : string;
  prof_LastName : string;
  prof_Email : string;
  prof_Password : list byte
}.

(** [database.GetDB().Save(&user)]: a row whose key is zero is created,
    column defaults included. *)
Definition save_user (w : World) (q : Query) (user : User)
  : H (result gorm.error User) :=
  if ID user =? 0 then create_user w q user
  else
    db ← get;
    match gorm.Save ID w q set_ID user (users db) (users_seq db) with
    | Err e => mret (Err e)
    | Ok (rows, seq, row') =>
        _ ← put (with_users db rows seq);
        mret (Ok row')
    end.

Arguments save_user : simpl never.

Definition UpdateProfile (w : World) (idStr : string) (c : option ProfileData)
  : H Response :=
  id ← orReply (strconv.ParseUint idStr 32)
    (JSON StatusBadRequest [("error", JvStr "Invalid ID format")]);
  db ← get;
  user ← orReply
    (gorm.First ID w QProfileUser (fun u => ID u =? id) (users db))
    (JSON StatusNotFound [("error", JvStr "User not found")]);
  userData ← orReply (BodyParser c)
    (JSON 400 [("success", JvBool false); ("message", JvStr "Cannot parse JSON")]);
  let user :=
    if negb (String.eqb (prof_FirstName userData) "")
    then set_FirstName user (prof_FirstName userData) else user in
  let user :=
    if negb (String.eqb (prof_LastName userData) "")
    then set_LastName user (prof_LastName userData) else user in
  let user :=
    if negb (String.eqb (prof_Email userData) "")
    then set_Email user (prof_Email userData) else user in
  user ← (if (0 <? length (prof_Password userData))%nat then
            hashedPassword ← orReply
              (bcrypt.GenerateFromPassword (Entropy w)
                 (prof_Password userData) 10)
              (JSON 500 [("success", JvBool false);
                         ("message", JvStr "Cannot hash password")]);
            mret (set_Password user hashedPassword)
          else mret user);
  saved ← save_user w QProfileSave user;
  _ ← orReply saved
    (JSON StatusInternalServerError
       [("error", JvStr "Cannot update user's profile")]);
  mret (JSON StatusOK [("success", JvBool true);
                       ("message", JvStr "User profile updated successfully")]).

Record CartData := {
  cart_BookID : Z;
  cart_Quantity : Z
}.

Definition validate_CartData (d : CartData) : list string :=
  (validator.field "BookID" (validator.required_uint (cart_BookID d))
   ++ validator.field "Quantity" (validator.required_uint (cart_Quantity d)))%list.

Definition AddToCartHandler (w : World) (token : jwt.Token)
    (c : option CartData) : H Response :=
  userID ← claims_user_id w token;
  cartItem ← orReply (BodyParser c)
    (JSON StatusBadRequest [("error", JvStr "Invalid input data")]);
  _ ← match validator.Struct (validate_CartData cartItem) with
      | Ok _ => mret tt
      | Err errs =>
          Reply (JSON StatusBadRequest [("error", JvStr "Invalid input data");
                                        ("errors", JvFields errs)])
      end;
  db ← get;
  match gorm.First CartItem_ID w QAddItem
          (fun i => (CartItem_UserID i =? userID)
                    && (BookID i =? cart_BookID cartItem))
          (cart_items db) with
  | Ok existingCartItem =>
      let existingCartItem :=
        set_Quantity existingCartItem
          (Go.wrap_uint (Quantity existingCartItem + cart_Quantity cartItem)) in
      book ← orReply
        (gorm.First Book_ID w QAddBook
           (fun b => Book_ID b =? cart_BookID cartItem) (books db))
        (JSON StatusInternalServerError
           [("error", JvStr "Failed to fetch book details")]);
      let existingCartItem :=
        set_Subtotal existingCartItem
          (PrimFloat.mul (Go.float64_of_uint (Quantity existingCartItem))
             (Price book)) in
      '(rows, seq, existingCartItem) ← orReply
        (gorm.Save CartItem_ID w QAddSave set_CartItem_ID existingCartItem
           (cart_items db) (cart_items_seq db))
        (JSON StatusInternalServerError [("error", JvStr "Failed to update cart")]);
      _ ← put (with_cart_items db rows seq);
      mret {| status := StatusOK; body := BCartItem existingCartItem;
              cookies := [] |}
  | Err _ =>
      let newCartItem :=
        {| CartItem_ID := 0;
           CartItem_UserID := userID;
           BookID := cart_BookID cartItem;
           Quantity := cart_Quantity cartItem;
           Subtotal := 0%float |} in
      book ← orReply
        (gorm.First Book_ID w QAddBook
           (fun b => Book_ID b =? cart_BookID cartItem) (books db))
        (JSON StatusInternalServerError
           [("error", JvStr "Failed to fetch book details")]);
      let newCartItem :=
        set_Subtotal newCartItem
          (PrimFloat.mul (Go.float64_of_uint (Quantity newCartItem))
             (Price book)) in
      '(rows, seq, newCartItem) ← orReply
        (gorm.Create CartItem_ID w QAddCreate set_CartItem_ID newCartItem
           (cart_items db) (cart_items_seq db))
        (JSON StatusInternalServerError [("error", JvStr "Failed to add to cart")]);
      _ ← put (with_cart_items db rows seq);
      mret {| status := StatusOK; body := BCartItem newCartItem;
              cookies := [] |}
  end.

Record QuantityData := {
  upd_Quantity : Z
}.

(** [bookID] is the number the database reads in the text of the route
    parameter, [None] when it reads none and the statement fails. *)
Definition UpdateCartItemQuantityHandler (w : World) (token : jwt.Token)
    (bookID : option Z) (c : option QuantityData) : H Response :=
  userID ← claims_user_id w token;
  update ← orReply (BodyParser c)
    (JSON StatusBadRequest [("error", JvStr "Invalid input data")]);
  _ ← match validator.Struct
              (validator.field "Quantity"
                 (validator.required_uint (upd_Quantity update))) with
      | Ok _ => mret tt
      | Err errs =>
          Reply (JSON StatusBadRequest [("error", JvStr "Invalid input data");
                                        ("errors", JvFields errs)])
      end;
  db ← get;
  cartItem ← orReply
    (match bookID with
     | Some b =>
         gorm.First CartItem_ID w QQuantityItem
           (fun i => (CartItem_UserID i =? userID) && (BookID i =? b))
           (cart_items db)
     | None => Err gorm.ErrFault
     end)
    (JSON StatusNotFound [("error", JvStr "Cart item not found")]);
  let cartItem := set_Quantity cartItem (upd_Quantity update) in
  '(rows, seq, cartItem) ← orReply
    (gorm.Save CartItem_ID w QQuantitySave set_CartItem_ID cartItem
       (cart_items db) (cart_items_seq db))
    (JSON StatusInternalServerError
       [("error", JvStr "Failed to update cart item quantity")]);
  _ ← put (with_cart_items db rows seq);
  mret {| status := StatusOK; body := BCartItem cartItem; cookies := [] |}.

(** ** The identity middleware *)

Inductive AuthError :=
| Missing
| Malformed
| BadSignature
| Expired
| Forbidden.

(** What a request carries where the token is looked for. *)
Inductive bearer :=
| Absent
| Unparsable (raw : string)
| Carried (t : jwt.compact).

(** Modelled from the spec: the registration of the token middleware is not
    among the sources.  [Verify] follows spec section 4.3: a missing token,
    one that does not parse, one whose signature does not match under the
    process-wide key, one whose expiry has passed ([now > expiresAt]);
    otherwise the decoded token, which the handlers find in
    [c.Locals("user")].  The store of credentials is not consulted. *)
Definition Verify (key : list byte) (now : time.Time) (b : bearer)
  : result AuthError jwt.Token :=
  match b with
  | Absent => Err Missing
  | Unparsable _ => Err Malformed
  | Carried t =>
      if decide (jwt.seg_signature t
                 = jwt.HMAC_SHA256 key (jwt.seg_header t) (jwt.seg_payload t))
      then
        let claims := jwt.unmarshal <$> jwt.seg_payload t in
        let token := {| jwt.Header := jwt.seg_header t;
                        jwt.Claims := claims;
                        jwt.Valid := true |} in
        match claims !! "exp" with
        | Some (jwt.VFloat64 exp) =>
            if exp <? time.Unix now then Err Expired else Ok token
        | Some _ => Err Malformed
        | None => Ok token
        end
      else Err BadSignature
  end.

(** Modelled from the spec: a protected route runs its handler on the
    verified token; every failure of [Verify] ends the request with the
    same unauthorized response (spec section 7). *)
Definition Protected (key : list byte) (w : World) (b : bearer)
    (handler : jwt.Token -> H Response) : H Response :=
  match Verify key (Now w) b with
  | Ok token => handler token
  | Err _ => Reply (JSON StatusUnauthorized [("error", JvStr "Unauthorized")])
  end.

(** ** The other handlers of accounts and carts *)

(** The statements these handlers send to the database. *)
Inductive Statement :=
| SActivateUser | SActivateUpdate
| SDeleteUser | SDeleteDelete
| SHomeUser
| SCartFind
| SRemoveItem | SRemoveDelete
| SAllCartItems
| SUserCart
| SDeleteCartItem | SDeleteCartDelete
| SAllUsers.

Module rows.

Section Rows.
Context {A : Type} (key : A -> Z).

(** A statement that fails for a reason of the database's own, or gives its
    result. *)
Definition attempt {B : Type} (failed : bool) (r : result gorm.error B)
  : result gorm.error B :=
  if failed then Err gorm.ErrFault else r.

(** [Where(cond).First(&row)], as [gorm.First]. *)
Definition First (failed : bool) (cond : A -> bool) (rows : list A)
  : result gorm.error A :=
  attempt failed
    match gorm.least key (List.filter cond rows) with
    | Some r => Ok r
    | None => Err gorm.ErrRecordNotFound
    end.

(** [Where(cond).Find(&rows)]: the rows that meet the condition, in the
    order of the table; none is no error. *)
Definition Find (failed : bool) (cond : A -> bool) (rows : list A)
  : result gorm.error (list A) :=
  attempt failed (Ok (List.filter cond rows)).

(** [Delete(&row)]: the rows with the key of [row] go; without a key gorm
    refuses the statement (it would have no WHERE clause). *)
Definition Delete (failed : bool) (row : A) (rows : list A)
  : result gorm.error (list A) :=
  attempt failed
    (if key row =? 0 then Err gorm.ErrFault
     else Ok (List.filter (fun r => negb (key r =? key row)) rows)).

(** [Model(&row).Update(column, v)]: one column of the rows with the key of
    [row]; without a key gorm refuses the statement. *)
Definition Update (failed : bool) (write : A -> A) (row : A) (rows : list A)
  : result gorm.error (list A) :=
  attempt failed
    (if key row =? 0 then Err gorm.ErrFault
     else Ok (List.map (fun r => if key r =? key row then write r else r) rows)).

End Rows.

End rows.

Definition ActivateAccountHandler (failing : Statement -> bool)
    (idStr : string) : H Response :=
  id ← orReply (strconv.ParseUint idStr 32)
    (JSON StatusBadRequest [("error", JvStr "Invalid ID format")]);
  db ← get;
  user ← orReply
    (rows.First ID (failing SActivateUser) (fun u => ID u =? id) (users db))
    (JSON StatusNotFound [("error", JvStr "User not found")]);
  rows ← orReply
    (rows.Update ID (failing SActivateUpdate) (fun u => set_Active u true)
       user (users db))
    (JSON StatusInternalServerError [("error", JvStr "Cannot activate user")]);
  _ ← put (with_users db rows (users_seq db));
  mret (JSON StatusOK [("success", JvBool true);
                       ("message", JvStr "User activated successfully")]).

(** The cookie [jwt], emptied and expiring now. *)
Definition expired_jwt_cookie (w : World) : Cookie :=
  {| Name := "jwt"; Value := ""; Expires := Now w; HTTPOnly := true |}.

Definition DeleteAccountHandler (w : World) (failing : Statement -> bool)
    (idStr : string) : H Response :=
  id ← orReply (strconv.ParseUint idStr 32)
    (JSON StatusBadRequest [("error", JvStr "Invalid ID format")]);
  db ← get;
  user ← orReply
    (rows.First ID (failing SDeleteUser) (fun u => ID u =? id) (users db))
    (JSON StatusNotFound [("error", JvStr "User not found")]);
  rows ← orReply
    (rows.Delete ID (failing SDeleteDelete) user (users db))
    (JSON StatusInternalServerError
       [("error", JvStr "Cannot delete user account")]);
  _ ← put (with_users db rows (users_seq db));
  mret {| status := StatusOK;
          body := BMap (list_to_map
                    [("success", JvBool true);
                     ("message", JvStr "User account deleted successfully")]);
          cookies := [expired_jwt_cookie w] |}.

Definition UserHomePageHandler (w : World) (failing : Statement -> bool)
    (token : jwt.Token) : H Response :=
  userID ← claims_user_id w token;
  db ← get;
  user ← orReply
    (rows.First ID (failing SHomeUser) (fun u => ID u =? userID) (users db))
    (JSON StatusNotFound [("error", JvStr "User not found")]);
  mret (JSON StatusOK [("success", JvBool true); ("name", JvStr (FirstName user))]).

Definition LogoutHandler (w : World) : H Response :=
  mret {| status := StatusOK;
          body := BMap (list_to_map
                    [("success", JvBool true);
                     ("message", JvStr "User logged out successfully")]);
          cookies := [expired_jwt_cookie w] |}.

(** A handler that ends in [c.JSON(v)] for a Go value [v] that is no
    [fiber.Map] has [v] for its result: the body sent with status 200. *)
Definition GetCartHandler (w : World) (failing : Statement -> bool)
    (token : jwt.Token) : H (list CartItem) :=
  userID ← claims_user_id w token;
  db ← get;
  cartItems ← orReply
    (rows.Find (failing SCartFind) (fun i => CartItem_UserID i =? userID)
       (cart_items db))
    (JSON StatusInternalServerError
       [("error", JvStr "Failed to fetch cart items")]);
  if (length cartItems =? 0)%nat
  then Reply (JSON StatusOK [("message", JvStr "Cart is empty")])
  else mret cartItems.

(** [bookID] as in [UpdateCartItemQuantityHandler]. *)
Definition RemoveFromCartHandler (w : World) (failing : Statement -> bool)
    (token : jwt.Token) (bookID : option Z) : H Response :=
  userID ← claims_user_id w token;
  db ← get;
  cartItem ← orReply
    (match bookID with
     | Some b =>
         rows.First CartItem_ID (failing SRemoveItem)
           (fun i => (CartItem_UserID i =? userID) && (BookID i =? b))
           (cart_items db)
     | None => Err gorm.ErrFault
     end)
    (JSON StatusNotFound [("error", JvStr "Cart item not found")]);
  rows ← orReply
    (rows.Delete CartItem_ID (failing SRemoveDelete) cartItem (cart_items db))
    (JSON StatusInternalServerError
       [("error", JvStr "Failed to remove item from cart")]);
  _ ← put (with_cart_items db rows (cart_items_seq db));
  mret (JSON StatusOK [("success", JvBool true);
                       ("message", JvStr "Item removed from cart")]).

Definition GetAllCartItemsHandler (failing : Statement -> bool)
  : H (list CartItem) :=
  db ← get;
  cartItems ← orReply
    (rows.Find (failing SAllCartItems) (fun _ => true) (cart_items db))
    (JSON StatusInternalServerError
       [("error", JvStr "Failed to fetch cart items")]);
  if (length cartItems =? 0)%nat
  then Reply (JSON StatusOK [("message", JvStr "Cart is empty")])
  else mret cartItems.

(** [userID] and [bookID] are the numbers the database reads in the texts
    of the route parameters, [None] when it reads none and the statement
    fails. *)
Definition GetUserCartHandler (failing : Statement -> bool)
    (userID : option Z) : H (list CartItem) :=
  db ← get;
  cartItems ← orReply
    (match userID with
     | Some u =>
         rows.Find (failing SUserCart) (fun i => CartItem_UserID i =? u)
           (cart_items db)
     | None => Err gorm.ErrFault
     end)
    (JSON StatusInternalServerError
       [("error", JvStr "Failed to fetch cart items")]);
  if (length cartItems =? 0)%nat
  then Reply (JSON StatusOK [("message", JvStr "Cart is empty")])
  else mret cartItems.

Definition DeleteCartItemHandler (failing : Statement -> bool)
    (userID bookID : option Z) : H Response :=
  db ← get;
  cartItem ← orReply
    (match userID, bookID with
     | Some u, Some b =>
         rows.First CartItem_ID (failing SDeleteCartItem)
           (fun i => (CartItem_UserID i =? u) && (BookID i =? b))
           (cart_items db)
     | _, _ => Err gorm.ErrFault
     end)
    (JSON StatusNotFound [("error", JvStr "Cart item not found")]);
  rows ← orReply
    (rows.Delete CartItem_ID (failing SDeleteCartDelete) cartItem
       (cart_items db))
    (JSON StatusInternalServerError
       [("error", JvStr "Failed to remove item from cart")]);
  _ ← put (with_cart_items db rows (cart_items_seq db));
  mret (JSON StatusOK [("success", JvBool true);
                       ("message", JvStr "Item removed from cart")]).

Definition GetAllUsersHandler (failing : Statement -> bool) : H (list User) :=
  db ← get;
  orReply (rows.Find (failing SAllUsers) (fun _ => true) (users db))
    (JSON StatusInternalServerError [("error", JvStr "Failed to fetch users")]).

(** Whether a request ended in a response with status 200. *)
Definition succeeded (e : exit) : bool :=
  match e with
  | Replied r => status r =? StatusOK
  | Panicked => false
  end.

(** The keys of a table are unique, as the database keeps them. *)
Definition unique_keys {A : Type} (key : A -> Z) (rows : list A) : Prop :=
  NoDup (List.map key rows).

(** A cart holds at most one row for a user and a book. *)
Definition unique_lines (items : list CartItem) : Prop :=
  NoDup (List.map (fun i => (CartItem_UserID i, BookID i)) items).

(** The keys of a table came from its sequence: they lie above 0, and the
    sequence has passed them. *)
Definition sequenced {A : Type} (key : A -> Z) (rows : list A) (seq : Z)
  : Prop :=
  0 <= seq /\ Forall (fun k => 0 < k <= seq) (List.map key rows).

(** ** Concrete worlds and requests *)

Module Sample.

Fixpoint has_at (s : string) : bool :=
  match s with
  | EmptyString => false
  | String a s' => Ascii.eqb a (Ascii.ascii_of_N 64) || has_at s'
  end.

(** 14 November 2023, 22:13:20 UTC; a signing secret is configured. *)
Definition world : World :=
  {| Now := 1700000000 * time.Second;
     Environ := {[ "JWT_SECRET" := "s3cret" ]};
     Entropy := Some (repeat x2a 16);
     Rng := fun seed => seed / 1000 + 4242;
     IsEmail := has_at;
     UintOverflow := fun _ => 2 ^ 63;
     Fault := fun _ => false |}.

(** The same world with no [JWT_SECRET] in the environment. *)
Definition world_no_secret : World :=
  {| Now := Now world; Environ := ∅; Entropy := Entropy world;
     Rng := Rng world; IsEmail := IsEmail world;
     UintOverflow := UintOverflow world; Fault := Fault world |}.

Definition empty_db : DB :=
  {| users := []; users_seq := 0; active_default := true; books := [];
     cart_items := []; cart_items_seq := 0 |}.

Definition alice : RegisterData :=
  {| reg_FirstName := "Alice"; reg_LastName := "Liddell";
     reg_Email := "alice@example.org"; reg_Password := "secret123";
     reg_Role := "customer" |}.

(** The database after Alice has registered. *)
Definition db_alice : DB :=
  fst (serve (RegisterHandler world (Some alice)) empty_db).


(** Logins against [db_alice]: an email without an account, Alice's email
    with a wrong password, and Alice's own credentials. *)
Definition unknown_login : LoginData :=
  {| login_Email := "mallory@example.org"; login_Password := "secret123" |}.

Definition wrong_login : LoginData :=
  {| login_Email := "alice@example.org"; login_Password := "letmein" |}.

Definition alice_login : LoginData :=
  {| login_Email := "alice@example.org"; login_Password := "secret123" |}.

Fixpoint replicate (n : nat) (a : Ascii.ascii) : string :=
  match n with
  | O => EmptyString
  | S n' => String a (replicate n' a)
  end.

(** A body for [UpdateProfile] that changes the password only. *)
Definition new_password : ProfileData :=
  {| prof_FirstName := ""; prof_LastName := ""; prof_Email := "";
     prof_Password := Go.bytes_of_string "hunter2" |}.

(** Bob registers with a password of 72 letters [a]; someone then logs in
    with those 72 letters and one more. *)
Definition bob : RegisterData :=
  {| reg_FirstName := "Bob"; reg_LastName := "Hatter";
     reg_Email := "bob@example.org";
     reg_Password := replicate 72 (Ascii.ascii_of_N 97);
     reg_Role := "customer" |}.

Definition bob_login_longer : LoginData :=
  {| login_Email := "bob@example.org";
     login_Password :=
       String.append (replicate 72 (Ascii.ascii_of_N 97)) "b" |}.

(** The key the middleware verifies with in [world]. *)
Definition signing_key : list byte := Go.bytes_of_string "s3cret".

(** A request that carries the token issued to Alice (row 1) in [world]. *)
Definition alice_bearer : bearer :=
  match CreateToken world 1 with
  | Ok t => Carried t
  | Err _ => Absent
  end.


(** Ten milliseconds after [world]: the generator, seeded with the clock,
    draws the same number modulo 10000. *)
Definition world_later : World :=
  {| Now := Now world + 10000000; Environ := Environ world;
     Entropy := Entropy world; Rng := Rng world; IsEmail := IsEmail world;
     UintOverflow := UintOverflow world; Fault := Fault world |}.

(** The token of [alice_bearer] as the middleware hands it on. *)
Definition alice_token : jwt.Token :=
  match Verify signing_key (Now world) alice_bearer with
  | Ok token => token
  | Err _ => jwt.NewWithClaims jwt.SigningMethodHS256 ∅
  end.

(** A shop with one book at 12.50; Alice puts one copy in her cart, then
    sets the quantity to 3. *)
Definition db_shop : DB :=
  {| users := users db_alice; users_seq := users_seq db_alice;
     active_default := true;
     books := [ {| Book_ID := 5; Price := 12.5%float |} ];
     cart_items := []; cart_items_seq := 0 |}.

Definition db_cart : DB :=
  fst (serve (AddToCartHandler world alice_token
                (Some {| cart_BookID := 5; cart_Quantity := 1 |})) db_shop).


End Sample.

(** ** Further scenarios *)

Module Scenario.

(** A database that answers every statement. *)
Definition no_faults : Statement -> bool := fun _ => false.

(** Alice's account, deactivated. *)
Definition db_deactivated : DB :=
  fst (serve (DeactivateAccountHandler Sample.world "1") Sample.db_alice).

(** A body for [UpdateProfile] that changes the last name only. *)
Definition new_last_name : ProfileData :=
  {| prof_FirstName := ""; prof_LastName := "Pleasance"; prof_Email := "";
     prof_Password := [] |}.

Definition db_renamed : DB :=
  fst (serve (UpdateProfile Sample.world "1" (Some new_last_name))
         Sample.db_alice).

(** Bob registers after Alice; his token; the shop with both accounts and
    Alice's cart. *)
Definition db_two_users : DB :=
  fst (serve (RegisterHandler Sample.world_later (Some Sample.bob))
         Sample.db_cart).

Definition bob_token : jwt.Token :=
  match CreateToken Sample.world 2 with
  | Ok t =>
      match Verify Sample.signing_key (Now Sample.world) (Carried t) with
      | Ok token => token
      | Err _ => jwt.NewWithClaims jwt.SigningMethodHS256 ∅
      end
  | Err _ => jwt.NewWithClaims jwt.SigningMethodHS256 ∅
  end.

(** A token that verifies and holds no [user_id]. *)
Definition anonymous_token : jwt.Token :=
  {| jwt.Header := <["typ" := "JWT"]> (<["alg" := "HS256"]> ∅);
     jwt.Claims := {[ "exp" := jwt.VFloat64 1700086400 ]};
     jwt.Valid := true |}.

(** Bob's profile takes Alice's email. *)
Definition take_alices_email : ProfileData :=
  {| prof_FirstName := ""; prof_LastName := "";
     prof_Email := "alice@example.org"; prof_Password := [] |}.

Definition db_same_email : DB :=
  fst (serve (UpdateProfile Sample.world "2" (Some take_alices_email))
         db_two_users).

(** Alice changes her password. *)
Definition db_new_password : DB :=
  fst (serve (UpdateProfile Sample.world "1" (Some Sample.new_password))
         Sample.db_alice).

(** The shop with a row in Alice's cart that was put there under key 0,
    past the sequence; she then sets its quantity to 3. *)
Definition db_row_zero : DB :=
  {| users := users Sample.db_shop; users_seq := users_seq Sample.db_shop;
     active_default := true;
     books := books Sample.db_shop;
     cart_items := [ {| CartItem_ID := 0; CartItem_UserID := 1; BookID := 5;
                        Quantity := 1; Subtotal := 12.5%float |} ];
     cart_items_seq := 0 |}.

Definition db_row_zero_updated : DB :=
  fst (serve (UpdateCartItemQuantityHandler Sample.world Sample.alice_token
                (Some 5) (Some {| upd_Quantity := 3 |})) db_row_zero).

End Scenario.

(** * Properties *)

(** Unfolds the monad of the handlers down to the case analysis of the Go
    code. *)
Ltac run_handler :=
  unfold serve, mbind, H_bind, mret, H_ret, orReply, Reply, Panic, get, put,
    BodyParser; cbn.

(** Closes the branch of a handler that replied [H] with another status
    than the one [Hst] records. *)
Ltac failed_reply H Hst :=
  injection H as <- <-; cbn in Hst; discriminate Hst.

(** ** Token issuance *)

Lemma Unix_Add_day (t : time.Time) :
  time.Unix (time.Add t (time.Hour * 24)) = time.Unix t + 86400.
Proof.
  unfold time.Unix, time.Add, time.Hour, time.Second.
  replace (t + 3600 * 1000000000 * 24) with (t + 86400 * 1000000000) by lia.
  rewrite Z.div_add by lia. reflexivity.
Qed.

(** The key [CreateToken] signs with: whatever the environment holds under
    [JWT_SECRET] at the time of the call. *)
Lemma CreateToken_eq (w : World) (u : Z) :
  CreateToken w u =
  Ok {| jwt.seg_header := <["typ" := "JWT"]> (<["alg" := "HS256"]> ∅);
        jwt.seg_payload :=
          <["exp" := jwt.JNumber (time.Unix (Now w) + 86400)]>
            (<["user_id" := jwt.JNumber u]> ∅);
        jwt.seg_signature :=
          jwt.HMAC_SHA256 (Go.bytes_of_string (os.Getenv w "JWT_SECRET"))
            (<["typ" := "JWT"]> (<["alg" := "HS256"]> ∅))
            (<["exp" := jwt.JNumber (time.Unix (Now w) + 86400)]>
               (<["user_id" := jwt.JNumber u]> ∅)) |}.
Proof.
  unfold CreateToken, jwt.SignedString, jwt.NewWithClaims; simpl.
  rewrite !fmap_insert, fmap_empty; simpl.
  rewrite Unix_Add_day. reflexivity.
Qed.

Lemma Getenv_unset (w : World) (k : string) :
  Environ w !! k = None -> os.Getenv w k = "".
Proof. intros E. unfold os.Getenv. rewrite E. reflexivity. Qed.

(** C7: every token [CreateToken] produces expires exactly 24 hours
    (86400 seconds of Unix time) after the instant of issuance, whatever the
    user, the clock and the environment. *)
Theorem CreateToken_expires_after_a_day (w : World) (u : Z) :
  exists t,
    CreateToken w u = Ok t
    /\ jwt.seg_payload t !! "exp"
       = Some (jwt.JNumber (time.Unix (time.Add (Now w) (24 * time.Hour))))
    /\ time.Unix (time.Add (Now w) (24 * time.Hour))
       = time.Unix (Now w) + 24 * 3600.
Proof.
  eexists. split; [apply CreateToken_eq|]. simpl.
  replace (24 * time.Hour) with (time.Hour * 24) by lia.
  rewrite Unix_Add_day. split; [|reflexivity].
  apply lookup_insert_eq.
Qed.

(** C2, as stated, fails: with no [JWT_SECRET] in the environment
    [CreateToken] runs all the same and signs with the empty key, and a
    registration in that world is answered with such a token. *)
Lemma CreateToken_signs_with_empty_key :
  exists t,
    CreateToken Sample.world_no_secret 1 = Ok t
    /\ jwt.seg_signature t
       = jwt.HMAC_SHA256 [] (jwt.seg_header t) (jwt.seg_payload t)
    /\ exists db' r,
        serve (RegisterHandler Sample.world_no_secret (Some Sample.alice))
          Sample.empty_db = (db', Replied r)
        /\ status r = StatusOK
        /\ body r = BMap (list_to_map [("success", JvBool true);
                                       ("token", JvToken t)]).
Proof.
  eexists. split; [apply CreateToken_eq|].
  split; [reflexivity|].
  eexists _, _. split; [vm_compute; reflexivity|].
  split; vm_compute; reflexivity.
Qed.

(** C2, amended: the secret is read from the environment at every call of
    [CreateToken]; when it is absent the call still succeeds and the token
    is signed with the empty key. *)
Theorem CreateToken_absent_secret (w : World) (u : Z) :
  Environ w !! "JWT_SECRET" = None ->
  exists t,
    CreateToken w u = Ok t
    /\ jwt.seg_signature t
       = jwt.HMAC_SHA256 [] (jwt.seg_header t) (jwt.seg_payload t).
Proof.
  intros Hunset. eexists. split; [apply CreateToken_eq|].
  simpl. rewrite (Getenv_unset _ _ Hunset). reflexivity.
Qed.

Lemma CreateToken_absent_secret_witness :
  exists t,
    CreateToken Sample.world_no_secret 7 = Ok t
    /\ jwt.seg_signature t
       = jwt.HMAC_SHA256 [] (jwt.seg_header t) (jwt.seg_payload t).
Proof.
  apply (CreateToken_absent_secret Sample.world_no_secret 7).
  vm_compute. reflexivity.
Defined.

(** C3, as stated, fails: the payload of a token holds no issuance time,
    neither under [iat] nor under any other key. *)
Lemma CreateToken_payload_lacks_issued_at :
  exists t,
    CreateToken Sample.world 42 = Ok t
    /\ jwt.seg_payload t !! "iat" = None
    /\ forall k,
        jwt.seg_payload t !! k
        <> Some (jwt.JNumber (time.Unix (Now Sample.world))).
Proof.
  eexists. split; [apply CreateToken_eq|]. simpl. split; [reflexivity|].
  intros k.
  destruct (decide (k = "exp")) as [->|Hexp].
  - rewrite lookup_insert_eq. vm_compute. discriminate.
  - rewrite lookup_insert_ne by congruence.
    destruct (decide (k = "user_id")) as [->|Huid].
    + rewrite lookup_insert_eq. vm_compute. discriminate.
    + rewrite lookup_insert_ne by congruence. rewrite lookup_empty. discriminate.
Qed.

(** C3, amended: the signed payload of the token [CreateToken] produces for
    [u] has exactly two entries, [user_id] with [u] and [exp] with the
    expiry; the signature covers the header and this payload, so it is the
    tag of no other payload, whatever the key. *)
Theorem CreateToken_signed_payload (w : World) (u : Z) :
  exists t,
    CreateToken w u = Ok t
    /\ dom (jwt.seg_payload t) = {[ "user_id"; "exp" ]}
    /\ jwt.seg_payload t !! "user_id" = Some (jwt.JNumber u)
    /\ jwt.seg_payload t !! "exp"
       = Some (jwt.JNumber (time.Unix (Now w) + 86400))
    /\ jwt.seg_signature t
       = jwt.HMAC_SHA256 (Go.bytes_of_string (os.Getenv w "JWT_SECRET"))
           (jwt.seg_header t) (jwt.seg_payload t)
    /\ forall key payload',
        payload' <> jwt.seg_payload t ->
        jwt.seg_signature t
        <> jwt.HMAC_SHA256 key (jwt.seg_header t) payload'.
Proof.
  eexists. split; [apply CreateToken_eq|]. simpl.
  split; [rewrite !dom_insert_L, dom_empty_L; set_solver|].
  split; [rewrite lookup_insert_ne by done; apply lookup_insert_eq|].
  split; [apply lookup_insert_eq|].
  split; [reflexivity|].
  intros key payload' Hne Heq.
  injection Heq as _ Hp. congruence.
Qed.

(** ** Logging in *)

(** What [LoginHandler] answers to a body that parses and validates. *)
Lemma LoginHandler_run (w : World) (db : DB) (d : LoginData) :
  validate_LoginData w d = [] ->
  serve (LoginHandler w (Some d)) db =
  (db,
   match gorm.First ID w QLoginUser
           (fun u => String.eqb (Email u) (login_Email d)) (users db) with
   | Err _ => Replied (JSON StatusNotFound [("error", JvStr "User not found")])
   | Ok user =>
       match bcrypt.CompareHashAndPassword (Password user)
               (Go.bytes_of_string (login_Password d)) with
       | Some _ =>
           Replied (JSON StatusBadRequest [("error", JvStr "Incorrect password")])
       | None =>
           match CreateToken w (ID user) with
           | Ok token =>
               Replied (JSON StatusOK [("success", JvBool true);
                                       ("token", JvToken token)])
           | Err _ =>
               Replied (JSON StatusInternalServerError
                          [("error", JvStr "Cannot log in")])
           end
       end
   end).
Proof.
  intros Hvalid. unfold LoginHandler. run_handler. rewrite Hvalid; simpl.
  destruct (gorm.First _ _ _ _ _) as [user|]; simpl; [|reflexivity].
  destruct (bcrypt.CompareHashAndPassword _ _); simpl; reflexivity.
Qed.

(** C1, as stated, fails: against the same database, a login with an email
    that has no account and a login with Alice's email and a wrong password
    are answered differently. *)
Lemma LoginHandler_reveals_account :
  exists r1 r2,
    serve (LoginHandler Sample.world (Some Sample.unknown_login))
      Sample.db_alice = (Sample.db_alice, Replied r1)
    /\ serve (LoginHandler Sample.world (Some Sample.wrong_login))
         Sample.db_alice = (Sample.db_alice, Replied r2)
    /\ status r1 = StatusNotFound
    /\ status r2 = StatusBadRequest
    /\ r1 <> r2.
Proof.
  eexists _, _. split; [vm_compute; reflexivity|].
  split; [vm_compute; reflexivity|].
  split; [reflexivity|]. split; [reflexivity|].
  intros H. apply (f_equal status) in H. discriminate H.
Qed.

(** C1, amended: for every login request that parses and validates, an
    email with no account is answered with status 404 and the body
    [{"error": "User not found"}], and an account whose password does not
    verify with status 400 and [{"error": "Incorrect password"}]; each
    answer is the same for every request of its kind, and the two differ. *)
Theorem LoginHandler_failure_responses (w : World) (db : DB) (d : LoginData) :
  validate_LoginData w d = [] ->
  (forall e,
      gorm.First ID w QLoginUser
        (fun u => String.eqb (Email u) (login_Email d)) (users db) = Err e ->
      serve (LoginHandler w (Some d)) db =
      (db, Replied (JSON StatusNotFound [("error", JvStr "User not found")])))
  /\ (forall user e,
        gorm.First ID w QLoginUser
          (fun u => String.eqb (Email u) (login_Email d)) (users db) = Ok user ->
        bcrypt.CompareHashAndPassword (Password user)
          (Go.bytes_of_string (login_Password d)) = Some e ->
        serve (LoginHandler w (Some d)) db =
        (db, Replied (JSON StatusBadRequest
                        [("error", JvStr "Incorrect password")])))
  /\ JSON StatusNotFound [("error", JvStr "User not found")]
     <> JSON StatusBadRequest [("error", JvStr "Incorrect password")].
Proof.
  intros Hvalid. split; [|split].
  - intros e Hfirst. rewrite (LoginHandler_run _ _ _ Hvalid), Hfirst. reflexivity.
  - intros user e Hfirst Hcmp.
    rewrite (LoginHandler_run _ _ _ Hvalid), Hfirst, Hcmp. reflexivity.
  - intros H. apply (f_equal status) in H. discriminate H.
Qed.

Lemma LoginHandler_failure_responses_witness :
  serve (LoginHandler Sample.world (Some Sample.wrong_login)) Sample.db_alice =
  (Sample.db_alice,
   Replied (JSON StatusBadRequest [("error", JvStr "Incorrect password")])).
Proof.
  destruct (LoginHandler_failure_responses Sample.world Sample.db_alice
              Sample.wrong_login) as (_ & Hwrong & _).
  - vm_compute. reflexivity.
  - eapply Hwrong; vm_compute; reflexivity.
Defined.

(** ** Password hashing *)

(** As long as the key is not exhausted, the key schedule reads it in
    order. *)
Lemma key_stream_lookup (n : nat) (key : list byte) (j i : nat) :
  (j + i < length key)%nat -> (i < n)%nat ->
  bcrypt.key_stream n key j !! i = key !! (j + i)%nat.
Proof.
  revert j i. induction n as [|n IH]; intros j i Hlen Hi; [lia|].
  simpl. destruct (key !! j) as [b|] eqn:Hj.
  - destruct i as [|i]; simpl.
    + rewrite Nat.add_0_r. symmetry. exact Hj.
    + destruct (Nat.ltb_spec (S j) (length key)) as [_|Hge]; [|lia].
      rewrite IH by lia. f_equal. lia.
  - apply lookup_ge_None_1 in Hj. lia.
Qed.

Lemma key_material_lookup (p : list byte) (i : nat) :
  (i <= length p)%nat -> (i < 72)%nat ->
  bcrypt.key_material p !! i = (p ++ [x00])%list !! i.
Proof.
  intros Hi H72. unfold bcrypt.key_material.
  rewrite key_stream_lookup; [reflexivity| |assumption].
  rewrite length_app. simpl. lia.
Qed.

(** The position of the terminating NUL gives the length away. *)
Lemma key_material_length_le (p p' : list byte) :
  (length p <= 71)%nat -> (length p' <= 71)%nat -> x00 ∉ p' ->
  bcrypt.key_material p = bcrypt.key_material p' ->
  (length p' <= length p)%nat.
Proof.
  intros Hp Hp' Hnul Heq.
  destruct (Nat.le_gt_cases (length p') (length p)) as [|Hlt]; [assumption|].
  exfalso. apply Hnul.
  assert (Hat : bcrypt.key_material p !! length p = Some x00).
  { rewrite key_material_lookup by lia. apply list_lookup_middle. reflexivity. }
  rewrite Heq, key_material_lookup in Hat by lia.
  rewrite lookup_app_l in Hat by lia.
  eapply list_elem_of_lookup_2. exact Hat.
Qed.

(** Passwords of at most 71 bytes without a NUL byte reach the key schedule
    whole. *)
Lemma key_material_inj (p p' : list byte) :
  (length p <= 71)%nat -> (length p' <= 71)%nat -> x00 ∉ p -> x00 ∉ p' ->
  bcrypt.key_material p = bcrypt.key_material p' -> p = p'.
Proof.
  intros Hp Hp' Hnul Hnul' Heq.
  assert (Hlen : length p = length p').
  { apply Nat.le_antisymm.
    - apply (key_material_length_le p' p); auto.
    - apply (key_material_length_le p p'); auto. }
  apply list_eq. intros i.
  destruct (Nat.lt_ge_cases i (length p)) as [Hlt|Hge].
  - rewrite <- (lookup_app_l p [x00]) by assumption.
    rewrite <- (lookup_app_l p' [x00]) by lia.
    rewrite <- !key_material_lookup by lia.
    rewrite Heq. reflexivity.
  - rewrite !lookup_ge_None_2 by lia. reflexivity.
Qed.

Lemma GenerateFromPassword_ok (s p : list byte) :
  (length p <= 72)%nat ->
  bcrypt.GenerateFromPassword (Some s) p 10
  = Ok (bcrypt.Encoded {| bcrypt.hash := bcrypt.bcrypt_digest p 10 s;
                          bcrypt.salt := s; bcrypt.cost := 10 |}).
Proof.
  intros Hlen. unfold bcrypt.GenerateFromPassword.
  destruct (Nat.ltb_spec 72 (length p)) as [Hgt|_]; [lia|]. reflexivity.
Qed.

(** A successful [GenerateFromPassword] at cost 10 yields the encoding of a
    hash at cost 10 of the password under the salt the entropy source
    gave. *)
Lemma GenerateFromPassword_inv (entropy : option (list byte))
    (p : list byte) (b : bcrypt.bytes) :
  bcrypt.GenerateFromPassword entropy p 10 = Ok b ->
  exists s,
    entropy = Some s
    /\ b = bcrypt.Encoded {| bcrypt.hash := bcrypt.bcrypt_digest p 10 s;
                            bcrypt.salt := s; bcrypt.cost := 10 |}.
Proof.
  unfold bcrypt.GenerateFromPassword.
  destruct (72 <? length p)%nat; [discriminate|]. simpl.
  destruct entropy as [s|]; [|discriminate].
  intros [= <-]. exists s. split; reflexivity.
Qed.

Lemma Compare_same (s p : list byte) (c : Z) :
  bcrypt.CompareHashAndPassword
    (bcrypt.Encoded {| bcrypt.hash := bcrypt.bcrypt_digest p c s;
                       bcrypt.salt := s; bcrypt.cost := c |}) p = None.
Proof.
  unfold bcrypt.CompareHashAndPassword; simpl.
  destruct (decide _) as [|Hne]; [reflexivity|]. contradiction Hne; reflexivity.
Qed.

Lemma Compare_other (s p p' : list byte) (c : Z) :
  bcrypt.key_material p' <> bcrypt.key_material p ->
  bcrypt.CompareHashAndPassword
    (bcrypt.Encoded {| bcrypt.hash := bcrypt.bcrypt_digest p c s;
                       bcrypt.salt := s; bcrypt.cost := c |}) p'
  = Some bcrypt.ErrMismatchedHashAndPassword.
Proof.
  intros Hne. unfold bcrypt.CompareHashAndPassword; simpl.
  destruct (decide _) as [Heq|]; [|reflexivity].
  unfold bcrypt.bcrypt_digest in Heq. injection Heq as Heq. congruence.
Qed.

(** C6, as stated, fails: the hash of a password of 72 bytes verifies a
    different plaintext, those 72 bytes and one more; logging in with the
    longer one succeeds. *)
Lemma bcrypt_ignores_bytes_past_72 :
  exists h db' r,
    bcrypt.GenerateFromPassword (Entropy Sample.world)
      (Go.bytes_of_string (reg_Password Sample.bob)) 10 = Ok h
    /\ Go.bytes_of_string (login_Password Sample.bob_login_longer)
       <> Go.bytes_of_string (reg_Password Sample.bob)
    /\ bcrypt.CompareHashAndPassword h
         (Go.bytes_of_string (login_Password Sample.bob_login_longer)) = None
    /\ fst (serve (RegisterHandler Sample.world (Some Sample.bob))
              Sample.empty_db) = db'
    /\ serve (LoginHandler Sample.world (Some Sample.bob_login_longer)) db'
       = (db', Replied r)
    /\ status r = StatusOK.
Proof.
  eexists _, _, _. split; [vm_compute; reflexivity|].
  split; [intros H; apply (f_equal length) in H; vm_compute in H; discriminate H|].
  split; [vm_compute; reflexivity|].
  split; [reflexivity|].
  split; [vm_compute; reflexivity|]. reflexivity.
Qed.

(** C6, amended: for every plaintext [p] the hasher accepts (at most 72
    bytes), verifying [p] against the hash produced from [p] succeeds;
    verifying a plaintext [p'] fails with the mismatch error, which
    [LoginHandler] reports as "Incorrect password", whenever [p'] differs
    from [p] in the 72 bytes that reach the key schedule, and so whenever
    the two are distinct, at most 71 bytes long and free of NUL bytes. *)
Theorem password_verification (s p : list byte) :
  (length p <= 72)%nat ->
  exists h,
    bcrypt.GenerateFromPassword (Some s) p 10 = Ok h
    /\ bcrypt.CompareHashAndPassword h p = None
    /\ (forall p',
          bcrypt.key_material p' <> bcrypt.key_material p ->
          bcrypt.CompareHashAndPassword h p'
          = Some bcrypt.ErrMismatchedHashAndPassword)
    /\ (forall p',
          (length p <= 71)%nat -> (length p' <= 71)%nat ->
          x00 ∉ p -> x00 ∉ p' -> p' <> p ->
          bcrypt.CompareHashAndPassword h p'
          = Some bcrypt.ErrMismatchedHashAndPassword)
    /\ (forall w db d user,
          validate_LoginData w d = [] ->
          gorm.First ID w QLoginUser
            (fun u => String.eqb (Email u) (login_Email d)) (users db)
          = Ok user ->
          Password user = h ->
          bcrypt.key_material (Go.bytes_of_string (login_Password d))
          <> bcrypt.key_material p ->
          serve (LoginHandler w (Some d)) db =
          (db, Replied (JSON StatusBadRequest
                          [("error", JvStr "Incorrect password")]))).
Proof.
  intros Hlen. eexists. split; [apply GenerateFromPassword_ok, Hlen|].
  split; [apply Compare_same|].
  split; [intros p' Hne; apply Compare_other, Hne|].
  split.
  - intros p' Hp Hp' Hnul Hnul' Hne. apply Compare_other.
    intros Heq. apply Hne. apply key_material_inj; auto.
  - intros w db d user Hvalid Hfirst Hpw Hne.
    rewrite (LoginHandler_run _ _ _ Hvalid), Hfirst, Hpw.
    rewrite (Compare_other _ _ _ _ Hne). reflexivity.
Qed.

Lemma password_verification_witness :
  exists h,
    bcrypt.GenerateFromPassword (Some (repeat x2a 16))
      (Go.bytes_of_string "secret123") 10 = Ok h
    /\ bcrypt.CompareHashAndPassword h (Go.bytes_of_string "secret123") = None
    /\ bcrypt.CompareHashAndPassword h (Go.bytes_of_string "wrong")
       = Some bcrypt.ErrMismatchedHashAndPassword.
Proof.
  destruct (password_verification (repeat x2a 16)
              (Go.bytes_of_string "secret123"))
    as (h & Hgen & Hsame & Hother & _).
  - vm_compute. lia.
  - exists h. split; [exact Hgen|]. split; [exact Hsame|].
    apply Hother. vm_compute. discriminate.
Defined.

(** ** From the token back to the user *)

Lemma round_half_even_near (n d : Z) :
  0 < d ->
  n - d <= Go.round_half_even n d * d <= n + d.
Proof.
  intros Hd. unfold Go.round_half_even.
  pose proof (Z.div_mod n d ltac:(lia)) as Hdm.
  pose proof (Z.mod_pos_bound n d Hd) as Hr.
  destruct (2 * (n mod d) <? d); [nia|].
  destruct (d <? 2 * (n mod d)); [nia|].
  destruct (Z.even (n / d)); nia.
Qed.

(** Up to 2^53 every integer is a binary64 number. *)
Lemma float64_of_int_exact (n : Z) :
  0 <= n <= 2 ^ 53 -> Go.float64_of_int n = n.
Proof.
  intros [Hlo Hhi]. unfold Go.float64_of_int.
  rewrite Z.abs_eq by assumption.
  destruct (Z.eq_dec n 0) as [->|Hnz]; [reflexivity|].
  rewrite Z.sgn_pos by lia.
  destruct (Z.eq_dec n (2 ^ 53)) as [->|Hne]; [reflexivity|].
  assert (Hlog : Z.log2 n < 53) by (apply Z.log2_lt_pow2; lia).
  rewrite Z.max_l by lia.
  unfold Go.round_half_even. change (2 ^ 0) with 1.
  rewrite Z.mod_1_r, Z.div_1_r. simpl. lia.
Qed.

(** A 64-bit integer moves by at most 1024 when it becomes a binary64
    number. *)
Lemma float64_of_int_near (n : Z) :
  Z.abs n < 2 ^ 63 ->
  n - 1024 <= Go.float64_of_int n <= n + 1024.
Proof.
  intros Hn. unfold Go.float64_of_int.
  set (a := Z.abs n) in *.
  set (e := Z.max 0 (Z.log2 a - 52)).
  assert (He : 0 <= e <= 10).
  { subst e. destruct (Z.eq_dec a 0) as [Ha|Ha].
    - rewrite Ha. simpl. lia.
    - assert (Z.log2 a < 63) by (apply Z.log2_lt_pow2; lia). lia. }
  assert (Hd : 0 < 2 ^ e <= 1024).
  { split; [apply Z.pow_pos_nonneg; lia|].
    change 1024 with (2 ^ 10). apply Z.pow_le_mono_r; lia. }
  pose proof (round_half_even_near a (2 ^ e) ltac:(lia)) as Hnear.
  destruct (Z.abs_spec n) as [[Hpos Habs]|[Hneg Habs]]; fold a in Habs.
  - destruct (Z.eq_dec n 0) as [->|Hnz]; [simpl; lia|].
    rewrite Z.sgn_pos by lia. lia.
  - rewrite Z.sgn_neg by lia. lia.
Qed.

(** The rounding on integers agrees with the machine's conversion, at ties
    towards either side and at the top of the range. *)
Example float64_of_int_matches_hardware :
  List.map (fun n => Go.int_of_float (Go.float64_of_uint n))
    [0; 42; 2 ^ 53; 2 ^ 53 + 1; 2 ^ 53 + 3; 2 ^ 63 + 1025; 2 ^ 64 - 1025;
     2 ^ 64 - 1024; 2 ^ 64 - 1]
  = List.map (fun n => Some (Go.float64_of_int n))
      [0; 42; 2 ^ 53; 2 ^ 53 + 1; 2 ^ 53 + 3; 2 ^ 63 + 1025; 2 ^ 64 - 1025;
       2 ^ 64 - 1024; 2 ^ 64 - 1].
Proof. vm_compute. reflexivity. Qed.

Lemma uint_of_float64_id (platform : Z -> Z) (n : Z) :
  0 <= n < 2 ^ 64 -> Go.uint_of_float64 platform n = n.
Proof.
  intros [Hlo Hhi]. unfold Go.uint_of_float64, Go.uint_modulus, Go.uint_bits.
  destruct (Z.leb_spec 0 n); [|lia].
  destruct (Z.ltb_spec n (2 ^ 64)); [reflexivity|lia].
Qed.

(** The token [CreateToken] issues passes [Verify] under the key of the
    environment as long as the clock has not passed the expiry by more than
    the rounding of [exp]; the claims are the payload read back from JSON. *)
Lemma Verify_CreateToken (w : World) (u : Z) (now : time.Time) (t : jwt.compact) :
  CreateToken w u = Ok t ->
  Z.abs (time.Unix (Now w) + 86400) < 2 ^ 63 ->
  time.Unix now <= time.Unix (Now w) + 86400 - 1024 ->
  Verify (Go.bytes_of_string (os.Getenv w "JWT_SECRET")) now (Carried t)
  = Ok {| jwt.Header := jwt.seg_header t;
          jwt.Claims := jwt.unmarshal <$> jwt.seg_payload t;
          jwt.Valid := true |}.
Proof.
  rewrite CreateToken_eq. intros [= <-] Hclock Hnow.
  unfold Verify; simpl.
  destruct (decide _) as [_|Hne]; [|contradiction Hne; reflexivity].
  rewrite lookup_fmap, lookup_insert_eq; simpl.
  pose proof (float64_of_int_near (time.Unix (Now w) + 86400) Hclock).
  destruct (Z.ltb_spec (Go.float64_of_int (time.Unix (Now w) + 86400))
              (time.Unix now)); [lia|reflexivity].
Qed.

(** Rounding to a multiple of [d] moves a number by at most half of [d]. *)
Lemma round_half_even_nearest (n d : Z) :
  0 < d ->
  2 * n - d <= 2 * (Go.round_half_even n d * d) <= 2 * n + d.
Proof.
  intros Hd. unfold Go.round_half_even.
  pose proof (Z.div_mod n d ltac:(lia)) as Hdm.
  pose proof (Z.mod_pos_bound n d Hd) as Hr.
  destruct (Z.ltb_spec (2 * (n mod d)) d); [nia|].
  destruct (Z.ltb_spec d (2 * (n mod d))); [nia|].
  destruct (Z.even (n / d)); nia.
Qed.

(** Below 2^64 - 1024 a [uint] becomes a binary64 number of the range of
    [uint], at most 1024 away. *)
Lemma float64_of_int_uint (n : Z) :
  0 <= n < 2 ^ 64 - 1024 ->
  0 <= Go.float64_of_int n < 2 ^ 64
  /\ n - 1024 <= Go.float64_of_int n <= n + 1024.
Proof.
  intros [Hlo Hhi]. unfold Go.float64_of_int.
  rewrite Z.abs_eq by assumption.
  destruct (Z.eq_dec n 0) as [->|Hnz]; [vm_compute; repeat split; discriminate|].
  rewrite Z.sgn_pos by lia.
  set (e := Z.max 0 (Z.log2 n - 52)).
  assert (He : 0 <= e <= 11).
  { subst e. assert (Z.log2 n < 64) by (apply Z.log2_lt_pow2; lia). lia. }
  assert (Hd : 0 < 2 ^ e <= 2048).
  { split; [apply Z.pow_pos_nonneg; lia|].
    change 2048 with (2 ^ 11). apply Z.pow_le_mono_r; lia. }
  pose proof (round_half_even_nearest n (2 ^ e) ltac:(lia)) as Hnear.
  assert (Hpos : 0 <= Go.round_half_even n (2 ^ e)).
  { unfold Go.round_half_even.
    assert (0 <= n / 2 ^ e) by (apply Z.div_pos; lia).
    destruct (_ <? _); [lia|]. destruct (_ <? _); [lia|].
    destruct (Z.even _); lia. }
  split; [split; [nia|lia]|lia].
Qed.

(** From 2^64 - 1024 on a [uint] becomes the binary64 number 2^64, which is
    no [uint]. *)
Lemma float64_of_int_top (n : Z) :
  2 ^ 64 - 1024 <= n < 2 ^ 64 -> Go.float64_of_int n = 2 ^ 64.
Proof.
  intros [Hlo Hhi]. unfold Go.float64_of_int.
  rewrite Z.abs_eq by lia. rewrite Z.sgn_pos by lia.
  assert (Hlog : Z.log2 n = 63).
  { apply Z.log2_unique; [lia|]. change (2 ^ (63 + 1)) with (2 ^ 64). lia. }
  rewrite Hlog. change (Z.max 0 (63 - 52)) with 11. change (2 ^ 11) with 2048.
  unfold Go.round_half_even.
  pose proof (Z.div_mod n 2048 ltac:(lia)) as Hdm.
  pose proof (Z.mod_pos_bound n 2048 ltac:(lia)) as Hr.
  assert (Hq : n / 2048 = 2 ^ 53 - 1) by lia.
  rewrite Hq.
  destruct (Z.ltb_spec (2 * (n mod 2048)) 2048); [lia|].
  destruct (Z.ltb_spec 2048 (2 * (n mod 2048))); [reflexivity|].
  reflexivity.
Qed.

(** C5, as stated, fails: the token issued for user 2^53 + 1 verifies, and
    the handlers read user 2^53 from it. *)
Lemma user_id_round_trip_loses_precision :
  exists t token db,
    CreateToken Sample.world (2 ^ 53 + 1) = Ok t
    /\ Verify Sample.signing_key (Now Sample.world) (Carried t) = Ok token
    /\ claims_user_id Sample.world token db = (db, Ok (2 ^ 53))
    /\ 2 ^ 53 <> 2 ^ 53 + 1.
Proof.
  eexists _, _, Sample.empty_db.
  split; [vm_compute; reflexivity|].
  split; [vm_compute; reflexivity|].
  split; [vm_compute; reflexivity|]. lia.
Qed.

(** C5, amended: for every userID [u] of the range of [uint], and a clock
    whose expiry time lies in the range of [int64], the token just issued
    for [u] verifies under the key it was signed with, and the handlers read
    from the verified token the [uint] of the binary64 number nearest to
    [u].  Up to 2^53 that is [u] itself.  Above, and below 2^64 - 1024, it
    is that binary64 number, at most 1024 away from [u].  From 2^64 - 1024
    on the binary64 number is 2^64, no [uint], and the handlers read what
    the conversion of the target makes of it. *)
Theorem user_id_round_trip (w : World) (u : Z) :
  0 <= u < 2 ^ 64 ->
  - 2 ^ 63 <= time.Unix (Now w) ->
  time.Unix (Now w) + 86400 < 2 ^ 63 ->
  exists t token,
    CreateToken w u = Ok t
    /\ Verify (Go.bytes_of_string (os.Getenv w "JWT_SECRET")) (Now w) (Carried t)
       = Ok token
    /\ (forall w' db,
          claims_user_id w' token db
          = (db, Ok (Go.uint_of_float64 (UintOverflow w')
                       (Go.float64_of_int u))))
    /\ (u <= 2 ^ 53 ->
        forall w' db, claims_user_id w' token db = (db, Ok u))
    /\ (u < 2 ^ 64 - 1024 ->
        u - 1024 <= Go.float64_of_int u <= u + 1024
        /\ forall w' db,
            claims_user_id w' token db = (db, Ok (Go.float64_of_int u)))
    /\ (2 ^ 64 - 1024 <= u ->
        Go.float64_of_int u = 2 ^ 64
        /\ forall w' db,
            claims_user_id w' token db
            = (db, Ok (Go.wrap_uint (UintOverflow w' (2 ^ 64))))).
Proof.
  intros Hu Hlow Hhigh.
  destruct (CreateToken w u) as [t|] eqn:Hissue;
    [|rewrite CreateToken_eq in Hissue; discriminate Hissue].
  set (token := {| jwt.Header := jwt.seg_header t;
                   jwt.Claims := jwt.unmarshal <$> jwt.seg_payload t;
                   jwt.Valid := true |}).
  exists t, token. split; [reflexivity|].
  split; [apply (Verify_CreateToken w u); [assumption|lia|lia]|].
  assert (Hread : forall w' db,
             claims_user_id w' token db
             = (db, Ok (Go.uint_of_float64 (UintOverflow w')
                          (Go.float64_of_int u)))).
  { intros w' db. subst token.
    rewrite CreateToken_eq in Hissue. injection Hissue as <-.
    unfold claims_user_id; simpl.
    rewrite lookup_fmap, lookup_insert_ne by done.
    rewrite lookup_insert_eq; simpl. reflexivity. }
  clearbody token.
  split; [exact Hread|]. split; [|split].
  - intros Hsmall w' db. rewrite Hread.
    rewrite float64_of_int_exact by lia.
    rewrite uint_of_float64_id by lia. reflexivity.
  - intros Hmid.
    destruct (float64_of_int_uint u ltac:(lia)) as [Hrange Hnear].
    split; [exact Hnear|]. intros w' db. rewrite Hread.
    rewrite uint_of_float64_id by exact Hrange. reflexivity.
  - intros Htop. pose proof (float64_of_int_top u ltac:(lia)) as Hf.
    split; [exact Hf|]. intros w' db. rewrite Hread, Hf. reflexivity.
Qed.

Lemma user_id_round_trip_witness :
  exists t token,
    CreateToken Sample.world 42 = Ok t
    /\ Verify (Go.bytes_of_string (os.Getenv Sample.world "JWT_SECRET"))
         (Now Sample.world) (Carried t) = Ok token
    /\ forall w' db, claims_user_id w' token db = (db, Ok 42).
Proof.
  destruct (user_id_round_trip Sample.world 42)
    as (t & token & Hissue & Hverify & _ & Hsmall & _).
  - lia.
  - vm_compute. discriminate.
  - vm_compute. reflexivity.
  - exists t, token. split; [exact Hissue|]. split; [exact Hverify|].
    apply Hsmall. lia.
Defined.

(** ** Deactivation and the token *)

Section TableMap.
Context {A : Type} (key : A -> Z) (f : A -> A).
Hypothesis key_f : forall r, key (f r) = key r.

Lemma least_map (rows : list A) :
  gorm.least key (List.map f rows) = f <$> gorm.least key rows.
Proof.
  induction rows as [|r rows IH]; [reflexivity|].
  simpl. rewrite IH.
  destruct (gorm.least key rows) as [r'|]; simpl; [|reflexivity].
  rewrite !key_f. destruct (key r' <? key r); reflexivity.
Qed.

Lemma filter_map (cond : A -> bool) (rows : list A) :
  (forall r, cond (f r) = cond r) ->
  List.filter cond (List.map f rows) = List.map f (List.filter cond rows).
Proof.
  intros Hcond. induction rows as [|r rows IH]; [reflexivity|].
  simpl. rewrite Hcond, IH. destruct (cond r); reflexivity.
Qed.

(** A query whose condition the rewriting of the rows does not affect finds
    the rewritten row. *)
Lemma First_map (w : World) (q : Query) (cond : A -> bool) (rows : list A) :
  (forall r, cond (f r) = cond r) ->
  gorm.First key w q cond (List.map f rows) =
  match gorm.First key w q cond rows with
  | Ok r => Ok (f r)
  | Err e => Err e
  end.
Proof.
  intros Hcond. unfold gorm.First.
  destruct (Fault w q); [reflexivity|].
  rewrite (filter_map _ _ Hcond), least_map.
  destruct (gorm.least key _); reflexivity.
Qed.

End TableMap.

Lemma set_Active_same (u : User) : set_Active u (Active u) = u.
Proof. destruct u; reflexivity. Qed.

(** [GetUserNameHandler] answers the same on two databases whose users
    differ in their [active] flags only. *)
Lemma GetUserNameHandler_ignores_active (w : World) (token : jwt.Token)
    (flag : User -> bool) (db db' : DB) :
  users db' = List.map (fun u => set_Active u (flag u)) (users db) ->
  snd (serve (GetUserNameHandler w token) db')
  = snd (serve (GetUserNameHandler w token) db).
Proof.
  intros Husers. unfold GetUserNameHandler, claims_user_id. run_handler.
  destruct (jwt.Claims token !! "user_id") as [[]|]; simpl; try reflexivity.
  rewrite Husers.
  rewrite (First_map ID (fun u => set_Active u (flag u)))
    by reflexivity.
  destruct (gorm.First _ _ _ _ _); reflexivity.
Qed.

(** [DeactivateAccountHandler] changes nothing but [active] flags. *)
Lemma DeactivateAccountHandler_flags (w : World) (idStr : string) (db : DB) :
  exists flag,
    users (fst (serve (DeactivateAccountHandler w idStr) db))
    = List.map (fun u => set_Active u (flag u)) (users db).
Proof.
  assert (Hid : users db = List.map (fun u => set_Active u (Active u)) (users db)).
  { rewrite <- (List.map_id (users db)) at 1.
    apply List.map_ext. intros u. symmetry. apply set_Active_same. }
  unfold DeactivateAccountHandler. run_handler.
  destruct (strconv.ParseUint idStr 32) as [id|]; simpl; [|exists Active; exact Hid].
  destruct (gorm.First _ _ _ _ _) as [user|]; simpl; [|exists Active; exact Hid].
  unfold gorm.Update.
  destruct (Fault w QDeactivateUpdate); simpl; [exists Active; exact Hid|].
  destruct (ID user =? 0); simpl; [exists Active; exact Hid|].
  exists (fun r => if ID r =? ID user then false else Active r).
  apply List.map_ext. intros r.
  destruct (ID r =? ID user); [reflexivity|]. symmetry. apply set_Active_same.
Qed.

(** C4: a request whose token passes verification enters the handler
    whatever the database holds, and [GetUserNameHandler] answers it the
    same whatever the [active] flags are; in particular after any call of
    [DeactivateAccountHandler]. *)
Theorem token_outlives_deactivation (key : list byte) (w wd : World)
    (idStr : string) (b : bearer) (token : jwt.Token) (db : DB) :
  Verify key (Now w) b = Ok token ->
  Protected key w b (GetUserNameHandler w) = GetUserNameHandler w token
  /\ (forall flag db',
        users db' = List.map (fun u => set_Active u (flag u)) (users db) ->
        snd (serve (Protected key w b (GetUserNameHandler w)) db')
        = snd (serve (Protected key w b (GetUserNameHandler w)) db))
  /\ snd (serve (Protected key w b (GetUserNameHandler w))
            (fst (serve (DeactivateAccountHandler wd idStr) db)))
     = snd (serve (Protected key w b (GetUserNameHandler w)) db).
Proof.
  intros Hverify.
  assert (Henter : Protected key w b (GetUserNameHandler w)
                   = GetUserNameHandler w token).
  { unfold Protected. rewrite Hverify. reflexivity. }
  rewrite Henter. split; [reflexivity|]. split.
  - intros flag db' Husers.
    apply (GetUserNameHandler_ignores_active w token flag db db' Husers).
  - destruct (DeactivateAccountHandler_flags wd idStr db) as [flag Hflag].
    apply (GetUserNameHandler_ignores_active w token flag _ _ Hflag).
Qed.

Lemma token_outlives_deactivation_witness :
  Active <$> users (fst (serve (DeactivateAccountHandler Sample.world "1")
                           Sample.db_alice)) = [false]
  /\ snd (serve (Protected Sample.signing_key Sample.world Sample.alice_bearer
                   (GetUserNameHandler Sample.world))
            (fst (serve (DeactivateAccountHandler Sample.world "1")
                    Sample.db_alice)))
     = Replied (JSON StatusOK [("success", JvBool true);
                               ("name", JvStr "Alice")]).
Proof.
  split; [vm_compute; reflexivity|].
  edestruct (fun token =>
               token_outlives_deactivation Sample.signing_key Sample.world
                 Sample.world "1" Sample.alice_bearer token Sample.db_alice)
    as (_ & _ & Hsame).
  - vm_compute. reflexivity.
  - rewrite Hsame. vm_compute. reflexivity.
Defined.

(** ** Registration and stored passwords *)

(** What a successful registration did. *)
Lemma RegisterHandler_success (w : World) (d : RegisterData) (db db' : DB)
    (r : Response) :
  serve (RegisterHandler w (Some d)) db = (db', Replied r) ->
  status r = StatusOK ->
  exists s token,
    Entropy w = Some s
    /\ bcrypt.GenerateFromPassword (Entropy w)
         (Go.bytes_of_string (reg_Password d)) 10
       = Ok (bcrypt.Encoded
               {| bcrypt.hash :=
                    bcrypt.bcrypt_digest
                      (Go.bytes_of_string (reg_Password d)) 10 s;
                  bcrypt.salt := s;
                  bcrypt.cost := 10 |})
    /\ db' = with_users db
               (users db ++
                [ {| ID := users_seq db + 1;
                     UserID := rand.Intn w (time.UnixNano (Now w)) 10000;
                     FirstName := reg_FirstName d;
                     LastName := reg_LastName d;
                     Email := reg_Email d;
                     Password :=
                       bcrypt.Encoded
                         {| bcrypt.hash :=
                              bcrypt.bcrypt_digest
                                (Go.bytes_of_string (reg_Password d)) 10 s;
                            bcrypt.salt := s;
                            bcrypt.cost := 10 |};
                     Role := reg_Role d;
                     Active := active_default db |} ])%list
               (users_seq db + 1)
    /\ CreateToken w (users_seq db + 1) = Ok token
    /\ r = JSON StatusOK [("success", JvBool true); ("token", JvToken token)].
Proof.
  intros Hserve Hst. revert Hserve.
  unfold RegisterHandler. run_handler.
  destruct (validate_RegisterData w d); cbn; [|intros H; failed_reply H Hst].
  destruct (gorm.First _ _ _ _ _); cbn; [intros H; failed_reply H Hst|].
  destruct (bcrypt.GenerateFromPassword _ _ _) as [hp|] eqn:Hgen; cbn;
    [|intros H; failed_reply H Hst].
  destruct (GenerateFromPassword_inv _ _ _ Hgen) as (s & Hs & ->).
  unfold create_user, gorm.Create. run_handler.
  destruct (Fault w QRegisterCreate); cbn; [intros H; failed_reply H Hst|].
  destruct (existsb _ _); cbn; [intros H; failed_reply H Hst|].
  destruct (CreateToken w (users_seq db + 1)) as [token|] eqn:Htoken; cbn;
    [|intros H; failed_reply H Hst].
  intros H. injection H as <- <-.
  exists s, token. repeat split; assumption || reflexivity.
Qed.

(** C10: a successful registration appends one row whose primary key the
    sequence of the table gave, and answers with the token [CreateToken]
    makes for that key: the [user_id] of the payload is the key, not the
    [UserID] column.  That column holds the draw of the generator, a number
    from 0 to 9999, and two rows may hold the same one. *)
Theorem RegisterHandler_token_subject (w : World) (d : RegisterData)
    (db db' : DB) (r : Response) :
  serve (RegisterHandler w (Some d)) db = (db', Replied r) ->
  status r = StatusOK ->
  exists newUser token,
    users db' = (users db ++ [newUser])%list
    /\ ID newUser = users_seq db + 1
    /\ UserID newUser = rand.Intn w (time.UnixNano (Now w)) 10000
    /\ 0 <= UserID newUser < 10000
    /\ CreateToken w (ID newUser) = Ok token
    /\ body r = BMap (list_to_map [("success", JvBool true);
                                   ("token", JvToken token)])
    /\ jwt.seg_payload token !! "user_id" = Some (jwt.JNumber (ID newUser))
    /\ exists u1 u2,
        users (fst (serve (RegisterHandler Sample.world_later (Some Sample.bob))
                      Sample.db_alice)) = [u1; u2]
        /\ UserID u1 = UserID u2
        /\ ID u1 <> ID u2.
Proof.
  intros Hserve Hst.
  destruct (RegisterHandler_success w d db db' r Hserve Hst)
    as (s & token & Hs & _ & -> & Htoken & ->).
  eexists _, token. split; [reflexivity|]. cbn.
  split; [reflexivity|]. split; [reflexivity|].
  split; [apply Z.mod_pos_bound; lia|].
  split; [assumption|]. split; [reflexivity|].
  split.
  - rewrite CreateToken_eq in Htoken. injection Htoken as <-. cbn.
    rewrite lookup_insert_ne by done. apply lookup_insert_eq.
  - eexists _, _. split; [vm_compute; reflexivity|].
    split; [reflexivity|]. cbn. lia.
Qed.

Lemma RegisterHandler_token_subject_witness :
  exists newUser token,
    users Sample.db_alice = [newUser]
    /\ ID newUser = 1
    /\ UserID newUser = 4242
    /\ CreateToken Sample.world 1 = Ok token
    /\ jwt.seg_payload token !! "user_id" = Some (jwt.JNumber 1).
Proof.
  edestruct (fun r =>
               RegisterHandler_token_subject Sample.world Sample.alice
                 Sample.empty_db Sample.db_alice r)
    as (newUser & token & Husers & Hid & Huid & _ & Htoken & _ & Hsub & _).
  - vm_compute. reflexivity.
  - reflexivity.
  - exists newUser, token. rewrite Hid in Htoken, Hsub.
    split; [exact Husers|]. split; [exact Hid|].
    split; [rewrite Huid; vm_compute; reflexivity|].
    split; [exact Htoken|exact Hsub].
Defined.

(** ** Rows a handler saves *)

Section TableFacts.
Context {A : Type} (key : A -> Z).

Lemma least_In (rows : list A) (r : A) :
  gorm.least key rows = Some r -> In r rows.
Proof.
  revert r. induction rows as [|x rows IH]; intros r; [discriminate|].
  simpl. destruct (gorm.least key rows) as [r'|].
  - destruct (key r' <? key x); intros [= <-]; [right; apply IH|left]; reflexivity.
  - intros [= <-]. left. reflexivity.
Qed.

(** What [First] finds is a row of the table that meets the condition. *)
Lemma First_Ok (w : World) (q : Query) (cond : A -> bool) (rows : list A)
    (r : A) :
  gorm.First key w q cond rows = Ok r -> In r rows /\ cond r = true.
Proof.
  unfold gorm.First. destruct (Fault w q); [discriminate|].
  destruct (gorm.least key (List.filter cond rows)) as [r'|] eqn:Hleast;
    [|discriminate].
  intros [= <-]. apply least_In in Hleast.
  apply List.filter_In in Hleast. exact Hleast.
Qed.

(** What [Save] answers with: the row itself, or its copy under the next
    key of the sequence when its key is zero. *)
Lemma Save_result (w : World) (q : Query) (set_key : A -> Z -> A) (row : A)
    (rows : list A) (seq : Z) (rows' : list A) (seq' : Z) (row' : A) :
  gorm.Save key w q set_key row rows seq = Ok (rows', seq', row') ->
  (key row <> 0 /\ row' = row /\ seq' = seq)
  \/ (key row = 0 /\ row' = set_key row (seq + 1) /\ seq' = seq + 1
      /\ existsb (fun r => key r =? seq + 1) rows = false
      /\ rows' = (rows ++ [row'])%list).
Proof.
  unfold gorm.Save, gorm.Create.
  destruct (Z.eqb_spec (key row) 0) as [Hzero|Hkey].
  - destruct (Fault w q); [discriminate|].
    destruct (existsb _ rows) eqn:Hex; [discriminate|].
    intros [= <- <- <-]. right. auto.
  - destruct (Fault w q); [discriminate|].
    destruct (existsb _ rows); intros [= <- <- <-]; left; auto.
Qed.

(** After [Save] every row is one the table had, or the row saved. *)
Lemma Save_rows (w : World) (q : Query) (set_key : A -> Z -> A) (row : A)
    (rows : list A) (seq : Z) (rows' : list A) (seq' : Z) (row' : A) :
  gorm.Save key w q set_key row rows seq = Ok (rows', seq', row') ->
  forall r, In r rows' -> In r rows \/ r = row'.
Proof.
  unfold gorm.Save, gorm.Create.
  destruct (key row =? 0).
  - destruct (Fault w q); [discriminate|].
    destruct (existsb _ rows); [discriminate|].
    intros [= <- <- <-] r Hin.
    apply List.in_app_iff in Hin as [Hin|[<-|[]]]; auto.
  - destruct (Fault w q); [discriminate|].
    destruct (existsb _ rows); intros [= <- <- <-] r Hin.
    + apply List.in_map_iff in Hin as (x & Hx & Hin).
      destruct (key x =? key row); subst; auto.
    + apply List.in_app_iff in Hin as [Hin|[<-|[]]]; auto.
Qed.

(** The row [Save] answers with is in the table afterwards. *)
Lemma Save_stored (w : World) (q : Query) (set_key : A -> Z -> A) (row : A)
    (rows : list A) (seq : Z) (rows' : list A) (seq' : Z) (row' : A) :
  gorm.Save key w q set_key row rows seq = Ok (rows', seq', row') ->
  In row' rows'.
Proof.
  unfold gorm.Save, gorm.Create.
  destruct (key row =? 0).
  - destruct (Fault w q); [discriminate|].
    destruct (existsb _ rows); [discriminate|].
    intros [= <- <- <-]. apply List.in_app_iff. right. left. reflexivity.
  - destruct (Fault w q); [discriminate|].
    destruct (existsb _ rows) eqn:Hex; intros [= <- <- <-].
    + apply List.existsb_exists in Hex as (x & Hin & Hx).
      apply List.in_map_iff. exists x. rewrite Hx. auto.
    + apply List.in_app_iff. right. left. reflexivity.
Qed.

(** Saving a row under the key of a row of the table rewrites that row in
    place, unless the key is zero: then the table keeps its rows and gains a
    copy under the next key of the sequence. *)
Lemma Save_found (w : World) (q : Query) (set_key : A -> Z -> A) (row old : A)
    (rows : list A) (seq : Z) (rows' : list A) (seq' : Z) (row' : A) :
  In old rows -> key old = key row ->
  gorm.Save key w q set_key row rows seq = Ok (rows', seq', row') ->
  (key old <> 0
   /\ rows' = List.map (fun r => if key r =? key old then row else r) rows
   /\ seq' = seq /\ row' = row)
  \/ (key old = 0
      /\ existsb (fun r => key r =? seq + 1) rows = false
      /\ rows' = (rows ++ [set_key row (seq + 1)])%list
      /\ seq' = seq + 1 /\ row' = set_key row (seq + 1)).
Proof.
  intros Hin Hkey. rewrite Hkey. unfold gorm.Save, gorm.Create.
  destruct (Z.eqb_spec (key row) 0) as [Hzero|Hnz].
  - destruct (Fault w q); [discriminate|].
    destruct (existsb _ rows) eqn:Hex; [discriminate|].
    intros [= <- <- <-]. right. auto.
  - destruct (Fault w q); [discriminate|].
    destruct (existsb _ rows) eqn:Hex; [intros [= <- <- <-]; left; auto|].
    exfalso. apply Bool.not_true_iff_false in Hex. apply Hex.
    apply List.existsb_exists. exists old. split; [assumption|].
    rewrite Hkey. apply Z.eqb_refl.
Qed.

End TableFacts.

(** What [save_user] stored for a row that took its key from a row of the
    table. *)
Lemma save_user_Ok (w : World) (q : Query) (user old : User) (db db' : DB)
    (saved : User) :
  In old (users db) -> ID old = ID user ->
  save_user w q user db = (db', Ok (Ok saved)) ->
  (ID user <> 0 /\ saved = user
   /\ db' = with_users db
              (List.map (fun u => if ID u =? ID user then user else u)
                 (users db))
              (users_seq db))
  \/ (ID user = 0
      /\ saved = set_ID (if Active user then user
                         else set_Active user (active_default db))
                   (users_seq db + 1)
      /\ existsb (fun u => ID u =? users_seq db + 1) (users db) = false
      /\ db' = with_users db (users db ++ [saved])%list (users_seq db + 1)).
Proof.
  intros Hin Hkey. unfold save_user.
  destruct (Z.eqb_spec (ID user) 0) as [Hzero|Hnz].
  - unfold create_user, gorm.Create. run_handler.
    assert (Hrow : ID (if Active user then user
                       else set_Active user (active_default db)) = 0)
      by (destruct (Active user); exact Hzero).
    rewrite Hrow. cbn.
    destruct (Fault w q); cbn; [discriminate|].
    destruct (existsb _ _) eqn:Hex; cbn; [discriminate|].
    intros [= <- <-]. right. auto.
  - run_handler.
    destruct (gorm.Save _ _ _ _ _ _ _) as [[[rows seq] row']|] eqn:Hsave; cbn;
      [|discriminate].
    intros [= <- <-].
    destruct (Save_found ID _ _ _ _ _ _ _ _ _ _ Hin Hkey Hsave)
      as [(_ & -> & -> & ->)|(Hzero & _)]; [|congruence].
    left. rewrite Hkey. auto.
Qed.

(** [save_user] saves and goes on, or goes on with the error and the
    database as it was. *)
Lemma save_user_cases (w : World) (q : Query) (user : User) (db : DB) :
  (exists db' saved, save_user w q user db = (db', Ok (Ok saved)))
  \/ (exists e, save_user w q user db = (db, Ok (Err e))).
Proof.
  unfold save_user, create_user, gorm.Save, gorm.Create. run_handler.
  destruct (ID user =? 0); cbn.
  - destruct (Fault w q); cbn; [right; eexists; reflexivity|].
    destruct (existsb _ _); cbn; [right|left]; eexists; try eexists; reflexivity.
  - destruct (ID user =? 0); cbn;
      destruct (Fault w q); cbn; try (right; eexists; reflexivity);
      destruct (existsb _ _); cbn; try (right; eexists; reflexivity);
      left; eexists _, _; reflexivity.
Qed.

(** What a successful [UpdateProfile] did: it saved the row it found, with
    the names and the email of the body where given, and with the password
    either untouched or replaced by the hash of the bytes of the body.  The
    row found is rewritten in place; under key 0 it stays, and the saved row
    is appended under the next key of the sequence, with the default of the
    [active] column where the flag was false. *)
Lemma UpdateProfile_success (w : World) (idStr : string) (d : ProfileData)
    (db db' : DB) (r : Response) :
  serve (UpdateProfile w idStr (Some d)) db = (db', Replied r) ->
  status r = StatusOK ->
  exists id user user',
    strconv.ParseUint idStr 32 = Ok id
    /\ gorm.First ID w QProfileUser (fun u => ID u =? id) (users db) = Ok user
    /\ In user (users db)
    /\ ID user = id
    /\ UserID user' = UserID user
    /\ Role user' = Role user
    /\ FirstName user'
       = (if String.eqb (prof_FirstName d) "" then FirstName user
          else prof_FirstName d)
    /\ LastName user'
       = (if String.eqb (prof_LastName d) "" then LastName user
          else prof_LastName d)
    /\ Email user'
       = (if String.eqb (prof_Email d) "" then Email user else prof_Email d)
    /\ (if (0 <? length (prof_Password d))%nat
        then bcrypt.GenerateFromPassword (Entropy w) (prof_Password d) 10
             = Ok (Password user')
        else Password user' = Password user)
    /\ ((id <> 0
         /\ ID user' = id
         /\ Active user' = Active user
         /\ db' = with_users db
                    (List.map (fun u => if ID u =? id then user' else u)
                       (users db))
                    (users_seq db))
        \/ (id = 0
            /\ ID user' = users_seq db + 1
            /\ Active user'
               = (if Active user then true else active_default db)
            /\ existsb (fun u => ID u =? users_seq db + 1) (users db) = false
            /\ db' = with_users db (users db ++ [user'])%list
                       (users_seq db + 1))).
Proof.
  intros Hserve Hst. revert Hserve.
  unfold UpdateProfile. run_handler.
  destruct (strconv.ParseUint idStr 32) as [id|] eqn:Hparse; cbn;
    [|intros H; failed_reply H Hst].
  destruct (gorm.First _ _ _ _ _) as [user|] eqn:Hfirst; cbn;
    [|intros H; failed_reply H Hst].
  destruct (First_Ok _ _ _ _ _ _ Hfirst) as [Hin Hid%Z.eqb_eq].
  match goal with
  | |- context [if negb (String.eqb (prof_Email d) "") then ?a else ?b] =>
      set (base := if negb (String.eqb (prof_Email d) "") then a else b)
  end.
  assert (Hbase : ID base = ID user
                  /\ UserID base = UserID user
                  /\ Role base = Role user
                  /\ Active base = Active user
                  /\ Password base = Password user
                  /\ FirstName base
                     = (if String.eqb (prof_FirstName d) "" then FirstName user
                        else prof_FirstName d)
                  /\ LastName base
                     = (if String.eqb (prof_LastName d) "" then LastName user
                        else prof_LastName d)
                  /\ Email base
                     = (if String.eqb (prof_Email d) "" then Email user
                        else prof_Email d)).
  { subst base.
    destruct (String.eqb (prof_FirstName d) ""),
      (String.eqb (prof_LastName d) ""),
      (String.eqb (prof_Email d) ""); repeat split; reflexivity. }
  clearbody base.
  destruct Hbase as (Hkey & Huid & Hrole & Hactive & Hpass & Hfn & Hln & Hem).
  assert (Hsaved : forall final db1 saved,
             ID final = ID user -> UserID final = UserID user ->
             Role final = Role user -> Active final = Active user ->
             FirstName final = FirstName base ->
             LastName final = LastName base -> Email final = Email base ->
             save_user w QProfileSave final db = (db1, Ok (Ok saved)) ->
             UserID saved = UserID user
             /\ Role saved = Role user
             /\ FirstName saved = FirstName base
             /\ LastName saved = LastName base
             /\ Email saved = Email base
             /\ Password saved = Password final
             /\ ((id <> 0
                  /\ ID saved = id
                  /\ Active saved = Active user
                  /\ db1 = with_users db
                             (List.map (fun u => if ID u =? id then saved else u)
                                (users db))
                             (users_seq db))
                 \/ (id = 0
                     /\ ID saved = users_seq db + 1
                     /\ Active saved
                        = (if Active user then true else active_default db)
                     /\ existsb (fun u => ID u =? users_seq db + 1) (users db)
                        = false
                     /\ db1 = with_users db (users db ++ [saved])%list
                                (users_seq db + 1)))).
  { intros final db1 saved Hk Hu Hr Ha Hf Hl He Hsave.
    destruct (save_user_Ok _ _ _ _ _ _ _ Hin (eq_sym Hk) Hsave)
      as [(Hnz & -> & ->)|(Hzero & -> & Hex & ->)].
    - repeat (split; [assumption || reflexivity|]).
      left. rewrite Hk, Hid in *. auto.
    - rewrite <- Ha.
      destruct (Active final) eqn:Hact; cbn;
        (repeat (split; [assumption || reflexivity|]));
        right; rewrite Hk, Hid in *; auto. }
  destruct (prof_Password d) as [|b pw] eqn:Hpw; cbn.
  - destruct (save_user_cases w QProfileSave base db)
      as [(db1 & saved & Hsave)|(e & Hsave)]; rewrite Hsave; cbn;
      [|intros H; failed_reply H Hst].
    intros H. injection H as <- <-.
    destruct (Hsaved base db1 saved) as (? & ? & ? & ? & ? & ? & Hdb);
      try assumption; try reflexivity.
    exists id, user, saved.
    repeat (split; [congruence|]). exact Hdb.
  - destruct (bcrypt.GenerateFromPassword _ _ _) as [hp|] eqn:Hgen; cbn;
      [|intros H; failed_reply H Hst].
    destruct (save_user_cases w QProfileSave (set_Password base hp) db)
      as [(db1 & saved & Hsave)|(e & Hsave)]; rewrite Hsave; cbn;
      [|intros H; failed_reply H Hst].
    intros H. injection H as <- <-.
    destruct (Hsaved (set_Password base hp) db1 saved)
      as (? & ? & ? & ? & ? & Hp & Hdb); try assumption; try reflexivity.
    cbn in Hp. exists id, user, saved.
    repeat (split; [congruence|]). exact Hdb.
Qed.

(** C8: registration and profile update store a password only as what
    [GenerateFromPassword] returns, at cost 10 in both, for the bytes of the
    request.  A successful registration appends one row: every column holds
    what the request gave for that column, except the password, which holds
    the encoding of the hash at cost 10 under the salt drawn.  A successful
    profile update stores one row, in place of the row found or, under key
    0, as a new row: its names and email are those of the body or of the row
    found, its password is the one of the row found when the body brings
    none and otherwise the encoding of the hash of the bytes of the body,
    at cost 10 under the salt drawn.  So the bytes of a password reach the
    table through the digest only.  The third handler that rewrites rows of
    users, [DeactivateAccountHandler], leaves every password as it is. *)
Theorem stored_passwords_are_hashes (w : World) (db db' : DB) (r : Response) :
  status r = StatusOK ->
  (forall d,
      serve (RegisterHandler w (Some d)) db = (db', Replied r) ->
      exists s,
        Entropy w = Some s
        /\ bcrypt.GenerateFromPassword (Entropy w)
             (Go.bytes_of_string (reg_Password d)) 10
           = Ok (bcrypt.Encoded
                   {| bcrypt.hash :=
                        bcrypt.bcrypt_digest
                          (Go.bytes_of_string (reg_Password d)) 10 s;
                      bcrypt.salt := s;
                      bcrypt.cost := 10 |})
        /\ db' = with_users db
                   (users db ++
                    [ {| ID := users_seq db + 1;
                         UserID := rand.Intn w (time.UnixNano (Now w)) 10000;
                         FirstName := reg_FirstName d;
                         LastName := reg_LastName d;
                         Email := reg_Email d;
                         Password :=
                           bcrypt.Encoded
                             {| bcrypt.hash :=
                                  bcrypt.bcrypt_digest
                                    (Go.bytes_of_string (reg_Password d)) 10 s;
                                bcrypt.salt := s;
                                bcrypt.cost := 10 |};
                         Role := reg_Role d;
                         Active := active_default db |} ])%list
                   (users_seq db + 1))
  /\ (forall idStr d,
        serve (UpdateProfile w idStr (Some d)) db = (db', Replied r) ->
        exists id user stored,
          strconv.ParseUint idStr 32 = Ok id
          /\ gorm.First ID w QProfileUser (fun u => ID u =? id) (users db)
             = Ok user
          /\ UserID stored = UserID user
          /\ Role stored = Role user
          /\ FirstName stored
             = (if String.eqb (prof_FirstName d) "" then FirstName user
                else prof_FirstName d)
          /\ LastName stored
             = (if String.eqb (prof_LastName d) "" then LastName user
                else prof_LastName d)
          /\ Email stored
             = (if String.eqb (prof_Email d) "" then Email user
                else prof_Email d)
          /\ (prof_Password d = [] -> Password stored = Password user)
          /\ (prof_Password d <> [] ->
              exists s,
                Entropy w = Some s
                /\ bcrypt.GenerateFromPassword (Entropy w) (prof_Password d) 10
                   = Ok (Password stored)
                /\ Password stored
                   = bcrypt.Encoded
                       {| bcrypt.hash :=
                            bcrypt.bcrypt_digest (prof_Password d) 10 s;
                          bcrypt.salt := s;
                          bcrypt.cost := 10 |})
          /\ ((id <> 0
               /\ ID stored = id
               /\ Active stored = Active user
               /\ db' = with_users db
                          (List.map (fun u => if ID u =? id then stored else u)
                             (users db))
                          (users_seq db))
              \/ (id = 0
                  /\ ID stored = users_seq db + 1
                  /\ Active stored
                     = (if Active user then true else active_default db)
                  /\ db' = with_users db (users db ++ [stored])%list
                             (users_seq db + 1))))
  /\ (forall wd idStr,
        List.map Password
          (users (fst (serve (DeactivateAccountHandler wd idStr) db)))
        = List.map Password (users db)).
Proof.
  intros Hst. split; [|split]; cycle 2.
  - intros wd idStr.
    destruct (DeactivateAccountHandler_flags wd idStr db) as [flag ->].
    rewrite List.map_map. reflexivity.
  - intros d Hserve.
    destruct (RegisterHandler_success w d db db' r Hserve Hst)
      as (s & token & Hs & Hgen & -> & _ & _).
    exists s. split; [exact Hs|]. split; [exact Hgen|reflexivity].
  - intros idStr d Hserve.
    destruct (UpdateProfile_success w idStr d db db' r Hserve Hst)
      as (id & user & stored & Hparse & Hfirst & _ & _ & Huid & Hrole & Hfn
          & Hln & Hem & Hpw & Hdb).
    exists id, user, stored.
    repeat (split; [assumption|]).
    destruct (prof_Password d) as [|b pw]; cbn in Hpw.
    + split; [intros _; exact Hpw|].
      split; [intros Hne; contradiction Hne; reflexivity|].
      destruct Hdb as [Hdb|(? & ? & ? & _ & ?)]; [left|right]; auto.
    + split; [discriminate|]. split.
      * intros _.
        destruct (GenerateFromPassword_inv _ _ _ Hpw) as (s & Hs & Henc).
        exists s. split; [exact Hs|]. split; [exact Hpw|exact Henc].
      * destruct Hdb as [Hdb|(? & ? & ? & _ & ?)]; [left|right]; auto.
Qed.

Lemma stored_passwords_are_hashes_witness :
  (exists newUser,
      users Sample.db_alice = [newUser]
      /\ LastName newUser = "Liddell"
      /\ Password newUser
         = bcrypt.Encoded
             {| bcrypt.hash :=
                  bcrypt.bcrypt_digest (Go.bytes_of_string "secret123") 10
                    (repeat x2a 16);
                bcrypt.salt := repeat x2a 16;
                bcrypt.cost := 10 |})
  /\ (exists stored,
        users Scenario.db_new_password = [stored]
        /\ LastName stored = "Liddell"
        /\ Password stored
           = bcrypt.Encoded
               {| bcrypt.hash :=
                    bcrypt.bcrypt_digest (Go.bytes_of_string "hunter2") 10
                      (repeat x2a 16);
                  bcrypt.salt := repeat x2a 16;
                  bcrypt.cost := 10 |}).
Proof.
  split.
  - edestruct (fun r Hserve Hst =>
                 proj1 (stored_passwords_are_hashes Sample.world
                          Sample.empty_db Sample.db_alice r Hst) Sample.alice
                   Hserve)
      as (s & Hs & _ & Hdb); cycle 1.
    + vm_compute. reflexivity.
    + vm_compute in Hs. injection Hs as <-.
      eexists. rewrite Hdb. split; [reflexivity|]. split; reflexivity.
    + reflexivity.
  - edestruct (fun r Hserve Hst =>
                 proj1 (proj2 (stored_passwords_are_hashes Sample.world
                                 Sample.db_alice Scenario.db_new_password r
                                 Hst)) "1" Sample.new_password Hserve)
      as (id & user & stored & Hparse & Hfirst & _ & _ & _ & Hln & _ & _
          & Hpw & Hdb); cycle 1.
    + vm_compute. reflexivity.
    + destruct Hpw as (s & Hs & _ & Henc); [discriminate|].
      vm_compute in Hs. injection Hs as <-.
      vm_compute in Hparse. injection Hparse as <-.
      vm_compute in Hfirst. injection Hfirst as <-.
      destruct Hdb as [(_ & _ & _ & Hdb)|(Hzero & _)];
        [|discriminate Hzero].
      exists stored. rewrite Hdb. split; [reflexivity|].
      split; [exact Hln|exact Henc].
    + reflexivity.
Defined.

(** ** The cart *)

(** What a successful [UpdateCartItemQuantityHandler] did. *)
Lemma UpdateCartItemQuantityHandler_success (w : World) (token : jwt.Token)
    (bookID : option Z) (update : QuantityData) (db db' : DB) (r : Response) :
  serve (UpdateCartItemQuantityHandler w token bookID (Some update)) db
  = (db', Replied r) ->
  status r = StatusOK ->
  exists f b cartItem rows seq saved,
    jwt.Claims token !! "user_id" = Some (jwt.VFloat64 f)
    /\ bookID = Some b
    /\ upd_Quantity update <> 0
    /\ gorm.First CartItem_ID w QQuantityItem
         (fun i => (CartItem_UserID i =? Go.uint_of_float64 (UintOverflow w) f)
                   && (BookID i =? b))
         (cart_items db) = Ok cartItem
    /\ gorm.Save CartItem_ID w QQuantitySave set_CartItem_ID
         (set_Quantity cartItem (upd_Quantity update)) (cart_items db)
         (cart_items_seq db)
       = Ok (rows, seq, saved)
    /\ db' = with_cart_items db rows seq
    /\ r = {| status := StatusOK; body := BCartItem saved; cookies := [] |}.
Proof.
  intros Hserve Hst. revert Hserve.
  unfold UpdateCartItemQuantityHandler, claims_user_id. run_handler.
  destruct (jwt.Claims token !! "user_id") as [[| |f| |]|] eqn:Hclaim; cbn;
    try discriminate.
  unfold validator.required_uint.
  destruct (Z.eqb_spec (upd_Quantity update) 0) as [|Hq]; cbn;
    [intros H; failed_reply H Hst|].
  destruct bookID as [b|]; cbn; [|intros H; failed_reply H Hst].
  destruct (gorm.First _ _ _ _ _) as [cartItem|] eqn:Hfirst; cbn;
    [|intros H; failed_reply H Hst].
  destruct (gorm.Save _ _ _ _ _ _ _) as [[[rows seq] saved]|] eqn:Hsave; cbn;
    [|intros H; failed_reply H Hst].
  intros H. injection H as <- <-.
  exists f, b, cartItem, rows, seq, saved.
  repeat split; assumption || reflexivity.
Qed.

(** What a successful [AddToCartHandler] did: the row it answers with is in
    the table afterwards, and its subtotal is its quantity times the price
    of the book. *)
Lemma AddToCartHandler_success (w : World) (token : jwt.Token) (c : CartData)
    (db db' : DB) (r : Response) :
  serve (AddToCartHandler w token (Some c)) db = (db', Replied r) ->
  status r = StatusOK ->
  exists f item book,
    jwt.Claims token !! "user_id" = Some (jwt.VFloat64 f)
    /\ body r = BCartItem item
    /\ In item (cart_items db')
    /\ gorm.First Book_ID w QAddBook (fun b => Book_ID b =? cart_BookID c)
         (books db) = Ok book
    /\ books db' = books db
    /\ CartItem_UserID item = Go.uint_of_float64 (UintOverflow w) f
    /\ BookID item = cart_BookID c
    /\ Subtotal item
       = PrimFloat.mul (Go.float64_of_uint (Quantity item)) (Price book).
Proof.
  intros Hserve Hst. revert Hserve.
  unfold AddToCartHandler, claims_user_id. run_handler.
  destruct (jwt.Claims token !! "user_id") as [[| |f| |]|] eqn:Hclaim; cbn;
    try discriminate.
  destruct (validate_CartData c); cbn; [|intros H; failed_reply H Hst].
  destruct (gorm.First CartItem_ID _ _ _ _) as [existing|] eqn:Hitem; cbn.
  - destruct (gorm.First Book_ID _ _ _ _) as [book|] eqn:Hbook; cbn;
      [|intros H; failed_reply H Hst].
    destruct (gorm.Save _ _ _ _ _ _ _) as [[[rows seq] saved]|] eqn:Hsave;
      cbn; [|intros H; failed_reply H Hst].
    intros H. injection H as <- <-.
    exists f, saved, book. split; [reflexivity|]. split; [reflexivity|]. cbn.
    apply First_Ok in Hitem as [Hin Hcond].
    apply andb_prop in Hcond as [Hu%Z.eqb_eq Hb%Z.eqb_eq].
    split; [apply (Save_stored CartItem_ID _ _ _ _ _ _ _ _ _ Hsave)|].
    destruct (Save_result CartItem_ID _ _ _ _ _ _ _ _ _ Hsave)
      as [(_ & -> & _)|(_ & -> & _)];
      repeat split; assumption || reflexivity.
  - destruct (gorm.First Book_ID _ _ _ _) as [book|] eqn:Hbook; cbn;
      [|intros H; failed_reply H Hst].
    destruct (gorm.Create _ _ _ _ _ _ _) as [[[rows seq] item]|] eqn:Hcreate;
      cbn; [|intros H; failed_reply H Hst].
    intros H. injection H as <- <-.
    exists f, item, book. split; [reflexivity|]. split; [reflexivity|]. cbn.
    unfold gorm.Create in Hcreate.
    destruct (Fault w QAddCreate); [discriminate|].
    cbn in Hcreate. destruct (existsb _ _); [discriminate|].
    injection Hcreate as <- <- <-.
    split; [apply List.in_app_iff; right; left; reflexivity|].
    repeat split; assumption || reflexivity.
Qed.




(** * Further properties of the handlers *)

(** ** Tables *)

Section TableLookups.
Context {A : Type} (key : A -> Z).

(** [gorm.First] is [rows.First] at the fault of its statement. *)
Lemma First_rows (w : World) (q : Query) (cond : A -> bool) (rows : list A) :
  gorm.First key w q cond rows = rows.First key (Fault w q) cond rows.
Proof. reflexivity. Qed.

Lemma least_None (rows : list A) : gorm.least key rows = None -> rows = [].
Proof.
  destruct rows as [|r rows]; [reflexivity|]. simpl.
  destruct (gorm.least key rows) as [r'|]; [|discriminate].
  destruct (key r' <? key r); discriminate.
Qed.

(** Without a fault, [First] fails only when no row meets the condition. *)
Lemma First_Err (failed : bool) (cond : A -> bool) (rows : list A)
    (e : gorm.error) :
  rows.First key failed cond rows = Err e -> failed = false ->
  List.filter cond rows = [].
Proof.
  intros Hfirst ->. unfold rows.First, rows.attempt in Hfirst.
  destruct (gorm.least key (List.filter cond rows)) eqn:Hleast; [discriminate|].
  apply least_None. exact Hleast.
Qed.

(** A row that alone meets the condition is the one [First] finds. *)
Lemma First_appended (cond : A -> bool) (rows : list A) (row : A) :
  List.filter cond rows = [] -> cond row = true ->
  rows.First key false cond (rows ++ [row])%list = Ok row.
Proof.
  intros Hnone Hrow. unfold rows.First, rows.attempt.
  rewrite List.filter_app, Hnone. simpl. rewrite Hrow. reflexivity.
Qed.

(** When some row meets the condition, [First] finds one. *)
Lemma First_found (cond : A -> bool) (rows : list A) (row : A) :
  In row rows -> cond row = true ->
  exists r, rows.First key false cond rows = Ok r.
Proof.
  intros Hin Hrow. unfold rows.First, rows.attempt.
  destruct (gorm.least key (List.filter cond rows)) as [r|] eqn:Hleast;
    [exists r; reflexivity|].
  apply least_None in Hleast.
  assert (Hf : In row (List.filter cond rows))
    by (apply List.filter_In; split; assumption).
  rewrite Hleast in Hf. destruct Hf.
Qed.

Lemma rows_First_Ok (failed : bool) (cond : A -> bool) (rows : list A) (r : A) :
  rows.First key failed cond rows = Ok r -> In r rows /\ cond r = true.
Proof.
  unfold rows.First, rows.attempt. destruct failed; [discriminate|].
  destruct (gorm.least key (List.filter cond rows)) as [r'|] eqn:Hleast;
    [|discriminate].
  intros [= <-]. apply least_In in Hleast.
  apply List.filter_In in Hleast. exact Hleast.
Qed.

End TableLookups.

(** ** Registering and logging in *)

(** A registration that succeeded had found no account under the email. *)
Lemma RegisterHandler_lookup (w : World) (d : RegisterData) (db db' : DB)
    (r : Response) :
  serve (RegisterHandler w (Some d)) db = (db', Replied r) ->
  status r = StatusOK ->
  validate_RegisterData w d = []
  /\ exists e,
      gorm.First ID w QRegisterLookup
        (fun u => String.eqb (Email u) (reg_Email d)) (users db) = Err e.
Proof.
  intros Hserve Hst. revert Hserve.
  unfold RegisterHandler. run_handler.
  destruct (validate_RegisterData w d); cbn; [|intros H; failed_reply H Hst].
  destruct (gorm.First _ _ _ _ _) as [|e]; cbn; [intros H; failed_reply H Hst|].
  intros _. split; [reflexivity|]. exists e. reflexivity.
Qed.

(** X1: who has just registered can log in.  After a successful
    registration whose lookup the database answered, a login with the same
    email and password, in any world whose lookup the database answers and
    whose validator accepts the two, is answered with status 200 and a token
    for the key of the new row. *)
Theorem login_after_registration (w w' : World) (d : RegisterData)
    (db db' : DB) (r : Response) :
  serve (RegisterHandler w (Some d)) db = (db', Replied r) ->
  status r = StatusOK ->
  Fault w QRegisterLookup = false ->
  Fault w' QLoginUser = false ->
  validate_LoginData w'
    {| login_Email := reg_Email d; login_Password := reg_Password d |} = [] ->
  exists token,
    CreateToken w' (users_seq db + 1) = Ok token
    /\ serve (LoginHandler w'
                (Some {| login_Email := reg_Email d;
                         login_Password := reg_Password d |})) db'
       = (db', Replied (JSON StatusOK [("success", JvBool true);
                                       ("token", JvToken token)])).
Proof.
  intros Hserve Hst Hlookup Hlogin Hvalid.
  destruct (RegisterHandler_lookup w d db db' r Hserve Hst) as (_ & e & Hnone).
  destruct (RegisterHandler_success w d db db' r Hserve Hst)
    as (s & _ & _ & _ & -> & _ & _).
  rewrite First_rows in Hnone.
  apply First_Err in Hnone; [|exact Hlookup].
  eexists. split; [apply CreateToken_eq|].
  rewrite (LoginHandler_run _ _ _ Hvalid). cbn [users with_users login_Email].
  rewrite First_rows, Hlogin.
  rewrite (First_appended ID _ _ _ Hnone) by apply String.eqb_refl.
  cbn [Password login_Password]. rewrite Compare_same.
  rewrite CreateToken_eq. reflexivity.
Qed.

Lemma login_after_registration_witness :
  exists token,
    CreateToken Sample.world_later 1 = Ok token
    /\ serve (LoginHandler Sample.world_later (Some Sample.alice_login))
         Sample.db_alice
       = (Sample.db_alice,
          Replied (JSON StatusOK [("success", JvBool true);
                                  ("token", JvToken token)])).
Proof.
  eapply (login_after_registration Sample.world Sample.world_later
            Sample.alice Sample.empty_db Sample.db_alice);
    [vm_compute; reflexivity|..]; reflexivity.
Defined.

(** X2: an email registers once.  After a successful registration, another
    registration under the same email, valid in a world whose lookup the
    database answers, is refused with status 409 and "User already exists",
    and stores nothing. *)
Theorem second_registration_conflicts (w w' : World) (d d' : RegisterData)
    (db db' : DB) (r : Response) :
  serve (RegisterHandler w (Some d)) db = (db', Replied r) ->
  status r = StatusOK ->
  reg_Email d' = reg_Email d ->
  validate_RegisterData w' d' = [] ->
  Fault w' QRegisterLookup = false ->
  serve (RegisterHandler w' (Some d')) db'
  = (db', Replied (JSON StatusConflict [("error", JvStr "User already exists")])).
Proof.
  intros Hserve Hst Hemail Hvalid Hlookup.
  destruct (RegisterHandler_success w d db db' r Hserve Hst)
    as (s & _ & _ & _ & -> & _ & _).
  unfold RegisterHandler. run_handler. rewrite Hvalid; cbn.
  rewrite First_rows, Hlookup, Hemail.
  edestruct (First_found ID (fun u => String.eqb (Email u) (reg_Email d)))
    as [found ->]; [apply List.in_app_iff; right; left; reflexivity| |].
  - cbn. apply String.eqb_refl.
  - reflexivity.
Qed.

Lemma second_registration_conflicts_witness :
  serve (RegisterHandler Sample.world_later (Some Sample.alice)) Sample.db_alice
  = (Sample.db_alice,
     Replied (JSON StatusConflict [("error", JvStr "User already exists")])).
Proof.
  eapply (second_registration_conflicts Sample.world Sample.world_later
            Sample.alice Sample.alice Sample.empty_db Sample.db_alice);
    [vm_compute; reflexivity|..]; reflexivity.
Defined.

Lemma Compare_None (hp : bcrypt.bytes) (p : list byte) :
  bcrypt.CompareHashAndPassword hp p = None ->
  exists h,
    hp = bcrypt.Encoded h
    /\ bcrypt.hash h = bcrypt.bcrypt_digest p (bcrypt.cost h) (bcrypt.salt h).
Proof.
  unfold bcrypt.CompareHashAndPassword. destruct hp as [h|b]; cbn; [|discriminate].
  destruct (decide _) as [Heq|]; [|discriminate].
  intros _. exists h. split; [reflexivity|exact Heq].
Qed.

(** X3: no token without the password.  When [LoginHandler] answers with
    status 200, the body of the request parsed, the table of users holds a
    row under the email of the request whose stored password is the encoding
    of a bcrypt hash that the password of the request reproduces, the token
    in the answer is the one [CreateToken] makes for the key of that row,
    and the database is as it was. *)
Theorem LoginHandler_sound (w : World) (c : option LoginData) (db db' : DB)
    (r : Response) :
  serve (LoginHandler w c) db = (db', Replied r) ->
  status r = StatusOK ->
  exists d user h token,
    c = Some d
    /\ db' = db
    /\ In user (users db)
    /\ Email user = login_Email d
    /\ Password user = bcrypt.Encoded h
    /\ bcrypt.hash h
       = bcrypt.bcrypt_digest (Go.bytes_of_string (login_Password d))
           (bcrypt.cost h) (bcrypt.salt h)
    /\ CreateToken w (ID user) = Ok token
    /\ jwt.seg_payload token !! "user_id" = Some (jwt.JNumber (ID user))
    /\ r = JSON StatusOK [("success", JvBool true); ("token", JvToken token)].
Proof.
  intros Hserve Hst. revert Hserve.
  unfold LoginHandler. run_handler.
  destruct c as [d|]; cbn; [|intros H; failed_reply H Hst].
  destruct (validate_LoginData w d); cbn; [|intros H; failed_reply H Hst].
  destruct (gorm.First _ _ _ _ _) as [user|] eqn:Hfirst; cbn;
    [|intros H; failed_reply H Hst].
  destruct (bcrypt.CompareHashAndPassword _ _) eqn:Hcmp; cbn;
    [intros H; failed_reply H Hst|].
  destruct (CreateToken w (ID user)) as [token|] eqn:Htoken; cbn;
    [|intros H; failed_reply H Hst].
  intros H. injection H as <- <-.
  apply First_Ok in Hfirst as [Hin Hemail]. apply String.eqb_eq in Hemail.
  apply Compare_None in Hcmp as (h & Hpw & Hhash).
  exists d, user, h, token. repeat split; try assumption.
  rewrite CreateToken_eq in Htoken. injection Htoken as <-. cbn.
  rewrite lookup_insert_ne by done. apply lookup_insert_eq.
Qed.

Lemma LoginHandler_sound_witness :
  exists user h,
    In user (users Sample.db_alice)
    /\ Email user = "alice@example.org"
    /\ Password user = bcrypt.Encoded h
    /\ bcrypt.hash h
       = bcrypt.bcrypt_digest (Go.bytes_of_string "secret123")
           (bcrypt.cost h) (bcrypt.salt h).
Proof.
  edestruct (fun db' r =>
               LoginHandler_sound Sample.world (Some Sample.alice_login)
                 Sample.db_alice db' r)
    as (d & user & h & token & Hd & _ & Hin & Hemail & Hpw & Hhash & _).
  - vm_compute. reflexivity.
  - reflexivity.
  - injection Hd as <-. exists user, h. auto.
Defined.

(** ** Requests that fail *)

(** Takes a handler apart, one case of its Go code at a time; the signing
    of a token never fails. *)
Ltac handler_cases :=
  repeat match goal with
         | |- context [CreateToken ?w ?u] => rewrite (CreateToken_eq w u); cbn
         | |- context [match ?x with _ => _ end] =>
             lazymatch x with
             | context [match _ with _ => _ end] => fail
             | _ => destruct x eqn:?
             end; cbn
         end.

(** Closes the case of a request that did not succeed, or that did. *)
Ltac unchanged_or_succeeded :=
  cbn [fst snd]; first [ reflexivity | intros Hrun; vm_compute in Hrun;
                                       discriminate Hrun ].

Lemma RegisterHandler_failed (w : World) (c : option RegisterData) (db : DB) :
  succeeded (snd (serve (RegisterHandler w c) db)) = false ->
  fst (serve (RegisterHandler w c) db) = db.
Proof.
  unfold RegisterHandler, create_user. run_handler.
  handler_cases; unchanged_or_succeeded.
Qed.

Lemma DeactivateAccountHandler_failed (w : World) (idStr : string) (db : DB) :
  succeeded (snd (serve (DeactivateAccountHandler w idStr) db)) = false ->
  fst (serve (DeactivateAccountHandler w idStr) db) = db.
Proof.
  unfold DeactivateAccountHandler. run_handler.
  handler_cases; unchanged_or_succeeded.
Qed.

Lemma UpdateProfile_failed (w : World) (idStr : string)
    (c : option ProfileData) (db : DB) :
  succeeded (snd (serve (UpdateProfile w idStr c) db)) = false ->
  fst (serve (UpdateProfile w idStr c) db) = db.
Proof.
  unfold UpdateProfile. run_handler.
  destruct (strconv.ParseUint idStr 32) as [id|]; cbn; [|reflexivity].
  destruct (gorm.First _ _ _ _ _) as [user|]; cbn; [|reflexivity].
  destruct c as [d|]; cbn; [|reflexivity].
  destruct (prof_Password d) as [|b pw]; cbn;
    [|destruct (bcrypt.GenerateFromPassword _ _ _) as [hp|]; cbn;
      [|reflexivity]];
    match goal with
    | |- context [save_user ?w ?q ?u ?db] =>
        destruct (save_user_cases w q u db)
          as [(db1 & saved & Hsave)|(e & Hsave)]; rewrite Hsave; cbn
    end; unchanged_or_succeeded.
Qed.

Lemma AddToCartHandler_failed (w : World) (token : jwt.Token)
    (c : option CartData) (db : DB) :
  succeeded (snd (serve (AddToCartHandler w token c) db)) = false ->
  fst (serve (AddToCartHandler w token c) db) = db.
Proof.
  unfold AddToCartHandler, claims_user_id. run_handler.
  handler_cases; unchanged_or_succeeded.
Qed.

Lemma UpdateCartItemQuantityHandler_failed (w : World) (token : jwt.Token)
    (bookID : option Z) (c : option QuantityData) (db : DB) :
  succeeded (snd (serve (UpdateCartItemQuantityHandler w token bookID c) db))
  = false ->
  fst (serve (UpdateCartItemQuantityHandler w token bookID c) db) = db.
Proof.
  unfold UpdateCartItemQuantityHandler, claims_user_id. run_handler.
  handler_cases; unchanged_or_succeeded.
Qed.

Lemma RemoveFromCartHandler_failed (w : World) (failing : Statement -> bool)
    (token : jwt.Token) (bookID : option Z) (db : DB) :
  succeeded (snd (serve (RemoveFromCartHandler w failing token bookID) db))
  = false ->
  fst (serve (RemoveFromCartHandler w failing token bookID) db) = db.
Proof.
  unfold RemoveFromCartHandler, claims_user_id, rows.Delete, rows.First,
    rows.attempt. run_handler.
  handler_cases; unchanged_or_succeeded.
Qed.

Lemma ActivateAccountHandler_failed (failing : Statement -> bool)
    (idStr : string) (db : DB) :
  succeeded (snd (serve (ActivateAccountHandler failing idStr) db)) = false ->
  fst (serve (ActivateAccountHandler failing idStr) db) = db.
Proof.
  unfold ActivateAccountHandler, rows.Update, rows.First, rows.attempt.
  run_handler.
  handler_cases; unchanged_or_succeeded.
Qed.

Lemma DeleteAccountHandler_failed (w : World) (failing : Statement -> bool)
    (idStr : string) (db : DB) :
  succeeded (snd (serve (DeleteAccountHandler w failing idStr) db)) = false ->
  fst (serve (DeleteAccountHandler w failing idStr) db) = db.
Proof.
  unfold DeleteAccountHandler, rows.Delete, rows.First, rows.attempt.
  run_handler.
  handler_cases; unchanged_or_succeeded.
Qed.

Lemma DeleteCartItemHandler_failed (failing : Statement -> bool)
    (userID bookID : option Z) (db : DB) :
  succeeded (snd (serve (DeleteCartItemHandler failing userID bookID) db))
  = false ->
  fst (serve (DeleteCartItemHandler failing userID bookID) db) = db.
Proof.
  unfold DeleteCartItemHandler, rows.Delete, rows.First, rows.attempt.
  run_handler.
  handler_cases; unchanged_or_succeeded.
Qed.

(** X4: a request that is not answered with status 200 leaves the database
    as it was, for each of the nine handlers of accounts and carts that
    write: registration, deactivation, activation, deletion of an account,
    profile update, addition to the cart, update of a quantity, removal from
    the cart and the administrator's deletion of a cart row.  Each has one
    statement that writes and answers with status 200 once it went through.
    (A registration stores its row before it signs the token; signing with a
    key of bytes does not fail.)  The statement is about these nine
    handlers, not about those of books and reviews. *)
Theorem failed_requests_store_nothing (w : World)
    (failing : Statement -> bool) (db : DB) :
  (forall c,
      succeeded (snd (serve (RegisterHandler w c) db)) = false ->
      fst (serve (RegisterHandler w c) db) = db)
  /\ (forall idStr,
        succeeded (snd (serve (DeactivateAccountHandler w idStr) db)) = false ->
        fst (serve (DeactivateAccountHandler w idStr) db) = db)
  /\ (forall idStr,
        succeeded (snd (serve (ActivateAccountHandler failing idStr) db))
        = false ->
        fst (serve (ActivateAccountHandler failing idStr) db) = db)
  /\ (forall idStr,
        succeeded (snd (serve (DeleteAccountHandler w failing idStr) db))
        = false ->
        fst (serve (DeleteAccountHandler w failing idStr) db) = db)
  /\ (forall idStr c,
        succeeded (snd (serve (UpdateProfile w idStr c) db)) = false ->
        fst (serve (UpdateProfile w idStr c) db) = db)
  /\ (forall token c,
        succeeded (snd (serve (AddToCartHandler w token c) db)) = false ->
        fst (serve (AddToCartHandler w token c) db) = db)
  /\ (forall token bookID c,
        succeeded
          (snd (serve (UpdateCartItemQuantityHandler w token bookID c) db))
        = false ->
        fst (serve (UpdateCartItemQuantityHandler w token bookID c) db) = db)
  /\ (forall token bookID,
        succeeded
          (snd (serve (RemoveFromCartHandler w failing token bookID) db))
        = false ->
        fst (serve (RemoveFromCartHandler w failing token bookID) db) = db)
  /\ (forall userID bookID,
        succeeded
          (snd (serve (DeleteCartItemHandler failing userID bookID) db))
        = false ->
        fst (serve (DeleteCartItemHandler failing userID bookID) db) = db).
Proof.
  split; [intros c; apply RegisterHandler_failed|].
  split; [intros idStr; apply DeactivateAccountHandler_failed|].
  split; [intros idStr; apply ActivateAccountHandler_failed|].
  split; [intros idStr; apply DeleteAccountHandler_failed|].
  split; [intros idStr c; apply UpdateProfile_failed|].
  split; [intros token c; apply AddToCartHandler_failed|].
  split; [intros token bookID c; apply UpdateCartItemQuantityHandler_failed|].
  split; [intros token bookID; apply RemoveFromCartHandler_failed|].
  intros userID bookID. apply DeleteCartItemHandler_failed.
Qed.

(** ** Deactivating and activating *)

(** [LoginHandler] answers the same on two databases whose users differ in
    their [active] flags only. *)
Lemma LoginHandler_ignores_active (w : World) (c : option LoginData)
    (flag : User -> bool) (db db' : DB) :
  users db' = List.map (fun u => set_Active u (flag u)) (users db) ->
  snd (serve (LoginHandler w c) db') = snd (serve (LoginHandler w c) db).
Proof.
  intros Husers. unfold LoginHandler. run_handler.
  destruct c as [d|]; cbn; [|reflexivity].
  destruct (validate_LoginData w d); cbn; [|reflexivity].
  rewrite Husers.
  rewrite (First_map ID (fun u => set_Active u (flag u))) by reflexivity.
  destruct (gorm.First _ _ _ _ _) as [user|]; cbn; [|reflexivity].
  destruct (bcrypt.CompareHashAndPassword _ _); cbn; [reflexivity|].
  rewrite CreateToken_eq. reflexivity.
Qed.

(** X5: deactivation does not lock the account out.  [LoginHandler] answers
    every request after a call of [DeactivateAccountHandler] exactly as it
    would have before: with the right password a deactivated user is still
    given a token. *)
Theorem deactivation_does_not_block_login (w wd : World) (idStr : string)
    (c : option LoginData) (db : DB) :
  snd (serve (LoginHandler w c)
         (fst (serve (DeactivateAccountHandler wd idStr) db)))
  = snd (serve (LoginHandler w c) db).
Proof.
  destruct (DeactivateAccountHandler_flags wd idStr db) as [flag Hflag].
  apply (LoginHandler_ignores_active w c flag _ _ Hflag).
Qed.

(** What a successful deactivation did. *)
Lemma DeactivateAccountHandler_success (w : World) (idStr : string)
    (db db' : DB) (r : Response) :
  serve (DeactivateAccountHandler w idStr) db = (db', Replied r) ->
  status r = StatusOK ->
  exists id user,
    strconv.ParseUint idStr 32 = Ok id
    /\ In user (users db)
    /\ ID user = id
    /\ db' = with_users db
               (List.map (fun u => if ID u =? id then set_Active u false else u)
                  (users db))
               (users_seq db)
    /\ cookies r = [expired_jwt_cookie w].
Proof.
  intros Hserve Hst. revert Hserve.
  unfold DeactivateAccountHandler. run_handler.
  destruct (strconv.ParseUint idStr 32) as [id|]; cbn;
    [|intros H; failed_reply H Hst].
  destruct (gorm.First _ _ _ _ _) as [user|] eqn:Hfirst; cbn;
    [|intros H; failed_reply H Hst].
  unfold gorm.Update. destruct (Fault w QDeactivateUpdate); cbn;
    [intros H; failed_reply H Hst|].
  destruct (ID user =? 0); cbn; [intros H; failed_reply H Hst|].
  intros H. injection H as <- <-.
  apply First_Ok in Hfirst as [Hin Hid%Z.eqb_eq].
  exists id, user. rewrite Hid. repeat split; assumption || reflexivity.
Qed.

(** What a successful activation did. *)
Lemma ActivateAccountHandler_success (failing : Statement -> bool)
    (idStr : string) (db db' : DB) (r : Response) :
  serve (ActivateAccountHandler failing idStr) db = (db', Replied r) ->
  status r = StatusOK ->
  exists id user,
    strconv.ParseUint idStr 32 = Ok id
    /\ In user (users db)
    /\ ID user = id
    /\ id <> 0
    /\ db' = with_users db
               (List.map (fun u => if ID u =? id then set_Active u true else u)
                  (users db))
               (users_seq db).
Proof.
  intros Hserve Hst. revert Hserve.
  unfold ActivateAccountHandler. run_handler.
  destruct (strconv.ParseUint idStr 32) as [id|]; cbn;
    [|intros H; failed_reply H Hst].
  destruct (rows.First _ _ _ _) as [user|] eqn:Hfirst; cbn;
    [|intros H; failed_reply H Hst].
  unfold rows.Update, rows.attempt.
  destruct (failing SActivateUpdate); cbn; [intros H; failed_reply H Hst|].
  destruct (Z.eqb_spec (ID user) 0) as [|Hkey]; cbn;
    [intros H; failed_reply H Hst|].
  intros H. injection H as <- <-.
  apply rows_First_Ok in Hfirst as [Hin Hid%Z.eqb_eq].
  exists id, user. rewrite Hid in *. repeat split; assumption || reflexivity.
Qed.

(** X6: deactivation sets the flag of the rows with the key of the request
    to false and changes nothing else; it clears the [jwt] cookie; and a
    database it has gone through is left as it is by any further
    deactivation of the same key. *)
Theorem DeactivateAccountHandler_effect (w w2 : World) (idStr : string)
    (db db' : DB) (r : Response) :
  serve (DeactivateAccountHandler w idStr) db = (db', Replied r) ->
  status r = StatusOK ->
  exists id,
    strconv.ParseUint idStr 32 = Ok id
    /\ users db'
       = List.map (fun u => if ID u =? id then set_Active u false else u)
           (users db)
    /\ (forall u, In u (users db') -> ID u = id -> Active u = false)
    /\ users_seq db' = users_seq db
    /\ books db' = books db
    /\ cart_items db' = cart_items db
    /\ cookies r = [expired_jwt_cookie w]
    /\ fst (serve (DeactivateAccountHandler w2 idStr) db') = db'.
Proof.
  intros Hserve Hst.
  destruct (DeactivateAccountHandler_success w idStr db db' r Hserve Hst)
    as (id & user & Hparse & Hin & Hid & -> & Hcookie).
  exists id. split; [exact Hparse|]. split; [reflexivity|].
  split.
  { cbn. intros u Hu Hkey. apply List.in_map_iff in Hu as (u0 & <- & _).
    destruct (Z.eqb_spec (ID u0) id) as [|Hne]; [reflexivity|].
    contradiction. }
  repeat (split; [reflexivity || exact Hcookie|]).
  destruct (succeeded (snd (serve (DeactivateAccountHandler w2 idStr)
                              (with_users db
                                 (List.map (fun u => if ID u =? id
                                                     then set_Active u false
                                                     else u) (users db))
                                 (users_seq db))))) eqn:Hagain.
  - destruct (serve (DeactivateAccountHandler w2 idStr) _)
      as [db2 [r2|]] eqn:Hserve2; [|discriminate Hagain].
    cbn in Hagain. apply Z.eqb_eq in Hagain.
    destruct (DeactivateAccountHandler_success w2 idStr _ db2 r2 Hserve2 Hagain)
      as (id2 & _ & Hparse2 & _ & _ & -> & _).
    rewrite Hparse in Hparse2. injection Hparse2 as <-.
    cbn. unfold with_users. cbn. f_equal.
    rewrite List.map_map. apply List.map_ext. intros u.
    destruct (ID u =? id) eqn:Hu; cbn; rewrite Hu; reflexivity.
  - apply DeactivateAccountHandler_failed. exact Hagain.
Qed.

Lemma DeactivateAccountHandler_effect_witness :
  exists id,
    strconv.ParseUint "1" 32 = Ok id
    /\ Active <$> users Scenario.db_deactivated = [false]
    /\ fst (serve (DeactivateAccountHandler Sample.world_later "1")
              Scenario.db_deactivated) = Scenario.db_deactivated.
Proof.
  edestruct (fun r =>
               DeactivateAccountHandler_effect Sample.world Sample.world_later
                 "1" Sample.db_alice Scenario.db_deactivated r)
    as (id & Hparse & _ & _ & _ & _ & _ & _ & Hagain).
  - vm_compute. reflexivity.
  - reflexivity.
  - exists id. split; [exact Hparse|]. split; [|exact Hagain].
    vm_compute. reflexivity.
Defined.

Lemma with_users_same (db : DB) : with_users db (users db) (users_seq db) = db.
Proof. destruct db; reflexivity. Qed.

(** X7: activation undoes deactivation.  After a successful deactivation of
    a key other than 0, and when the database answers, the activation of the
    same key succeeds; it leaves the rows with that key active and every
    other row, and every other table, as they were before the deactivation.
    A user who was active is exactly as before. *)
Theorem activation_undoes_deactivation (w : World)
    (failing : Statement -> bool) (idStr : string) (db db1 : DB)
    (r1 : Response) :
  serve (DeactivateAccountHandler w idStr) db = (db1, Replied r1) ->
  status r1 = StatusOK ->
  strconv.ParseUint idStr 32 <> Ok 0 ->
  failing SActivateUser = false ->
  failing SActivateUpdate = false ->
  exists id db2,
    strconv.ParseUint idStr 32 = Ok id
    /\ serve (ActivateAccountHandler failing idStr) db1
       = (db2, Replied (JSON StatusOK
                          [("success", JvBool true);
                           ("message", JvStr "User activated successfully")]))
    /\ db2 = with_users db
               (List.map (fun u => if ID u =? id then set_Active u true else u)
                  (users db))
               (users_seq db)
    /\ ((forall u, In u (users db) -> ID u = id -> Active u = true) ->
        db2 = db).
Proof.
  intros Hserve Hst Hnz Hfind Hupdate.
  destruct (DeactivateAccountHandler_success w idStr db db1 r1 Hserve Hst)
    as (id & user & Hparse & Hin & Hid & -> & _).
  assert (Hid0 : id <> 0) by (intros ->; apply Hnz; exact Hparse).
  set (off := fun u => if ID u =? id then set_Active u false else u).
  set (on := fun u => if ID u =? id then set_Active u true else u).
  assert (Hon : List.map on (List.map off (users db)) = List.map on (users db)).
  { rewrite List.map_map. apply List.map_ext. intros u. unfold on, off.
    destruct (ID u =? id) eqn:Hu; cbn; rewrite Hu; reflexivity. }
  exists id, (with_users db (List.map on (users db)) (users_seq db)).
  split; [exact Hparse|]. split; [|split; [reflexivity|]].
  - unfold ActivateAccountHandler. run_handler. rewrite Hparse; cbn.
    rewrite Hfind.
    edestruct (First_found ID (fun u => ID u =? id) (List.map off (users db))
                 (off user)) as [found Hfound].
    { apply List.in_map. exact Hin. }
    { unfold off. rewrite Hid, Z.eqb_refl. cbn. rewrite Hid. apply Z.eqb_refl. }
    rewrite Hfound; cbn.
    apply rows_First_Ok in Hfound as [_ Hkey%Z.eqb_eq].
    unfold rows.Update, rows.attempt. rewrite Hupdate, Hkey.
    destruct (Z.eqb_spec id 0) as [|_]; [contradiction|]. cbn.
    fold on. rewrite Hon. reflexivity.
  - intros Hactive.
    transitivity (with_users db (users db) (users_seq db));
      [|apply with_users_same].
    f_equal. transitivity (List.map (fun u => u) (users db));
      [|apply List.map_id].
    apply List.map_ext_in. intros u Hu. unfold on.
    destruct (Z.eqb_spec (ID u) id) as [Hkey|]; [|reflexivity].
    rewrite <- (Hactive u Hu Hkey). apply set_Active_same.
Qed.

Lemma activation_undoes_deactivation_witness :
  fst (serve (ActivateAccountHandler Scenario.no_faults "1")
         Scenario.db_deactivated) = Sample.db_alice.
Proof.
  edestruct (fun r1 =>
               activation_undoes_deactivation Sample.world Scenario.no_faults
                 "1" Sample.db_alice Scenario.db_deactivated r1)
    as (id & db2 & _ & Hrun & _ & Hsame).
  - vm_compute. reflexivity.
  - reflexivity.
  - vm_compute. discriminate.
  - reflexivity.
  - reflexivity.
  - rewrite Hrun. cbn [fst]. apply Hsame.
    intros u Hu _. vm_compute in Hu. destruct Hu as [<-|[]]. reflexivity.
Defined.

(** ** Updating a profile *)

(** X8: what a profile update can change.  A successful [UpdateProfile]
    stores one row and changes no other row or table.  The row stored keeps
    the [UserID] and the role of the row found; its names and email are
    those of the body where the body gives them, and the old ones where the
    body leaves them empty.  When the key of the request is not 0 the row
    stored takes the place of the row found, under its key and with its
    [active] flag.  Under key 0 the row found stays: the row stored is
    appended under the next key of the sequence, and a flag that was false
    takes the default of the column. *)
Theorem UpdateProfile_frame (w : World) (idStr : string) (d : ProfileData)
    (db db' : DB) (r : Response) :
  serve (UpdateProfile w idStr (Some d)) db = (db', Replied r) ->
  status r = StatusOK ->
  exists id user user',
    strconv.ParseUint idStr 32 = Ok id
    /\ In user (users db)
    /\ ID user = id
    /\ UserID user' = UserID user
    /\ Role user' = Role user
    /\ FirstName user'
       = (if String.eqb (prof_FirstName d) "" then FirstName user
          else prof_FirstName d)
    /\ LastName user'
       = (if String.eqb (prof_LastName d) "" then LastName user
          else prof_LastName d)
    /\ Email user'
       = (if String.eqb (prof_Email d) "" then Email user else prof_Email d)
    /\ (id <> 0 ->
        ID user' = id
        /\ Active user' = Active user
        /\ db' = with_users db
                   (List.map (fun u => if ID u =? id then user' else u)
                      (users db))
                   (users_seq db))
    /\ (id = 0 ->
        ID user' = users_seq db + 1
        /\ Active user' = (if Active user then true else active_default db)
        /\ db' = with_users db (users db ++ [user'])%list (users_seq db + 1)).
Proof.
  intros Hserve Hst.
  destruct (UpdateProfile_success w idStr d db db' r Hserve Hst)
    as (id & user & user' & Hparse & _ & Hin & Hid & Huid & Hrole & Hfn & Hln
        & Hem & _ & Hdb).
  exists id, user, user'.
  repeat (split; [assumption|]).
  destruct Hdb as [(Hnz & Hkey & Hactive & Hdb)|(Hzero & Hkey & Hactive & _ & Hdb)];
    split; intros Hcase; try contradiction; try congruence; auto.
Qed.

Lemma UpdateProfile_frame_witness :
  exists user',
    users Scenario.db_renamed = [user']
    /\ FirstName user' = "Alice"
    /\ LastName user' = "Pleasance"
    /\ Email user' = "alice@example.org"
    /\ Role user' = "customer".
Proof.
  edestruct (fun r =>
               UpdateProfile_frame Sample.world "1" Scenario.new_last_name
                 Sample.db_alice Scenario.db_renamed r)
    as (id & user & user' & Hparse & Hin & _ & _ & Hrole & Hfn & Hln & Hem
        & Hdb & _).
  - vm_compute. reflexivity.
  - reflexivity.
  - vm_compute in Hparse. injection Hparse as <-.
    vm_compute in Hin. destruct Hin as [<-|[]].
    destruct Hdb as (_ & _ & Hdb); [discriminate|].
    exists user'. split; [|repeat split; assumption].
    rewrite Hdb. reflexivity.
Defined.

(** ** Carts *)

Section UniqueKeys.
Context {A : Type} (key : A -> Z).

(** In a table with unique keys a key names one row. *)
Lemma unique_keys_eq (rows : list A) (a b : A) :
  unique_keys key rows -> In a rows -> In b rows -> key a = key b -> a = b.
Proof.
  unfold unique_keys. induction rows as [|x rows IH]; intros Hnd Ha Hb Hkey;
    [destruct Ha|].
  cbn in Hnd. apply NoDup_cons in Hnd as [Hx Hnd].
  destruct Ha as [->|Ha], Hb as [->|Hb]; auto.
  - exfalso. apply Hx. rewrite Hkey. apply list_elem_of_In, List.in_map. exact Hb.
  - exfalso. apply Hx. rewrite <- Hkey.
    apply list_elem_of_In, List.in_map. exact Ha.
Qed.

(** Rewriting rows without touching what [f] reads leaves the image under
    [f] as it is. *)
Lemma map_map_same {B : Type} (f : A -> B) (g : A -> A) (rows : list A) :
  (forall r, In r rows -> f (g r) = f r) ->
  List.map f (List.map g rows) = List.map f rows.
Proof.
  intros Hsame. rewrite List.map_map. apply List.map_ext_in. exact Hsame.
Qed.

Lemma NoDup_map_filter {B : Type} (f : A -> B) (keep : A -> bool)
    (rows : list A) :
  NoDup (List.map f rows) -> NoDup (List.map f (List.filter keep rows)).
Proof.
  induction rows as [|x rows IH]; cbn; intros Hnd; [constructor|].
  apply NoDup_cons in Hnd as [Hx Hnd].
  destruct (keep x); cbn; [|apply IH, Hnd].
  apply NoDup_cons. split; [|apply IH, Hnd].
  intros Hin. apply Hx. apply list_elem_of_In in Hin. apply list_elem_of_In.
  apply List.in_map_iff in Hin as (y & Hy & Hin).
  apply List.filter_In in Hin as [Hin _].
  rewrite <- Hy. apply List.in_map. exact Hin.
Qed.

Lemma existsb_key_false (rows : list A) (k : Z) :
  existsb (fun r => key r =? k) rows = false ->
  ~ In k (List.map key rows).
Proof.
  intros Hex Hin. apply List.in_map_iff in Hin as (r & Hr & Hin).
  apply Bool.not_true_iff_false in Hex. apply Hex.
  apply List.existsb_exists. exists r. split; [exact Hin|].
  apply Z.eqb_eq. exact Hr.
Qed.

(** Keys that came from the sequence lie above 0. *)
Lemma sequenced_In (rows : list A) (seq : Z) (r : A) :
  sequenced key rows seq -> In r rows -> 0 < key r <= seq.
Proof.
  intros [_ Hall] Hin. rewrite List.Forall_forall in Hall.
  apply Hall, List.in_map, Hin.
Qed.

Lemma sequenced_app (rows : list A) (seq : Z) (r : A) :
  sequenced key rows seq -> key r = seq + 1 ->
  sequenced key (rows ++ [r])%list (seq + 1).
Proof.
  intros [Hseq Hall] Hkey. split; [lia|].
  rewrite List.map_app. apply List.Forall_app. split.
  - eapply List.Forall_impl; [|exact Hall]. cbn. intros k Hk. lia.
  - cbn. constructor; [lia|constructor].
Qed.

Lemma sequenced_filter (keep : A -> bool) (rows : list A) (seq : Z) :
  sequenced key rows seq -> sequenced key (List.filter keep rows) seq.
Proof.
  intros [Hseq Hall]. split; [exact Hseq|].
  rewrite List.Forall_forall in *. intros k Hk.
  apply List.in_map_iff in Hk as (r & <- & Hin).
  apply List.filter_In in Hin as [Hin _]. apply Hall, List.in_map, Hin.
Qed.

End UniqueKeys.

(** What a successful [AddToCartHandler] stored.  For a book the cart of the
    user holds it saved the row found, with the quantity raised and the
    subtotal anew: in place, or under key 0 as a copy under the next key of
    the sequence.  For another book it appended a row under the next key. *)
Lemma AddToCartHandler_state (w : World) (token : jwt.Token) (c : CartData)
    (db db' : DB) (r : Response) :
  serve (AddToCartHandler w token (Some c)) db = (db', Replied r) ->
  status r = StatusOK ->
  exists f book,
    jwt.Claims token !! "user_id" = Some (jwt.VFloat64 f)
    /\ gorm.First Book_ID w QAddBook (fun b => Book_ID b =? cart_BookID c)
         (books db) = Ok book
    /\ ((exists existing saved,
           gorm.First CartItem_ID w QAddItem
             (fun i => (CartItem_UserID i =? Go.uint_of_float64 (UintOverflow w) f)
                       && (BookID i =? cart_BookID c))
             (cart_items db) = Ok existing
           /\ CartItem_UserID saved = CartItem_UserID existing
           /\ BookID saved = BookID existing
           /\ Quantity saved
              = Go.wrap_uint (Quantity existing + cart_Quantity c)
           /\ Subtotal saved
              = PrimFloat.mul (Go.float64_of_uint (Quantity saved)) (Price book)
           /\ ((CartItem_ID existing <> 0
                /\ CartItem_ID saved = CartItem_ID existing
                /\ db' = with_cart_items db
                           (List.map
                              (fun i =>
                                 if CartItem_ID i =? CartItem_ID existing
                                 then saved else i)
                              (cart_items db))
                           (cart_items_seq db))
               \/ (CartItem_ID existing = 0
                   /\ CartItem_ID saved = cart_items_seq db + 1
                   /\ existsb (fun i => CartItem_ID i =? cart_items_seq db + 1)
                        (cart_items db) = false
                   /\ db' = with_cart_items db (cart_items db ++ [saved])%list
                              (cart_items_seq db + 1))))
        \/ (exists e,
             gorm.First CartItem_ID w QAddItem
               (fun i => (CartItem_UserID i
                          =? Go.uint_of_float64 (UintOverflow w) f)
                         && (BookID i =? cart_BookID c))
               (cart_items db) = Err e
             /\ existsb (fun i => CartItem_ID i =? cart_items_seq db + 1)
                  (cart_items db) = false
             /\ db' = with_cart_items db
                        (cart_items db ++
                         [ {| CartItem_ID := cart_items_seq db + 1;
                              CartItem_UserID :=
                                Go.uint_of_float64 (UintOverflow w) f;
                              BookID := cart_BookID c;
                              Quantity := cart_Quantity c;
                              Subtotal :=
                                PrimFloat.mul
                                  (Go.float64_of_uint (cart_Quantity c))
                                  (Price book) |} ])%list
                        (cart_items_seq db + 1))).
Proof.
  intros Hserve Hst. revert Hserve.
  unfold AddToCartHandler, claims_user_id. run_handler.
  destruct (jwt.Claims token !! "user_id") as [[| |f| |]|] eqn:Hclaim; cbn;
    try discriminate.
  destruct (validate_CartData c); cbn; [|intros H; failed_reply H Hst].
  destruct (gorm.First CartItem_ID _ _ _ _) as [existing|e] eqn:Hitem; cbn.
  - destruct (gorm.First Book_ID _ _ _ _) as [book|] eqn:Hbook; cbn;
      [|intros H; failed_reply H Hst].
    destruct (gorm.Save _ _ _ _ _ _ _) as [[[rows seq] saved]|] eqn:Hsave;
      cbn; [|intros H; failed_reply H Hst].
    intros H. injection H as <- <-.
    exists f, book. split; [reflexivity|].
    split; [first [reflexivity | exact Hbook]|].
    left. exists existing, saved.
    split; [first [reflexivity | exact Hitem]|].
    destruct (First_Ok _ _ _ _ _ _ Hitem) as [Hin _].
    eapply (Save_found CartItem_ID) in Hsave; [|exact Hin|reflexivity].
    destruct Hsave as [(Hkey & -> & -> & ->)|(Hzero & Hex & -> & -> & ->)];
      cbn; repeat (split; [reflexivity|]); [left|right]; auto.
  - destruct (gorm.First Book_ID _ _ _ _) as [book|] eqn:Hbook; cbn;
      [|intros H; failed_reply H Hst].
    unfold gorm.Create.
    destruct (Fault w QAddCreate); cbn; [intros H; failed_reply H Hst|].
    destruct (existsb _ _) eqn:Hex; cbn; [intros H; failed_reply H Hst|].
    intros H. injection H as <- <-.
    exists f, book. split; [reflexivity|].
    split; [first [reflexivity | exact Hbook]|].
    right. exists e. split; [first [reflexivity | exact Hitem]|].
    split; [first [reflexivity | exact Hex]|]. reflexivity.
Qed.

(** A request is answered with status 200, or it is not. *)
Lemma served (h : H Response) (db : DB) :
  succeeded (snd (serve h db)) = false
  \/ exists db' r, serve h db = (db', Replied r) /\ status r = StatusOK.
Proof.
  destruct (serve h db) as [db' [r|]] eqn:Hserve; cbn; [|left; reflexivity].
  destruct (Z.eqb_spec (status r) StatusOK) as [Hst|]; [|left; reflexivity].
  right. exists db', r. split; [reflexivity|exact Hst].
Qed.

(** What a successful [RemoveFromCartHandler] did. *)
Lemma RemoveFromCartHandler_success (w : World) (failing : Statement -> bool)
    (token : jwt.Token) (bookID : option Z) (db db' : DB) (r : Response) :
  serve (RemoveFromCartHandler w failing token bookID) db = (db', Replied r) ->
  status r = StatusOK ->
  exists f b item,
    jwt.Claims token !! "user_id" = Some (jwt.VFloat64 f)
    /\ bookID = Some b
    /\ rows.First CartItem_ID (failing SRemoveItem)
         (fun i => (CartItem_UserID i =? Go.uint_of_float64 (UintOverflow w) f)
                   && (BookID i =? b))
         (cart_items db) = Ok item
    /\ CartItem_ID item <> 0
    /\ db' = with_cart_items db
               (List.filter
                  (fun i => negb (CartItem_ID i =? CartItem_ID item))
                  (cart_items db))
               (cart_items_seq db).
Proof.
  intros Hserve Hst. revert Hserve.
  unfold RemoveFromCartHandler, claims_user_id. run_handler.
  destruct (jwt.Claims token !! "user_id") as [[| |f| |]|] eqn:Hclaim; cbn;
    try discriminate.
  destruct bookID as [b|]; cbn; [|intros H; failed_reply H Hst].
  destruct (rows.First _ _ _ _) as [item|] eqn:Hfirst; cbn;
    [|intros H; failed_reply H Hst].
  unfold rows.Delete, rows.attempt.
  destruct (failing SRemoveDelete); cbn; [intros H; failed_reply H Hst|].
  destruct (Z.eqb_spec (CartItem_ID item) 0) as [|Hkey]; cbn;
    [intros H; failed_reply H Hst|].
  intros H. injection H as <- <-.
  exists f, b, item. split; [reflexivity|]. split; [reflexivity|].
  split; [first [reflexivity | exact Hfirst]|].
  split; [exact Hkey|reflexivity].
Qed.

(** Rewriting the rows a predicate rejects, into rows it rejects, leaves
    the rows it selects as they are. *)
Lemma filter_map_others {A : Type} (sel : A -> bool) (g : A -> A)
    (rows : list A) :
  (forall r, In r rows -> sel r = true -> g r = r) ->
  (forall r, In r rows -> sel r = false -> sel (g r) = false) ->
  List.filter sel (List.map g rows) = List.filter sel rows.
Proof.
  induction rows as [|x rows IH]; intros Hkeep Hrej; [reflexivity|].
  specialize (IH (fun r Hr => Hkeep r (or_intror Hr))
                (fun r Hr => Hrej r (or_intror Hr))).
  cbn. rewrite IH.
  destruct (sel x) eqn:Hx.
  - rewrite (Hkeep x (or_introl eq_refl) Hx), Hx. reflexivity.
  - rewrite (Hrej x (or_introl eq_refl) Hx). reflexivity.
Qed.

Lemma filter_filter_others {A : Type} (sel keep : A -> bool) (rows : list A) :
  (forall r, In r rows -> sel r = true -> keep r = true) ->
  List.filter sel (List.filter keep rows) = List.filter sel rows.
Proof.
  induction rows as [|x rows IH]; intros Hkeep; [reflexivity|].
  cbn. specialize (IH (fun r Hr => Hkeep r (or_intror Hr))).
  destruct (keep x) eqn:Hk; cbn; rewrite IH; [reflexivity|].
  destruct (sel x) eqn:Hs; [|reflexivity].
  rewrite (Hkeep x (or_introl eq_refl) Hs) in Hk. discriminate.
Qed.

(** In a cart with unique keys, rewriting the row of one user under its own
    key leaves the rows of the other users as they are. *)
Lemma others_after_rewrite (u : Z) (old new : CartItem) (items : list CartItem) :
  unique_keys CartItem_ID items ->
  In old items ->
  CartItem_UserID old = u -> CartItem_UserID new = u ->
  List.filter (fun i => negb (CartItem_UserID i =? u))
    (List.map (fun i => if CartItem_ID i =? CartItem_ID old then new else i)
       items)
  = List.filter (fun i => negb (CartItem_UserID i =? u)) items.
Proof.
  intros Huniq Hin Hold Hnew. apply filter_map_others.
  - intros i Hi Hother.
    destruct (Z.eqb_spec (CartItem_ID i) (CartItem_ID old)) as [Hkey|];
      [|reflexivity].
    rewrite (unique_keys_eq CartItem_ID items i old Huniq Hi Hin Hkey) in Hother.
    rewrite Hold, Z.eqb_refl in Hother. discriminate.
  - intros i Hi Hmine.
    destruct (CartItem_ID i =? CartItem_ID old); [|exact Hmine].
    rewrite Hnew, Z.eqb_refl. reflexivity.
Qed.

(** X9: carts are separate.  In a cart table with unique keys, a request of
    the user a token names, whether it adds to the cart, updates a quantity
    or removes a book, and whether it succeeds or not, leaves the rows of
    every other user as they were. *)
Theorem carts_are_separate (w : World) (failing : Statement -> bool)
    (token : jwt.Token) (f : Z) (db : DB) :
  unique_keys CartItem_ID (cart_items db) ->
  jwt.Claims token !! "user_id" = Some (jwt.VFloat64 f) ->
  (forall c,
      List.filter
        (fun i => negb (CartItem_UserID i
                        =? Go.uint_of_float64 (UintOverflow w) f))
        (cart_items (fst (serve (AddToCartHandler w token c) db)))
      = List.filter
          (fun i => negb (CartItem_UserID i
                          =? Go.uint_of_float64 (UintOverflow w) f))
          (cart_items db))
  /\ (forall bookID c,
        List.filter
          (fun i => negb (CartItem_UserID i
                          =? Go.uint_of_float64 (UintOverflow w) f))
          (cart_items
             (fst (serve (UpdateCartItemQuantityHandler w token bookID c) db)))
        = List.filter
            (fun i => negb (CartItem_UserID i
                            =? Go.uint_of_float64 (UintOverflow w) f))
            (cart_items db))
  /\ (forall bookID,
        List.filter
          (fun i => negb (CartItem_UserID i
                          =? Go.uint_of_float64 (UintOverflow w) f))
          (cart_items
             (fst (serve (RemoveFromCartHandler w failing token bookID) db)))
        = List.filter
            (fun i => negb (CartItem_UserID i
                            =? Go.uint_of_float64 (UintOverflow w) f))
            (cart_items db)).
Proof.
  intros Huniq Hclaim.
  set (u := Go.uint_of_float64 (UintOverflow w) f).
  split; [|split].
  - intros c.
    destruct (served (AddToCartHandler w token c) db)
      as [Hfail|(db' & r & Hserve & Hst)];
      [rewrite (AddToCartHandler_failed _ _ _ _ Hfail); reflexivity|].
    rewrite Hserve. cbn [fst].
    destruct c as [c|]; [|revert Hserve; unfold AddToCartHandler, claims_user_id;
                           run_handler; rewrite Hclaim; cbn;
                           intros H; failed_reply H Hst].
    destruct (AddToCartHandler_state w token c db db' r Hserve Hst)
      as (f' & book & Hclaim' & _
          & [(existing & saved & Hfirst & Huser & _ & _ & _
              & [(_ & _ & ->)|(_ & _ & _ & ->)])
            |(e & _ & _ & ->)]);
      rewrite Hclaim in Hclaim'; injection Hclaim' as <-; fold u;
      try fold u in Hfirst.
    + apply First_Ok in Hfirst as [Hin Hcond].
      apply andb_prop in Hcond as [Hu%Z.eqb_eq _].
      cbn [cart_items with_cart_items].
      apply others_after_rewrite; congruence.
    + apply First_Ok in Hfirst as [Hin Hcond].
      apply andb_prop in Hcond as [Hu%Z.eqb_eq _].
      cbn [cart_items with_cart_items]. rewrite List.filter_app. cbn.
      rewrite Huser, Hu, Z.eqb_refl. cbn. apply List.app_nil_r.
    + cbn [cart_items with_cart_items]. rewrite List.filter_app. cbn.
      rewrite Z.eqb_refl. cbn. apply List.app_nil_r.
  - intros bookID c.
    destruct (served (UpdateCartItemQuantityHandler w token bookID c) db)
      as [Hfail|(db' & r & Hserve & Hst)];
      [rewrite (UpdateCartItemQuantityHandler_failed _ _ _ _ _ Hfail);
       reflexivity|].
    rewrite Hserve. cbn [fst].
    destruct c as [c|];
      [|revert Hserve; unfold UpdateCartItemQuantityHandler, claims_user_id;
        run_handler; rewrite Hclaim; cbn; intros H; failed_reply H Hst].
    destruct (UpdateCartItemQuantityHandler_success _ _ _ _ _ _ _ Hserve Hst)
      as (f' & b & old & rows & seq & saved & Hclaim' & _ & _ & Hfirst & Hsave
          & -> & _).
    rewrite Hclaim in Hclaim'; injection Hclaim' as <-. fold u in Hfirst.
    apply First_Ok in Hfirst as [Hin Hcond].
    apply andb_prop in Hcond as [Hu%Z.eqb_eq _].
    eapply (Save_found CartItem_ID) in Hsave; [|exact Hin|reflexivity].
    cbn [cart_items with_cart_items].
    destruct Hsave as [(_ & -> & _)|(_ & _ & -> & _)].
    + apply others_after_rewrite; auto.
    + rewrite List.filter_app. cbn. rewrite Hu, Z.eqb_refl. cbn.
      apply List.app_nil_r.
  - intros bookID.
    destruct (served (RemoveFromCartHandler w failing token bookID) db)
      as [Hfail|(db' & r & Hserve & Hst)];
      [rewrite (RemoveFromCartHandler_failed _ _ _ _ _ Hfail); reflexivity|].
    rewrite Hserve. cbn [fst].
    destruct (RemoveFromCartHandler_success _ _ _ _ _ _ _ Hserve Hst)
      as (f' & b & item & Hclaim' & _ & Hfirst & _ & ->).
    rewrite Hclaim in Hclaim'; injection Hclaim' as <-. fold u in Hfirst.
    apply rows_First_Ok in Hfirst as [Hin Hcond].
    apply andb_prop in Hcond as [Hu%Z.eqb_eq _].
    cbn [cart_items with_cart_items].
    apply filter_filter_others. intros i Hi Hother.
    destruct (Z.eqb_spec (CartItem_ID i) (CartItem_ID item)) as [Hkey|];
      [|reflexivity].
    rewrite (unique_keys_eq CartItem_ID _ i item Huniq Hi Hin Hkey) in Hother.
    rewrite Hu, Z.eqb_refl in Hother. discriminate.
Qed.

Lemma carts_are_separate_witness :
  List.filter (fun i => negb (CartItem_UserID i =? 2))
    (cart_items
       (fst (serve (AddToCartHandler Sample.world Scenario.bob_token
                      (Some {| cart_BookID := 5; cart_Quantity := 2 |}))
               Scenario.db_two_users)))
  = cart_items Scenario.db_two_users.
Proof.
  etransitivity.
  - apply (proj1 (carts_are_separate Sample.world Scenario.no_faults
                    Scenario.bob_token 2 Scenario.db_two_users
                    ltac:(vm_compute; apply NoDup_singleton)
                    ltac:(vm_compute; reflexivity))).
  - vm_compute. reflexivity.
Defined.

(** Rewriting a row under its own key, for the same user and book, keeps
    the keys and the lines of a cart. *)
Lemma rewrite_keeps_lines (old new : CartItem) (items : list CartItem) :
  unique_keys CartItem_ID items ->
  In old items ->
  CartItem_ID new = CartItem_ID old ->
  CartItem_UserID new = CartItem_UserID old ->
  BookID new = BookID old ->
  List.map CartItem_ID
    (List.map (fun i => if CartItem_ID i =? CartItem_ID old then new else i)
       items) = List.map CartItem_ID items
  /\ List.map (fun i => (CartItem_UserID i, BookID i))
       (List.map (fun i => if CartItem_ID i =? CartItem_ID old then new else i)
          items)
     = List.map (fun i => (CartItem_UserID i, BookID i)) items.
Proof.
  intros Huniq Hin Hkey Huser Hbook. split; apply map_map_same; intros i Hi;
    destruct (Z.eqb_spec (CartItem_ID i) (CartItem_ID old)) as [Hsame|];
    try reflexivity.
  - congruence.
  - rewrite (unique_keys_eq CartItem_ID items i old Huniq Hi Hin Hsame).
    congruence.
Qed.

(** X10: a cart keeps one row for a user and a book.  In a cart table
    whose keys are unique and came from the sequence, so that none is 0, and
    which holds at most one row for each user and book, every request that
    adds to the cart (when the database answers its lookup), updates a
    quantity or removes a book leaves a table of the same kind, whether the
    request succeeds or not: a second addition of a book raises the quantity
    of its row and adds none.  The keys matter: a cart whose one row has key
    0 holds two rows for the same user and book after an update of the
    quantity. *)
Theorem cart_lines_stay_unique (w : World) (failing : Statement -> bool)
    (token : jwt.Token) (db : DB) :
  unique_keys CartItem_ID (cart_items db) ->
  unique_lines (cart_items db) ->
  sequenced CartItem_ID (cart_items db) (cart_items_seq db) ->
  (forall c,
      Fault w QAddItem = false ->
      unique_keys CartItem_ID
        (cart_items (fst (serve (AddToCartHandler w token c) db)))
      /\ unique_lines
           (cart_items (fst (serve (AddToCartHandler w token c) db)))
      /\ sequenced CartItem_ID
           (cart_items (fst (serve (AddToCartHandler w token c) db)))
           (cart_items_seq (fst (serve (AddToCartHandler w token c) db))))
  /\ (forall bookID c,
        unique_keys CartItem_ID
          (cart_items
             (fst (serve (UpdateCartItemQuantityHandler w token bookID c) db)))
        /\ unique_lines
             (cart_items
                (fst (serve (UpdateCartItemQuantityHandler w token bookID c)
                        db)))
        /\ sequenced CartItem_ID
             (cart_items
                (fst (serve (UpdateCartItemQuantityHandler w token bookID c)
                        db)))
             (cart_items_seq
                (fst (serve (UpdateCartItemQuantityHandler w token bookID c)
                        db))))
  /\ (forall bookID,
        unique_keys CartItem_ID
          (cart_items
             (fst (serve (RemoveFromCartHandler w failing token bookID) db)))
        /\ unique_lines
             (cart_items
                (fst (serve (RemoveFromCartHandler w failing token bookID)
                        db)))
        /\ sequenced CartItem_ID
             (cart_items
                (fst (serve (RemoveFromCartHandler w failing token bookID)
                        db)))
             (cart_items_seq
                (fst (serve (RemoveFromCartHandler w failing token bookID)
                        db))))
  /\ (unique_keys CartItem_ID (cart_items Scenario.db_row_zero)
      /\ unique_lines (cart_items Scenario.db_row_zero)
      /\ ~ unique_lines (cart_items Scenario.db_row_zero_updated)).
Proof.
  intros Huniq Hlines Hseq. split; [|split; [|split]].
  - intros c Hlookup.
    destruct (served (AddToCartHandler w token c) db)
      as [Hfail|(db' & r & Hserve & Hst)];
      [rewrite (AddToCartHandler_failed _ _ _ _ Hfail); auto|].
    rewrite Hserve. cbn [fst].
    destruct c as [c|].
    2:{ revert Hserve. unfold AddToCartHandler, claims_user_id. run_handler.
        destruct (jwt.Claims token !! "user_id") as [[| |f| |]|]; cbn;
          try discriminate.
        intros H; failed_reply H Hst. }
    destruct (AddToCartHandler_state w token c db db' r Hserve Hst)
      as (f & book & _ & _
          & [(existing & saved & Hfirst & Huser & Hbook & _ & _
              & [(_ & Hkey & ->)|(Hzero & _)])
            |(e & Hfirst & Hex & ->)]);
      cbn [cart_items cart_items_seq with_cart_items].
    + apply First_Ok in Hfirst as [Hin _].
      unfold unique_keys, unique_lines, sequenced.
      edestruct (rewrite_keeps_lines existing saved) as [-> ->];
        [exact Huniq|exact Hin|assumption..|auto].
    + apply First_Ok in Hfirst as [Hin _].
      pose proof (sequenced_In CartItem_ID _ _ _ Hseq Hin). lia.
    + rewrite First_rows in Hfirst. apply First_Err in Hfirst; [|exact Hlookup].
      split; [|split; [|apply sequenced_app; [exact Hseq|reflexivity]]];
        unfold unique_keys, unique_lines; rewrite !List.map_app; cbn;
        apply NoDup_app.
      * split; [exact Huniq|]. split; [|apply NoDup_singleton].
        intros k Hk ->%list_elem_of_singleton.
        apply (existsb_key_false CartItem_ID _ _ Hex).
        apply list_elem_of_In. exact Hk.
      * split; [exact Hlines|]. split; [|apply NoDup_singleton].
        intros p Hp ->%list_elem_of_singleton.
        apply list_elem_of_In, List.in_map_iff in Hp as (i & Hi & Hin).
        injection Hi as Hu Hb.
        assert (Hmatch : In i (List.filter
                                 (fun i => (CartItem_UserID i
                                            =? Go.uint_of_float64
                                                 (UintOverflow w) f)
                                           && (BookID i =? cart_BookID c))
                                 (cart_items db))).
        { apply List.filter_In. split; [exact Hin|].
          rewrite Hu, Hb, !Z.eqb_refl. reflexivity. }
        rewrite Hfirst in Hmatch. destruct Hmatch.
  - intros bookID c.
    destruct (served (UpdateCartItemQuantityHandler w token bookID c) db)
      as [Hfail|(db' & r & Hserve & Hst)];
      [rewrite (UpdateCartItemQuantityHandler_failed _ _ _ _ _ Hfail); auto|].
    rewrite Hserve. cbn [fst].
    destruct c as [c|].
    2:{ revert Hserve. unfold UpdateCartItemQuantityHandler, claims_user_id.
        run_handler.
        destruct (jwt.Claims token !! "user_id") as [[| |f| |]|]; cbn;
          try discriminate.
        intros H; failed_reply H Hst. }
    destruct (UpdateCartItemQuantityHandler_success _ _ _ _ _ _ _ Hserve Hst)
      as (f & b & old & rows & seq & saved & _ & _ & _ & Hfirst & Hsave & ->
          & _).
    apply First_Ok in Hfirst as [Hin _].
    eapply (Save_found CartItem_ID) in Hsave; [|exact Hin|reflexivity].
    cbn [cart_items cart_items_seq with_cart_items].
    destruct Hsave as [(_ & -> & -> & _)|(Hzero & _)].
    + unfold unique_keys, unique_lines, sequenced.
      edestruct (rewrite_keeps_lines old (set_Quantity old (upd_Quantity c)))
        as [-> ->]; [exact Huniq|exact Hin|reflexivity..|auto].
    + pose proof (sequenced_In CartItem_ID _ _ _ Hseq Hin). lia.
  - intros bookID.
    destruct (served (RemoveFromCartHandler w failing token bookID) db)
      as [Hfail|(db' & r & Hserve & Hst)];
      [rewrite (RemoveFromCartHandler_failed _ _ _ _ _ Hfail); auto|].
    rewrite Hserve. cbn [fst].
    destruct (RemoveFromCartHandler_success _ _ _ _ _ _ _ Hserve Hst)
      as (f & b & item & _ & _ & _ & _ & ->).
    cbn [cart_items cart_items_seq with_cart_items].
    split; [apply NoDup_map_filter; assumption|].
    split; [apply NoDup_map_filter; assumption|].
    apply sequenced_filter. exact Hseq.
  - split; [vm_compute; apply NoDup_singleton|].
    split; [vm_compute; apply NoDup_singleton|].
    vm_compute. intros Hnd. apply NoDup_cons in Hnd as [Hfresh _].
    apply Hfresh. left.
Qed.

Lemma cart_lines_stay_unique_witness :
  unique_lines
    (cart_items
       (fst (serve (AddToCartHandler Sample.world Sample.alice_token
                      (Some {| cart_BookID := 5; cart_Quantity := 1 |}))
               Sample.db_cart)))
  /\ List.map Quantity
       (cart_items
          (fst (serve (AddToCartHandler Sample.world Sample.alice_token
                         (Some {| cart_BookID := 5; cart_Quantity := 1 |}))
                  Sample.db_cart))) = [2].
Proof.
  split; [|vm_compute; reflexivity].
  apply (proj1 (cart_lines_stay_unique Sample.world Scenario.no_faults
                  Sample.alice_token Sample.db_cart
                  ltac:(vm_compute; apply NoDup_singleton)
                  ltac:(vm_compute; apply NoDup_singleton)
                  ltac:(split; [discriminate|];
                        vm_compute; repeat constructor; discriminate))).
  reflexivity.
Defined.

(** X11: a quantity of zero is refused.  The [required] tag rejects the
    zero value, so an update of a quantity to 0 and an addition of 0 copies
    are answered with status 400 and store nothing; every row an update of a
    quantity writes has a quantity other than 0. *)
Theorem zero_quantity_is_refused (w : World) (token : jwt.Token) (f : Z)
    (db : DB) :
  jwt.Claims token !! "user_id" = Some (jwt.VFloat64 f) ->
  (forall bookID,
      serve (UpdateCartItemQuantityHandler w token bookID
               (Some {| upd_Quantity := 0 |})) db
      = (db, Replied (JSON StatusBadRequest
                        [("error", JvStr "Invalid input data");
                         ("errors", JvFields ["Quantity"])])))
  /\ (forall b,
        exists fields,
          serve (AddToCartHandler w token
                   (Some {| cart_BookID := b; cart_Quantity := 0 |})) db
          = (db, Replied (JSON StatusBadRequest
                            [("error", JvStr "Invalid input data");
                             ("errors", JvFields fields)]))
          /\ In "Quantity" fields)
  /\ (forall bookID c db' r,
        serve (UpdateCartItemQuantityHandler w token bookID (Some c)) db
        = (db', Replied r) ->
        status r = StatusOK ->
        forall i, In i (cart_items db') ->
                  In i (cart_items db) \/ Quantity i <> 0).
Proof.
  intros Hclaim. split; [|split].
  - intros bookID. unfold UpdateCartItemQuantityHandler, claims_user_id.
    run_handler. rewrite Hclaim. reflexivity.
  - intros b. unfold AddToCartHandler, claims_user_id. run_handler.
    rewrite Hclaim; cbn. unfold validate_CartData, validator.field; cbn.
    destruct (validator.required_uint b); cbn; eexists;
      (split; [reflexivity|]); cbn; auto.
  - intros bookID c db' r Hserve Hst i Hi.
    destruct (UpdateCartItemQuantityHandler_success _ _ _ _ _ _ _ Hserve Hst)
      as (f' & b & old & rows & seq & saved & _ & _ & Hq & _ & Hsave & -> & _).
    destruct (Save_rows CartItem_ID _ _ _ _ _ _ _ _ _ Hsave i Hi)
      as [Hold| ->]; [left; exact Hold|right].
    destruct (Save_result CartItem_ID _ _ _ _ _ _ _ _ _ Hsave)
      as [(_ & -> & _)|(_ & -> & _)]; exact Hq.
Qed.

Lemma zero_quantity_is_refused_witness :
  serve (UpdateCartItemQuantityHandler Sample.world Sample.alice_token (Some 5)
           (Some {| upd_Quantity := 0 |})) Sample.db_cart
  = (Sample.db_cart,
     Replied (JSON StatusBadRequest
                [("error", JvStr "Invalid input data");
                 ("errors", JvFields ["Quantity"])])).
Proof.
  apply (proj1 (zero_quantity_is_refused Sample.world Sample.alice_token 1
                  Sample.db_cart ltac:(vm_compute; reflexivity))).
Defined.

(** X12: removing undoes adding.  When a book that the user's cart did not
    hold has been added (the database answering the lookup of the addition,
    and giving keys above 0), the removal of that book by the same user,
    answered by the database, succeeds and leaves the cart table as it was
    before the addition; a further removal finds nothing and is answered
    with status 404. *)
Theorem removing_undoes_adding (w : World) (failing : Statement -> bool)
    (token : jwt.Token) (f : Z) (c : CartData) (db db1 : DB) (r : Response) :
  jwt.Claims token !! "user_id" = Some (jwt.VFloat64 f) ->
  List.filter
    (fun i => (CartItem_UserID i =? Go.uint_of_float64 (UintOverflow w) f)
              && (BookID i =? cart_BookID c)) (cart_items db) = [] ->
  0 <= cart_items_seq db ->
  serve (AddToCartHandler w token (Some c)) db = (db1, Replied r) ->
  status r = StatusOK ->
  failing SRemoveItem = false ->
  failing SRemoveDelete = false ->
  exists db2,
    serve (RemoveFromCartHandler w failing token (Some (cart_BookID c))) db1
    = (db2, Replied (JSON StatusOK [("success", JvBool true);
                                    ("message", JvStr "Item removed from cart")]))
    /\ cart_items db2 = cart_items db
    /\ users db2 = users db
    /\ books db2 = books db
    /\ serve (RemoveFromCartHandler w failing token (Some (cart_BookID c))) db2
       = (db2, Replied (JSON StatusNotFound
                          [("error", JvStr "Cart item not found")])).
Proof.
  intros Hclaim Hnone Hseq Hserve Hst Hfind Hdelete.
  set (u := Go.uint_of_float64 (UintOverflow w) f) in *.
  destruct (AddToCartHandler_state w token c db db1 r Hserve Hst)
    as (f' & book & Hclaim' & _
        & [(existing & saved & Hfirst & _)|(e & _ & Hex & ->)]);
    rewrite Hclaim in Hclaim'; injection Hclaim' as <-; fold u in Hfirst || idtac.
  { apply First_Ok in Hfirst as [Hin Hcond].
    assert (Hmatch : In existing
                       (List.filter
                          (fun i => (CartItem_UserID i =? u)
                                    && (BookID i =? cart_BookID c))
                          (cart_items db)))
      by (apply List.filter_In; split; assumption).
    rewrite Hnone in Hmatch. destruct Hmatch. }
  fold u.
  assert (Hkept : List.filter
                    (fun i => negb (CartItem_ID i =? cart_items_seq db + 1))
                    (cart_items db) = cart_items db).
  { apply existsb_key_false in Hex.
    clear -Hex. induction (cart_items db) as [|x l IH]; [reflexivity|].
    cbn in *. destruct (Z.eqb_spec (CartItem_ID x) (cart_items_seq db + 1))
      as [Hx|_]; [exfalso; apply Hex; left; exact Hx|].
    cbn. f_equal. apply IH. intros Hin. apply Hex. right. exact Hin. }
  eexists. split; [|split; [|split; [|split]]].
  - unfold RemoveFromCartHandler, claims_user_id. run_handler.
    rewrite Hclaim; cbn. fold u. rewrite Hfind.
    rewrite (First_appended CartItem_ID _ _ _ Hnone)
      by (cbn; rewrite !Z.eqb_refl; reflexivity).
    cbn. unfold rows.Delete, rows.attempt. rewrite Hdelete. cbn.
    destruct (Z.eqb_spec (cart_items_seq db + 1) 0) as [|_]; [lia|].
    cbn. reflexivity.
  - cbn. rewrite List.filter_app, Hkept. cbn. rewrite Z.eqb_refl. cbn.
    apply List.app_nil_r.
  - reflexivity.
  - reflexivity.
  - unfold RemoveFromCartHandler, claims_user_id. run_handler.
    rewrite Hclaim; cbn. fold u. rewrite Hfind.
    rewrite List.filter_app, Hkept. cbn. rewrite Z.eqb_refl. cbn.
    rewrite List.app_nil_r. unfold rows.First, rows.attempt.
    rewrite Hnone. cbn. reflexivity.
Qed.

Lemma removing_undoes_adding_witness :
  exists db2,
    serve (RemoveFromCartHandler Sample.world Scenario.no_faults
             Sample.alice_token (Some 5)) Sample.db_cart
    = (db2, Replied (JSON StatusOK [("success", JvBool true);
                                    ("message", JvStr "Item removed from cart")]))
    /\ cart_items db2 = [].
Proof.
  edestruct (fun r =>
               removing_undoes_adding Sample.world Scenario.no_faults
                 Sample.alice_token 1
                 {| cart_BookID := 5; cart_Quantity := 1 |}
                 Sample.db_shop Sample.db_cart r)
    as (db2 & Hrun & Hcart & _).
  - vm_compute. reflexivity.
  - reflexivity.
  - vm_compute. discriminate.
  - vm_compute. reflexivity.
  - reflexivity.
  - reflexivity.
  - reflexivity.
  - exists db2. split; [exact Hrun|exact Hcart].
Defined.

(** ** Deleting an account *)

(** What a successful [DeleteAccountHandler] did. *)
Lemma DeleteAccountHandler_success (w : World) (failing : Statement -> bool)
    (idStr : string) (db db' : DB) (r : Response) :
  serve (DeleteAccountHandler w failing idStr) db = (db', Replied r) ->
  status r = StatusOK ->
  exists id user,
    strconv.ParseUint idStr 32 = Ok id
    /\ In user (users db)
    /\ ID user = id
    /\ id <> 0
    /\ db' = with_users db
               (List.filter (fun u => negb (ID u =? id)) (users db))
               (users_seq db)
    /\ cookies r = [expired_jwt_cookie w].
Proof.
  intros Hserve Hst. revert Hserve.
  unfold DeleteAccountHandler. run_handler.
  destruct (strconv.ParseUint idStr 32) as [id|]; cbn;
    [|intros H; failed_reply H Hst].
  destruct (rows.First _ _ _ _) as [user|] eqn:Hfirst; cbn;
    [|intros H; failed_reply H Hst].
  unfold rows.Delete, rows.attempt.
  destruct (failing SDeleteDelete); cbn; [intros H; failed_reply H Hst|].
  destruct (Z.eqb_spec (ID user) 0) as [|Hkey]; cbn;
    [intros H; failed_reply H Hst|].
  intros H. injection H as <- <-.
  apply rows_First_Ok in Hfirst as [Hin Hid%Z.eqb_eq].
  exists id, user. rewrite Hid in *. repeat split; assumption || reflexivity.
Qed.

(** No row meets a condition that only the rows deleted met. *)
Lemma First_after_delete {A : Type} (key : A -> Z) (w : World) (q : Query)
    (cond keep : A -> bool) (rows : list A) :
  (forall r, In r rows -> cond r = true -> keep r = false) ->
  exists e, gorm.First key w q cond (List.filter keep rows) = Err e.
Proof.
  intros Hgone. unfold gorm.First.
  destruct (Fault w q); [eexists; reflexivity|].
  destruct (gorm.least key (List.filter cond (List.filter keep rows)))
    as [r|] eqn:Hleast; [|eexists; reflexivity].
  apply least_In, List.filter_In in Hleast as [Hin Hcond].
  apply List.filter_In in Hin as [Hin Hkeep].
  rewrite (Hgone r Hin Hcond) in Hkeep. discriminate.
Qed.

(** X13: a deleted account is gone, its cart is not.  A successful
    [DeleteAccountHandler] removes the rows of users with the key of the
    request and nothing else: the rows of the cart stay.  From then on a
    token for that key still enters [GetUserNameHandler], which answers with
    status 404, and so does a login under an email that only the deleted
    rows had. *)
Theorem deleted_account_is_gone (w : World) (failing : Statement -> bool)
    (idStr : string) (db db' : DB) (r : Response) :
  serve (DeleteAccountHandler w failing idStr) db = (db', Replied r) ->
  status r = StatusOK ->
  exists id,
    strconv.ParseUint idStr 32 = Ok id
    /\ users db' = List.filter (fun u => negb (ID u =? id)) (users db)
    /\ (forall u, In u (users db') -> ID u <> id)
    /\ cart_items db' = cart_items db
    /\ books db' = books db
    /\ cookies r = [expired_jwt_cookie w]
    /\ (forall w' token f,
          jwt.Claims token !! "user_id" = Some (jwt.VFloat64 f) ->
          Go.uint_of_float64 (UintOverflow w') f = id ->
          serve (GetUserNameHandler w' token) db'
          = (db', Replied (JSON StatusNotFound
                             [("error", JvStr "User not found")])))
    /\ (forall w' d,
          validate_LoginData w' d = [] ->
          (forall u, In u (users db) -> Email u = login_Email d -> ID u = id) ->
          serve (LoginHandler w' (Some d)) db'
          = (db', Replied (JSON StatusNotFound
                             [("error", JvStr "User not found")]))).
Proof.
  intros Hserve Hst.
  destruct (DeleteAccountHandler_success w failing idStr db db' r Hserve Hst)
    as (id & user & Hparse & _ & _ & _ & -> & Hcookie).
  exists id. split; [exact Hparse|]. split; [reflexivity|].
  split.
  { cbn. intros u Hu Hkey. apply List.filter_In in Hu as [_ Hkeep].
    rewrite Hkey, Z.eqb_refl in Hkeep. discriminate. }
  split; [reflexivity|]. split; [reflexivity|]. split; [exact Hcookie|].
  split.
  - intros w' token f Hclaim Hu.
    unfold GetUserNameHandler, claims_user_id. run_handler.
    rewrite Hclaim; cbn. rewrite Hu.
    edestruct (First_after_delete ID w' QNameUser (fun u => ID u =? id)
                 (fun u => negb (ID u =? id)) (users db)) as [e ->];
      [|reflexivity].
    intros u _ ->. reflexivity.
  - intros w' d Hvalid Honly.
    rewrite (LoginHandler_run _ _ _ Hvalid). cbn [users with_users].
    edestruct (First_after_delete ID w' QLoginUser
                 (fun u => String.eqb (Email u) (login_Email d))
                 (fun u => negb (ID u =? id)) (users db)) as [e ->];
      [|reflexivity].
    intros u Hin Hemail%String.eqb_eq.
    rewrite (Honly u Hin Hemail), Z.eqb_refl. reflexivity.
Qed.

Lemma deleted_account_is_gone_witness :
  exists db',
    fst (serve (DeleteAccountHandler Sample.world Scenario.no_faults "1")
           Sample.db_cart) = db'
    /\ users db' = []
    /\ cart_items db' = cart_items Sample.db_cart
    /\ serve (GetUserNameHandler Sample.world Sample.alice_token) db'
       = (db', Replied (JSON StatusNotFound [("error", JvStr "User not found")])).
Proof.
  eexists. split; [reflexivity|].
  edestruct (fun r =>
               deleted_account_is_gone Sample.world Scenario.no_faults "1"
                 Sample.db_cart
                 (fst (serve (DeleteAccountHandler Sample.world
                                Scenario.no_faults "1") Sample.db_cart)) r)
    as (id & Hparse & Husers & _ & Hcart & _ & _ & Hname & _).
  - vm_compute. reflexivity.
  - reflexivity.
  - vm_compute in Hparse. injection Hparse as <-.
    split; [rewrite Husers; vm_compute; reflexivity|].
    split; [exact Hcart|].
    apply (Hname Sample.world Sample.alice_token 1); vm_compute; reflexivity.
Defined.

(** ** A token without a user *)

(** X14: a token without a numeric [user_id] makes the handlers of the
    name and the cart of the user panic.  [GetUserNameHandler],
    [UserHomePageHandler], [AddToCartHandler],
    [UpdateCartItemQuantityHandler], [RemoveFromCartHandler] and
    [GetCartHandler] read the user from the token before anything else,
    with an unchecked type assertion: when the claim is missing or is no
    number the request ends in a panic, with no response and no change of
    the database, whatever the body, the route and the database are.  The
    statement is about these six handlers. *)
Theorem missing_user_id_panics (w : World) (failing : Statement -> bool)
    (token : jwt.Token) (db : DB) :
  (forall f, jwt.Claims token !! "user_id" <> Some (jwt.VFloat64 f)) ->
  serve (GetUserNameHandler w token) db = (db, Panicked)
  /\ serve (UserHomePageHandler w failing token) db = (db, Panicked)
  /\ (forall c, serve (AddToCartHandler w token c) db = (db, Panicked))
  /\ (forall bookID c,
        serve (UpdateCartItemQuantityHandler w token bookID c) db
        = (db, Panicked))
  /\ (forall bookID,
        serve (RemoveFromCartHandler w failing token bookID) db
        = (db, Panicked))
  /\ GetCartHandler w failing token db = (db, Err Panicked).
Proof.
  intros Hclaim.
  assert (Hpanic : claims_user_id w token db = (db, Err Panicked)).
  { unfold claims_user_id.
    destruct (jwt.Claims token !! "user_id") as [[| |f| |]|] eqn:Hc;
      try reflexivity.
    exfalso. apply (Hclaim f). first [reflexivity | exact Hc]. }
  unfold GetUserNameHandler, UserHomePageHandler, AddToCartHandler,
    UpdateCartItemQuantityHandler, RemoveFromCartHandler, GetCartHandler.
  unfold serve, mbind, H_bind. rewrite Hpanic.
  repeat split; reflexivity.
Qed.

Lemma missing_user_id_panics_witness :
  serve (GetUserNameHandler Sample.world Scenario.anonymous_token)
    Sample.db_alice = (Sample.db_alice, Panicked).
Proof.
  apply (missing_user_id_panics Sample.world Scenario.no_faults
           Scenario.anonymous_token Sample.db_alice).
  intros f. vm_compute. discriminate.
Defined.

(** ** Reading the cart *)

(** The row a successful [AddToCartHandler] answers with is in the cart and
    belongs to the user of the token. *)
Lemma AddToCartHandler_answer (w : World) (token : jwt.Token) (c : CartData)
    (db db' : DB) (r : Response) :
  serve (AddToCartHandler w token (Some c)) db = (db', Replied r) ->
  status r = StatusOK ->
  exists f item,
    jwt.Claims token !! "user_id" = Some (jwt.VFloat64 f)
    /\ body r = BCartItem item
    /\ In item (cart_items db')
    /\ CartItem_UserID item = Go.uint_of_float64 (UintOverflow w) f
    /\ users db' = users db.
Proof.
  intros Hserve Hst.
  destruct (AddToCartHandler_success _ _ _ _ _ _ Hserve Hst)
    as (f & item & book & Hclaim & Hbody & Hin & _ & _ & Huser & _).
  exists f, item. repeat (split; [assumption|]).
  destruct (AddToCartHandler_state _ _ _ _ _ _ Hserve Hst)
    as (f' & book' & _ & _
        & [(existing & saved & _ & _ & _ & _ & _
            & [(_ & _ & ->)|(_ & _ & _ & ->)])
          |(e & _ & _ & ->)]); reflexivity.
Qed.

(** X15: the cart shows what was added.  After a successful addition, and
    when the database answers, [GetCartHandler] for the same token sends the
    rows of the cart table that belong to the user, in the order of the
    table, and the row the addition answered with is among them.  It never
    sends an empty list: an empty cart is answered with a message. *)
Theorem cart_shows_what_was_added (w : World) (failing : Statement -> bool)
    (token : jwt.Token) (c : CartData) (db db' : DB) (r : Response) :
  serve (AddToCartHandler w token (Some c)) db = (db', Replied r) ->
  status r = StatusOK ->
  failing SCartFind = false ->
  (exists f item,
      jwt.Claims token !! "user_id" = Some (jwt.VFloat64 f)
      /\ body r = BCartItem item
      /\ In item
           (List.filter
              (fun i => CartItem_UserID i
                        =? Go.uint_of_float64 (UintOverflow w) f)
              (cart_items db'))
      /\ GetCartHandler w failing token db'
         = (db', Ok (List.filter
                       (fun i => CartItem_UserID i
                                 =? Go.uint_of_float64 (UintOverflow w) f)
                       (cart_items db'))))
  /\ (forall token0 db0 db1 items,
        GetCartHandler w failing token0 db0 = (db1, Ok items) ->
        db1 = db0 /\ items <> []).
Proof.
  intros Hserve Hst Hfind. split.
  - destruct (AddToCartHandler_answer w token c db db' r Hserve Hst)
      as (f & item & Hclaim & Hbody & Hin & Hu & _).
    exists f, item. split; [exact Hclaim|]. split; [exact Hbody|].
    assert (Hmine : In item
                      (List.filter
                         (fun i => CartItem_UserID i
                                   =? Go.uint_of_float64 (UintOverflow w) f)
                         (cart_items db'))).
    { apply List.filter_In. split; [exact Hin|]. rewrite Hu. apply Z.eqb_refl. }
    split; [exact Hmine|].
    unfold GetCartHandler, claims_user_id, rows.Find, rows.attempt.
    run_handler. rewrite Hclaim; cbn. rewrite Hfind; cbn.
    destruct (List.filter _ (cart_items db')) as [|x l] eqn:Hitems;
      [destruct Hmine|reflexivity].
  - intros token0 db0 db1 items.
    unfold GetCartHandler, claims_user_id, rows.Find, rows.attempt.
    run_handler.
    destruct (jwt.Claims token0 !! "user_id") as [[| |f| |]|]; cbn;
      try discriminate.
    rewrite Hfind; cbn.
    destruct (List.filter _ (cart_items db0)) as [|x l]; cbn;
      [discriminate|].
    intros H. injection H as <- <-. split; [reflexivity|discriminate].
Qed.

Lemma cart_shows_what_was_added_witness :
  GetCartHandler Sample.world Scenario.no_faults Sample.alice_token
    Sample.db_cart
  = (Sample.db_cart, Ok (cart_items Sample.db_cart)).
Proof.
  edestruct (fun r =>
               cart_shows_what_was_added Sample.world Scenario.no_faults
                 Sample.alice_token
                 {| cart_BookID := 5; cart_Quantity := 1 |}
                 Sample.db_shop Sample.db_cart r)
    as ((f & item & Hclaim & _ & _ & Hcart) & _).
  - vm_compute. reflexivity.
  - reflexivity.
  - reflexivity.
  - vm_compute in Hclaim. injection Hclaim as <-.
    rewrite Hcart. vm_compute. reflexivity.
Defined.

(** ** The routes of the administrator *)

(** X16: the administrator's routes on a cart do what the user's own do.
    For the user a token names, and when the database fails for both alike,
    [GetUserCartHandler] sends what [GetCartHandler] sends the user, and
    [DeleteCartItemHandler] answers and changes the database exactly as the
    user's [RemoveFromCartHandler]. *)
Theorem admin_routes_match_user_routes (w : World)
    (failing failing' : Statement -> bool) (token : jwt.Token) (f : Z)
    (db : DB) :
  jwt.Claims token !! "user_id" = Some (jwt.VFloat64 f) ->
  failing' SUserCart = failing SCartFind ->
  failing' SDeleteCartItem = failing SRemoveItem ->
  failing' SDeleteCartDelete = failing SRemoveDelete ->
  GetUserCartHandler failing'
    (Some (Go.uint_of_float64 (UintOverflow w) f)) db
  = GetCartHandler w failing token db
  /\ (forall b,
        serve (DeleteCartItemHandler failing'
                 (Some (Go.uint_of_float64 (UintOverflow w) f)) (Some b)) db
        = serve (RemoveFromCartHandler w failing token (Some b)) db).
Proof.
  intros Hclaim Hfind Hitem Hdelete. split.
  - unfold GetUserCartHandler, GetCartHandler, claims_user_id.
    run_handler. rewrite Hclaim, Hfind. reflexivity.
  - intros b. unfold DeleteCartItemHandler, RemoveFromCartHandler,
      claims_user_id.
    run_handler. rewrite Hclaim, Hitem, Hdelete. reflexivity.
Qed.

Lemma admin_routes_match_user_routes_witness :
  GetUserCartHandler Scenario.no_faults (Some 1) Sample.db_cart
  = (Sample.db_cart, Ok (cart_items Sample.db_cart)).
Proof.
  etransitivity.
  - apply (proj1 (admin_routes_match_user_routes Sample.world
                    Scenario.no_faults Scenario.no_faults Sample.alice_token 1
                    Sample.db_cart ltac:(vm_compute; reflexivity)
                    eq_refl eq_refl eq_refl)).
  - vm_compute. reflexivity.
Defined.

(** ** Accounts stay distinct *)

(** The key a successful registration was given was not in the table. *)
Lemma RegisterHandler_fresh_key (w : World) (d : RegisterData) (db db' : DB)
    (r : Response) :
  serve (RegisterHandler w (Some d)) db = (db', Replied r) ->
  status r = StatusOK ->
  existsb (fun u => ID u =? users_seq db + 1) (users db) = false.
Proof.
  intros Hserve Hst. revert Hserve.
  unfold RegisterHandler, create_user, gorm.Create. run_handler.
  destruct (validate_RegisterData w d); cbn; [|intros H; failed_reply H Hst].
  destruct (gorm.First _ _ _ _ _) as [|e]; cbn; [intros H; failed_reply H Hst|].
  destruct (bcrypt.GenerateFromPassword _ _ _); cbn;
    [|intros H; failed_reply H Hst].
  destruct (Fault w QRegisterCreate); cbn; [intros H; failed_reply H Hst|].
  destruct (existsb _ _); cbn; [intros H; failed_reply H Hst|].
  reflexivity.
Qed.

(** X17: registration keeps accounts distinct.  In a table of users with
    unique keys and unique emails, a registration whose lookup the database
    answers leaves a table of the same kind, whether it succeeds or not.
    [UpdateProfile] makes no such lookup: after Bob's profile has taken
    Alice's email, two rows hold it. *)
Theorem registration_keeps_accounts_distinct (w : World)
    (c : option RegisterData) (db : DB) :
  Fault w QRegisterLookup = false ->
  unique_keys ID (users db) ->
  NoDup (List.map Email (users db)) ->
  unique_keys ID (users (fst (serve (RegisterHandler w c) db)))
  /\ NoDup (List.map Email (users (fst (serve (RegisterHandler w c) db))))
  /\ exists u1 u2,
      users Scenario.db_same_email = [u1; u2]
      /\ ID u1 <> ID u2
      /\ Email u1 = Email u2.
Proof.
  intros Hlookup Hkeys Hemails.
  assert (Hscenario : exists u1 u2,
             users Scenario.db_same_email = [u1; u2]
             /\ ID u1 <> ID u2 /\ Email u1 = Email u2).
  { eexists _, _. split; [vm_compute; reflexivity|].
    split; [cbn; lia|reflexivity]. }
  destruct (served (RegisterHandler w c) db)
    as [Hfail|(db' & r & Hserve & Hst)];
    [rewrite (RegisterHandler_failed _ _ _ Hfail); auto|].
  rewrite Hserve. cbn [fst].
  destruct c as [d|].
  2:{ revert Hserve. unfold RegisterHandler. run_handler.
      intros H; failed_reply H Hst. }
  pose proof (RegisterHandler_fresh_key w d db db' r Hserve Hst) as Hfresh.
  destruct (RegisterHandler_lookup w d db db' r Hserve Hst) as (_ & e & Hnone).
  destruct (RegisterHandler_success w d db db' r Hserve Hst)
    as (s & _ & _ & _ & -> & _ & _).
  rewrite First_rows in Hnone. apply First_Err in Hnone; [|exact Hlookup].
  cbn [users with_users]. unfold unique_keys. rewrite !List.map_app. cbn.
  split; [|split; [|exact Hscenario]]; apply NoDup_app.
  - split; [exact Hkeys|]. split; [|apply NoDup_singleton].
    intros k Hk ->%list_elem_of_singleton.
    apply (existsb_key_false ID _ _ Hfresh). apply list_elem_of_In. exact Hk.
  - split; [exact Hemails|]. split; [|apply NoDup_singleton].
    intros m Hm ->%list_elem_of_singleton.
    apply list_elem_of_In, List.in_map_iff in Hm as (u & Hu & Hin).
    assert (Hmatch : In u (List.filter
                             (fun u => String.eqb (Email u) (reg_Email d))
                             (users db))).
    { apply List.filter_In. split; [exact Hin|]. rewrite Hu.
      apply String.eqb_refl. }
    rewrite Hnone in Hmatch. destruct Hmatch.
Qed.

Lemma registration_keeps_accounts_distinct_witness :
  NoDup (List.map Email (users Scenario.db_two_users))
  /\ List.map Email (users Scenario.db_two_users)
     = ["alice@example.org"; "bob@example.org"].
Proof.
  split; [|vm_compute; reflexivity].
  apply (registration_keeps_accounts_distinct Sample.world_later
           (Some Sample.bob) Sample.db_cart).
  - reflexivity.
  - vm_compute. apply NoDup_singleton.
  - vm_compute. apply NoDup_singleton.
Defined.

(** ** The routes that only read *)

(** X18: the routes that read never write.  Whatever the request, the token
    and the answers of the database, a login, the two routes for the name of
    the user, a logout, and the listings of a cart, of all carts and of all
    users leave the database as it was; the logout is always answered with
    status 200 and a [jwt] cookie that is empty and expires at the time of
    the request. *)
Theorem reading_routes_do_not_write (w : World) (failing : Statement -> bool)
    (token : jwt.Token) (c : option LoginData) (userID : option Z) (db : DB) :
  fst (serve (LoginHandler w c) db) = db
  /\ fst (serve (GetUserNameHandler w token) db) = db
  /\ fst (serve (UserHomePageHandler w failing token) db) = db
  /\ fst (GetCartHandler w failing token db) = db
  /\ fst (GetAllCartItemsHandler failing db) = db
  /\ fst (GetUserCartHandler failing userID db) = db
  /\ fst (GetAllUsersHandler failing db) = db
  /\ exists r,
      serve (LogoutHandler w) db = (db, Replied r)
      /\ status r = StatusOK
      /\ cookies r = [{| Name := "jwt"; Value := ""; Expires := Now w;
                         HTTPOnly := true |}].
Proof.
  repeat split.
  - unfold LoginHandler. run_handler. handler_cases; reflexivity.
  - unfold GetUserNameHandler, claims_user_id. run_handler.
    handler_cases; reflexivity.
  - unfold UserHomePageHandler, claims_user_id. run_handler.
    handler_cases; reflexivity.
  - unfold GetCartHandler, claims_user_id. run_handler.
    handler_cases; reflexivity.
  - unfold GetAllCartItemsHandler. run_handler. handler_cases; reflexivity.
  - unfold GetUserCartHandler. run_handler. handler_cases; reflexivity.
  - unfold GetAllUsersHandler. run_handler. handler_cases; reflexivity.
  - eexists. split; [reflexivity|]. split; reflexivity.
Qed.
